(** * Surface plots: a shallow embedding of [plotly_helpers.py] and [app.py]

    The development follows the two source files of the dashboard:
    [plotly_helpers.py] (colour scales, surface descriptors, scene layout,
    percentage difference, annotation traces) and [app.py] (the module-level
    loop that builds one pair of surfaces per combination, and the
    [add_trace] callback that rewrites the figure store).

    Conventions of the embedding.
    - Python [int] is [Z].  The grids of the surfaces and the constants of
      the layout are exact rationals [Q]: the code only stores, compares and
      indexes them.  Where the code computes with numpy arrays
      ([percentage_difference]) the arithmetic is numpy's: [float64] is IEEE
      754 binary64 as specified by the standard library's [SpecFloat]
      (rounding to nearest even, signed zeros, infinities, NaN), [int64] wraps
      around.
    - Python exceptions are the constructors of [exn]; a computation that may
      raise returns a [result].
    - A Python [dict] with string keys is a [gmap string _]; a missing key
      raises [KeyError].
    - plotly's graph objects ([go.Surface], [go.Layout], [go.Figure], the
      traces added by [add_scatter3d] and [add_cone]) are records holding the
      keyword arguments the code passes.  [go.Surface], [add_scatter3d] and
      [add_cone] validate what they are given and raise [ValueError] on a
      value they reject (an empty colour scale, a scalar coordinate, a
      string that is no colour).  The validators are plotly's, not this
      repository's: the embedding takes them as parameters
      ([SurfaceValidator], [TraceValidator]), and every property holds for
      whatever they accept. *)

From stdpp Require Import gmap strings list.
From Stdlib Require Import ZArith QArith Qminmax Qabs Lia Ascii SpecFloat.

Open Scope string_scope.
Open Scope list_scope.
Open Scope Z_scope.

(** ** Exceptions and the error monad *)

Inductive exn : Set :=
| ValueError
| IndexError
| KeyError
| TypeError.

Inductive result (A : Type) : Type :=
| Ok (a : A)
| Raise (e : exn).

Arguments Ok {A} a.
Arguments Raise {A} e.

Definition bind {A B : Type} (r : result A) (k : A -> result B) : result B :=
  match r with
  | Ok a => k a
  | Raise e => Raise e
  end.

Notation "x <- r ;; k" := (bind r (fun x => k))
  (at level 100, r at next level, right associativity).

Definition is_ok {A : Type} (r : result A) : Prop :=
  match r with Ok _ => True | Raise _ => False end.

(** [for x in xs: acc = body(acc, x)], stopping at the first exception. *)
Fixpoint for_each {A S : Type} (body : S -> A -> result S) (xs : list A) (acc : S)
  : result S :=
  match xs with
  | [] => Ok acc
  | x :: rest => acc' <- body acc x ;; for_each body rest acc'
  end.

(** ** Python sequences *)

(** [l[i]] for a Python list: negative indices count from the end, anything
    out of range raises [IndexError]. *)
Definition py_index {A : Type} (l : list A) (i : Z) : result A :=
  let n := Z.of_nat (length l) in
  let j := if i <? 0 then i + n else i in
  if (0 <=? j) && (j <? n)
  then match l !! Z.to_nat j with
       | Some x => Ok x
       | None => Raise IndexError
       end
  else Raise IndexError.

(** [l[:n]]: a slice never raises, it clamps. *)
Definition py_slice_to {A : Type} (l : list A) (n : Z) : list A :=
  let len := Z.of_nat (length l) in
  let stop := if n <? 0 then Z.max 0 (n + len) else Z.min n len in
  take (Z.to_nat stop) l.

(** [range(n)] *)
Definition py_range (n : Z) : list Z :=
  map Z.of_nat (seq 0 (Z.to_nat n)).

(** [d[k]] for a dict. *)
Definition py_getitem {V : Type} (d : gmap string V) (k : string) : result V :=
  match d !! k with
  | Some v => Ok v
  | None => Raise KeyError
  end.

(** [needle in hay] for two Python strings. *)
Fixpoint str_contains (needle hay : string) : bool :=
  if String.prefix needle hay then true
  else match hay with
       | EmptyString => false
       | String _ hay' => str_contains needle hay'
       end.

(** ** numpy helpers *)

(** The samples of [np.linspace(0, 1, num)]: sample [i] is [i / (num - 1)]
    (a single sample is [0]). *)
Definition linspace01_points (num : Z) : list Q :=
  map (fun i => Qmake (Z.of_nat i) (Z.to_pos (num - 1))) (seq 0 (Z.to_nat num)).

(** [np.linspace(0, 1, num)]: [num] evenly spaced samples, end point
    included; a negative [num] raises [ValueError]. *)
Definition np_linspace01 (num : Z) : result (list Q) :=
  if num <? 0 then Raise ValueError
  else Ok (linspace01_points num).

(** [np.arange(0, stop, step)] on integers, for a positive [step]. *)
Definition np_arange0 (stop step : Z) : list Z :=
  map (fun k => Z.of_nat k * step)
      (seq 0 (Z.to_nat ((stop + step - 1) / step))).

(** ** [plotly_helpers.py]: the palette table *)

Definition COLOR_SCALES : gmap string (list string) :=
  list_to_map [
    ("Set3", ["#8DD3C7"; "#FFFFB3"; "#BEBADA"; "#FB8072"; "#80B1D3"; "#FDB462";
              "#B3DE69"; "#FCCDE5"; "#D9D9D9"; "#BC80BD"; "#CCEBC5"; "#FFED6F"]);
    ("R_rainbow_10", ["#FF0000"; "#FF9900"; "#CCFF00"; "#33FF00"; "#00FF66";
                      "#00FFFF"; "#0066FF"; "#3300FF"; "#CC00FF"; "#FF0099"]);
    ("D3", ["#1f77b4"; "#ff7f0e"; "#2ca02c"; "#d62728"; "#9467bd"; "#8c564b";
            "#e377c2"; "#7f7f7f"; "#bcbd22"; "#17becf"]);
    ("Plotly", ["#636efa"; "#EF553B"; "#00cc96"; "#ab63fa"; "#FFA15A"; "#19d3f3";
                "#FF6692"; "#B6E880"; "#FF97FF"; "#FECB52"]);
    ("G10", ["#3366CC"; "#DC3912"; "#FF9900"; "#109618"; "#990099"; "#3B3EAC";
             "#0099C6"; "#DD4477"; "#66AA00"; "#B82E2E"]);
    ("Set1", ["#e41a1c"; "#377eb8"; "#4daf4a"; "#984ea3"; "#ff7f00"; "#ffff33";
              "#a65628"; "#f781bf"; "#999999"]);
    ("Light24", ["#FD3216"; "#00FE35"; "#6A76FC"; "#FED4C4"; "#FE00CE"; "#0DF9FF";
                 "#F6F926"; "#FF9616"; "#479B55"; "#EEA6FB"; "#DC587D"; "#D626FF";
                 "#6E899C"; "#00B5F7"; "#B68E00"; "#C9FBE5"; "#FF0092"; "#22FFA7";
                 "#E3EE9E"; "#86CE00"; "#BC7196"; "#7E7DCD"; "#FC6955"; "#E48F72"]);
    ("Vivid", ["rgb(229, 134, 6)"; "rgb(93, 105, 177)"; "rgb(82, 188, 163)";
               "rgb(153, 201, 69)"; "rgb(204, 97, 176)"; "rgb(36, 121, 108)";
               "rgb(218, 165, 27)"; "rgb(47, 138, 196)"; "rgb(118, 78, 159)";
               "rgb(237, 100, 90)"; "rgb(165, 170, 153)"]);
    ("Pastel", ["rgb(102, 197, 204)"; "rgb(246, 207, 113)"; "rgb(248, 156, 116)";
                "rgb(220, 176, 242)"; "rgb(135, 197, 95)"; "rgb(158, 185, 243)";
                "rgb(254, 136, 177)"; "rgb(201, 219, 116)"; "rgb(139, 224, 164)";
                "rgb(180, 151, 231)"; "rgb(179, 179, 179)"])
  ].

(** ** [make_colorscale_distinct] *)

(** One turn of the loop: two entries for colour [i], its interval start and
    its interval end.  The tuple [(scaled_values[i], colors[i])] evaluates
    its components left to right. *)
Definition colorscale_step (scaled_values : list Q) (colors : list string)
    (colorscale : list (Q * string)) (i : Z) : result (list (Q * string)) :=
  s0 <- py_index scaled_values i ;;
  c0 <- py_index colors i ;;
  s1 <- py_index scaled_values (i + 1) ;;
  c1 <- py_index colors i ;;
  Ok (colorscale ++ [(s0, c0); (s1, c1)]).

Definition make_colorscale_distinct (n_colors : Z) (pal : string)
  : result (list (Q * string)) :=
  scaled_values <- np_linspace01 (n_colors + 1) ;;
  colors <- match COLOR_SCALES !! pal with
            | Some colors => Ok colors
            | None => Raise ValueError
            end ;;
  let colors := py_slice_to colors n_colors in
  for_each (colorscale_step scaled_values colors) (py_range n_colors) [].

(** The value the loop of [make_colorscale_distinct] builds, in closed form:
    colour number [a], [a + 1], ... of [colors], each at the start and at the
    end of its interval of width [1 / n_colors].  [colorscale_loop_closed_form]
    proves that the loop computes it. *)
Fixpoint stepped_from (n_colors : Z) (a : nat) (colors : list string)
  : list (Q * string) :=
  match colors with
  | [] => []
  | c :: rest =>
      (Qmake (Z.of_nat a) (Z.to_pos n_colors), c)
      :: (Qmake (Z.of_nat (S a)) (Z.to_pos n_colors), c)
      :: stepped_from n_colors (S a) rest
  end.

(** ** Grids and numpy reductions *)

(** A 2-D array, row by row (what [DataFrame.to_numpy()] yields and what
    [tolist()] turns into nested lists). *)
Definition grid : Type := list (list Q).

(** [a.T] *)
Fixpoint transpose (a : grid) : grid :=
  match a with
  | [] => []
  | row :: rest =>
      match rest with
      | [] => map (fun v => [v]) row
      | _ :: _ => zip_with cons row (transpose rest)
      end
  end.

(** [a.max()] over all entries of a grid; a zero-size array raises
    [ValueError]. *)
Definition np_max (a : grid) : result Q :=
  match concat a with
  | [] => Raise ValueError
  | v :: vs => Ok (fold_left Qmax vs v)
  end.

(** [a > b] on numbers. *)
Definition Qgtb (a b : Q) : bool :=
  match (a ?= b)%Q with
  | Gt => true
  | _ => false
  end.

(** ** [create_surface] *)

Record colorbar : Type := {
  cb_tickmode : string;
  cb_tickvals : list Z;
  cb_ticktext : list Z;
  cb_orientation : string;
  cb_y : Q;
  cb_x : Q;
  cb_len : Q;
  cb_tickfont_size : Z
}.

Record contour : Type := {
  ct_show : bool;
  ct_start : Q;
  ct_end : Q;
  ct_size : Q;
  ct_color : string;
  ct_width : Z
}.

Record lighting : Type := {
  ambient : Q;
  diffuse : Q
}.

Record surface : Type := {
  srf_x : list Q;
  srf_y : list Q;
  srf_z : grid;
  opacity : Q;
  colorscale : list (Q * string);
  cmin : Z;
  cmax : Z;
  showscale : bool;
  srf_colorbar : colorbar;
  contours_x : contour;
  contours_y : contour;
  hoverinfo : string;
  srf_lighting : lighting
}.

(** The expression used for both [tickvals] and [ticktext]. *)
Definition colorbar_ticks (n_colors : Z) : list Z :=
  if 6 <? n_colors then np_arange0 (n_colors + 1) 2
  else np_arange0 (n_colors + 1) 1.

(** [go.Surface(...)] checks its keyword arguments and raises [ValueError]
    when it rejects one; [surface_accepted] is that check. *)
Class SurfaceValidator : Type := {
  surface_accepted : surface -> bool
}.

(** The keyword arguments [create_surface] hands to [go.Surface]. *)
Definition surface_kwargs (x y : list Q) (z : grid)
    (colors_scaled : list (Q * string)) (n_colors : Z)
    (opacity : Q) (show_colorbar : bool) (ambient_light : Q) : surface :=
  {| srf_x := x;
     srf_y := y;
     srf_z := z;
     opacity := opacity;
     colorscale := colors_scaled;
     cmin := 0;
     cmax := n_colors;
     showscale := show_colorbar;
     srf_colorbar :=
       {| cb_tickmode := "array";
          cb_tickvals := colorbar_ticks n_colors;
          cb_ticktext := colorbar_ticks n_colors;
          cb_orientation := "v";
          cb_y := 0.5;
          cb_x := 0.85;
          cb_len := 0.5;
          cb_tickfont_size := 20 |};
     contours_x :=
       {| ct_show := true; ct_start := 0; ct_end := 10; ct_size := 2;
          ct_color := "black"; ct_width := 5 |};
     contours_y :=
       {| ct_show := true; ct_start := 0; ct_end := 1.5; ct_size := 0.5;
          ct_color := "black"; ct_width := 5 |};
     hoverinfo := "skip";
     srf_lighting := {| ambient := ambient_light; diffuse := 0.5 |} |}.

Definition create_surface {plotly : SurfaceValidator} (x y : list Q) (z : grid)
    (colors_scaled : list (Q * string)) (n_colors : Z)
    (opacity : Q) (show_colorbar : bool) (ambient_light : Q) : result surface :=
  let kwargs :=
    surface_kwargs x y z colors_scaled n_colors opacity show_colorbar ambient_light in
  if surface_accepted kwargs then Ok kwargs else Raise ValueError.

(** The two emphasis settings the pair loop hands to [create_surface]. *)
Definition is_background (s : surface) : Prop :=
  opacity s = 1.0%Q /\ showscale s = false /\ ambient (srf_lighting s) = 0.9%Q.

Definition is_foreground (s : surface) : Prop :=
  opacity s = 0.8%Q /\ showscale s = true /\ ambient (srf_lighting s) = 0.5%Q.

(** ** [app.py]: the module-level loop over the surface pairs *)

(** One group of the pickled [surface_data]. *)
Record group : Type := {
  axes_x_values : list Q;
  axes_y_values : list Q;
  files : gmap string grid;
  group_colorscale : gmap string (list (Q * string));
  group_n_colors : gmap string Z;
  combinations : list (string * string)
}.

(** [data.T if "WIP" in names[0] else data] *)
Definition oriented (name : string) (data : grid) : grid :=
  if str_contains "WIP" name then transpose data else data.

(** The body of [for names in combinations]. *)
Definition pair_surfaces {plotly : SurfaceValidator} (g : group)
    (names : string * string) : result (surface * surface) :=
  data_1 <- py_getitem (files g) (fst names) ;;
  data_2 <- py_getitem (files g) (snd names) ;;
  let data_1 := oriented (fst names) data_1 in
  let data_2 := oriented (fst names) data_2 in
  data_1_max <- np_max data_1 ;;
  data_2_max <- np_max data_2 ;;
  colors_1 <- py_getitem (group_colorscale g) (fst names) ;;
  n_1 <- py_getitem (group_n_colors g) (fst names) ;;
  surface_1 <-
    create_surface (axes_x_values g) (axes_y_values g) data_1 colors_1
      (if negb (str_contains "SEE" (fst names)) then n_1 else n_1 * 2)
      (if Qgtb data_2_max data_1_max then 1.0 else 0.8)%Q
      (if Qgtb data_2_max data_1_max then false else true)
      (if Qgtb data_2_max data_1_max then 0.9 else 0.5)%Q ;;
  colors_2 <- py_getitem (group_colorscale g) (snd names) ;;
  n_2 <- py_getitem (group_n_colors g) (snd names) ;;
  surface_2 <-
    create_surface (axes_x_values g) (axes_y_values g) data_2 colors_2
      (if negb (str_contains "SEE" (snd names)) then n_2 else n_2 * 2)
      (if Qgtb data_2_max data_1_max then 0.8 else 1.0)%Q
      (if Qgtb data_2_max data_1_max then true else false)
      (if Qgtb data_2_max data_1_max then 0.5 else 0.9)%Q ;;
  Ok (surface_1, surface_2).

(** [traces]: one [[surface_1, surface_2]] per combination of every group,
    in the order of [surface_data]. *)
Definition build_traces {plotly : SurfaceValidator}
    (surface_data : list (string * group)) : result (list (surface * surface)) :=
  for_each
    (fun traces kg =>
       for_each
         (fun traces names =>
            pair <- pair_surfaces (snd kg) names ;;
            Ok (traces ++ [pair]))
         (combinations (snd kg)) traces)
    surface_data [].

(** The pairs the loop visits, in order, each with its group. *)
Definition all_pairs (surface_data : list (string * group))
  : list (group * (string * string)) :=
  flat_map (fun kg => map (fun names => (snd kg, names)) (combinations (snd kg)))
           surface_data.

(** A small group with one pair, used to run the loop body: two 2x2 grids,
    each with the stepped colour scale [make_colorscale_distinct] builds for
    its group count from the palette "Set1". *)
Definition demo_group : group :=
  {| axes_x_values := [0; 2]%Q;
     axes_y_values := [0; 0.5]%Q;
     files := list_to_map [("CS_SEE_A", [[1; 2]; [3; 4]]%Q);
                           ("CS_SEE_B", [[1; 2]; [3; 5]]%Q)];
     group_colorscale :=
       list_to_map
         [("CS_SEE_A", stepped_from 3 0 ["#e41a1c"; "#377eb8"; "#4daf4a"]);
          ("CS_SEE_B", stepped_from 4 0 ["#e41a1c"; "#377eb8"; "#4daf4a"; "#984ea3"])];
     group_n_colors := list_to_map [("CS_SEE_A", 3); ("CS_SEE_B", 4)];
     combinations := [("CS_SEE_A", "CS_SEE_B")] |}.

(** ** [create_layout] *)

Record font : Type := {
  font_size : Z;
  font_color : option string;
  font_family : option string
}.

Definition BACKGROUND_COLOR : string := "#999".
Definition LINE_COLOR : string := "black".
Definition LINE_WIDTH : Z := 5.
Definition TICK_COLOR : string := "white".
Definition TICK_FONT : font :=
  {| font_size := 21; font_color := Some "black"; font_family := Some "Arial" |}.
Definition TICK_LEN : Z := 20.
Definition TICK_WIDTH : Z := 5.
Definition ANNOTATION_FONT : font :=
  {| font_size := 35; font_color := Some "black"; font_family := Some "Arial" |}.

Record axis : Type := {
  backgroundcolor : string;
  linecolor : string;
  linewidth : Z;
  mirror : bool;
  range : list Q;
  showbackground : bool;
  showgrid : bool;
  showline : bool;
  showticklabels : bool;
  tickcolor : string;
  tickfont : font;
  ticklen : Z;
  tickmode : string;
  ticks : string;
  ticktext : list string;
  tickvals : list Q;
  tickwidth : Z;
  axis_title : string
}.

(** The keyword arguments shared by the three axes. *)
Definition make_axis (rng : list Q) (text : list string) (vals : list Q) : axis :=
  {| backgroundcolor := BACKGROUND_COLOR;
     linecolor := LINE_COLOR;
     linewidth := LINE_WIDTH;
     mirror := true;
     range := rng;
     showbackground := true;
     showgrid := true;
     showline := true;
     showticklabels := true;
     tickcolor := TICK_COLOR;
     tickfont := TICK_FONT;
     ticklen := TICK_LEN;
     tickmode := "array";
     ticks := "outside";
     ticktext := text;
     tickvals := vals;
     tickwidth := TICK_WIDTH;
     axis_title := "" |}.

(** A scene annotation; the keys a given annotation does not set are [None]. *)
Record annotation : Type := {
  ann_x : Q;
  ann_y : Q;
  ann_z : Q;
  ann_text : string;
  ann_font : font;
  ann_xanchor : string;
  ann_yanchor : option string;
  ann_textangle : option Z;
  ann_xshift : option Z;
  ann_yshift : option Z;
  ann_showarrow : option bool;
  ann_bgcolor : option string;
  ann_bordercolor : option string;
  ann_arrowhead : option Z;
  ann_ax : option Z;
  ann_ay : option Z
}.

Record xyz : Type := { at_x : Q; at_y : Q; at_z : Q }.

Record scene : Type := {
  aspectmode : string;
  aspectratio : xyz;
  xaxis : axis;
  yaxis : axis;
  zaxis : axis;
  annotations : list annotation;
  camera_center : xyz;
  camera_eye : xyz
}.

Record margin : Type := {
  margin_r : Z; margin_b : Z; margin_l : Z; margin_t : Z; margin_pad : Z;
  margin_autoexpand : bool
}.

Record layout : Type := {
  autosize : bool;
  height : Z;
  layout_margin : margin;
  layout_title : string;
  layout_scene : scene
}.

(** [_extracted_from_create_layout_31]: two expression statements whose
    values are dropped, then the bottom-right corner [arg0[-1][-1]]. *)
Definition _extracted_from_create_layout_31 (arg0 : grid) : result Q :=
  _ <- match arg0 with
       | [] => Ok 0
       | _ :: _ => row <- py_index arg0 0 ;; Ok (Z.of_nat (length row))
       end ;;
  let _ := Z.of_nat (length arg0) in
  last_row <- py_index arg0 (-1) ;;
  py_index last_row (-1).

(** An axis-label annotation ([showarrow=False], [ANNOTATION_FONT]). *)
Definition label_annotation (x y z : Q) (textangle : Z) (text : string)
    (xanchor yanchor : string) (xshift : Z) (yshift : option Z) : annotation :=
  {| ann_x := x; ann_y := y; ann_z := z;
     ann_text := text;
     ann_font := ANNOTATION_FONT;
     ann_xanchor := xanchor;
     ann_yanchor := Some yanchor;
     ann_textangle := Some textangle;
     ann_xshift := Some xshift;
     ann_yshift := yshift;
     ann_showarrow := Some false;
     ann_bgcolor := None;
     ann_bordercolor := None;
     ann_arrowhead := None;
     ann_ax := None;
     ann_ay := None |}.

(** A pointer annotation carrying a surface's name. *)
Definition pointer_annotation (y z : Q) (text : string) (ay : Z) : annotation :=
  {| ann_x := 10; ann_y := y; ann_z := z;
     ann_text := text;
     ann_font := {| font_size := 21; font_color := None; font_family := None |};
     ann_xanchor := "left";
     ann_yanchor := None;
     ann_textangle := None;
     ann_xshift := None;
     ann_yshift := None;
     ann_showarrow := None;
     ann_bgcolor := Some "white";
     ann_bordercolor := Some "black";
     ann_arrowhead := Some 6;
     ann_ax := Some 70;
     ann_ay := Some ay |}.

Definition create_layout (x_label y_label z_label : string)
    (surface_1_name surface_2_name : string)
    (surface_1_2d_list surface_2_2d_list : grid)
    (x_scale y_scale z_scale : Q) : result layout :=
  let is_wpi := str_contains "WPI" surface_1_name in
  let y_tick_labels_cs := ["0"; "0.5"; "1.0"; "1.5"] in
  let y_tick_vals_cs := [0; 0.5; 1; 1.5]%Q in
  let y_tick_labels_wpi := ["15"; "12"; "9"; "6"] in
  let y_tick_vals_wpi := [15; 12; 9; 6]%Q in
  let z_tick_labels_see := [""; "2"; "4"; "6"; "8"; "10"; "12"; "14"] in
  let z_tick_vals_see := [0; 2; 4; 6; 8; 10; 12; 14]%Q in
  let z_tick_labels_wpi :=
    [""; "2"; "4"; "6"; "8"; "10"; "12"; "14"; "16"; "18"; "20"] in
  let z_tick_vals_wpi := [0; 2; 4; 6; 8; 10; 12; 14; 16; 18; 20]%Q in
  let z_tick_labels_shown := if is_wpi then z_tick_labels_wpi else z_tick_labels_see in
  let z_tick_vals_shown := if is_wpi then z_tick_vals_wpi else z_tick_vals_see in
  annotation_1_z <- _extracted_from_create_layout_31 surface_1_2d_list ;;
  annotation_2_z <- _extracted_from_create_layout_31 surface_2_2d_list ;;
  Ok {| autosize := false;
        height := 900;
        layout_margin :=
          {| margin_r := 0; margin_b := 0; margin_l := 0; margin_t := 0;
             margin_pad := 0; margin_autoexpand := true |};
        layout_title := "";
        layout_scene :=
          {| aspectmode := "manual";
             aspectratio := {| at_x := x_scale; at_y := y_scale; at_z := z_scale |};
             xaxis :=
               make_axis [0; 10]%Q ["0"; "2"; "4"; "6"; "8"; "10"]
                         [0; 2; 4; 6; 8; 10]%Q;
             yaxis :=
               make_axis
                 (if str_contains "WPI" surface_1_name then [15; 6] else [0.00; 1.5])%Q
                 (if str_contains "WPI" surface_1_name
                  then y_tick_labels_wpi else y_tick_labels_cs)
                 (if str_contains "WPI" surface_1_name
                  then y_tick_vals_wpi else y_tick_vals_cs);
             zaxis :=
               make_axis
                 (if str_contains "SEE" surface_1_name then [0; 14] else [0; 6])%Q
                 z_tick_labels_shown
                 z_tick_vals_shown;
             annotations :=
               [ label_annotation 3 0.2 0 21 x_label "center" "top" 20 (Some (-71));
                 label_annotation 9.8 0.25 0 (-43) y_label "left" "middle" 78 None;
                 label_annotation 0 0.02
                   (if negb (str_contains "SEE" surface_1_name) then 3 else 7)%Q
                   (-94) z_label "right" "middle" (-70) None;
                 pointer_annotation
                   (if negb (str_contains "WPI" surface_1_name) then 1.5 else 0.5)%Q
                   annotation_1_z surface_1_name (-20);
                 pointer_annotation
                   (if negb (str_contains "WPI" surface_1_name) then 1.5 else 0.5)%Q
                   annotation_2_z surface_2_name 20 ];
             camera_center := {| at_x := 0.2; at_y := 0.1; at_z := 0 |};
             camera_eye := {| at_x := 0.96; at_y := -1.12; at_z := 0.26 |} |} |}.

(** ** [percentage_difference] *)

(** *** numpy numbers

    A [float64] is an IEEE 754 binary64 number as the standard library
    specifies it ([spec_float] at precision 53 and maximal exponent 1024):
    the four operations round to nearest, ties to even, and division by
    zero yields an infinity or NaN instead of raising.  An [int64] is an
    integer in [[-2^63, 2^63)]; its arithmetic wraps around. *)

Abbreviation float64 := spec_float.

Definition f64_sub : float64 -> float64 -> float64 := SFsub 53 1024.
Definition f64_div : float64 -> float64 -> float64 := SFdiv 53 1024.
Definition f64_mul : float64 -> float64 -> float64 := SFmul 53 1024.
Definition f64_abs : float64 -> float64 := SFabs.

(** The conversion of an integer to [float64] (exact up to [2^53], rounded
    beyond). *)
Definition f64_of_int (z : Z) : float64 := binary_normalize 53 1024 z 0 false.


Definition f64_is_nan (x : float64) : bool :=
  match x with S754_nan => true | _ => false end.




(** [x < y] and [x == y] on [float64]: false as soon as one side is NaN. *)
Definition f64_ltb : float64 -> float64 -> bool := SFltb.

(** The reduction step of [np.max] and [np.min] on floats: NaN wins, and of
    two equal values the one met first is kept.  (Which of [0.0] and [-0.0]
    a tie returns is not fixed by numpy; it matters to
    [percentage_difference] only through the sign of the zero divisor of an
    all-zero base array.) *)
Definition f64_maximum (acc x : float64) : float64 :=
  if f64_is_nan acc then acc
  else if f64_is_nan x then x
  else if f64_ltb acc x then x else acc.

Definition f64_minimum (acc x : float64) : float64 :=
  if f64_is_nan acc then acc
  else if f64_is_nan x then x
  else if f64_ltb x acc then x else acc.

(** The value of an [int64] computation whose exact result is [z]. *)
Definition int64_wrap (z : Z) : Z := (z + 2 ^ 63) mod 2 ^ 64 - 2 ^ 63.


(** A 2-D array of one of the two dtypes, row by row, and a numpy scalar. *)
Inductive ndarray : Type :=
| Int64Array (a : list (list Z))
| Float64Array (a : list (list float64)).

Inductive npscalar : Type :=
| Int64 (z : Z)
| Float64 (x : float64).

(** [a.astype(float64)] and its scalar form: what numpy does to an integer
    operand of a float operation. *)
Definition as_float64 (a : ndarray) : list (list float64) :=
  match a with
  | Int64Array d => map (map f64_of_int) d
  | Float64Array d => d
  end.

Definition scalar_as_float64 (v : npscalar) : float64 :=
  match v with
  | Int64 z => f64_of_int z
  | Float64 x => x
  end.

Definition ndarray_size (a : ndarray) : nat :=
  match a with
  | Int64Array d => length (concat d)
  | Float64Array d => length (concat d)
  end.

(** The entry at row [i], column [j]. *)
Definition entry {A : Type} (a : list (list A)) (i j : nat) : option A :=
  match a !! i with
  | Some row => row !! j
  | None => None
  end.


(** *** Broadcasting *)

(** Elementwise combination of two sequences along one dimension under
    numpy's broadcasting rule: equal lengths pair up, a length of one is
    stretched, anything else raises [ValueError]. *)
Fixpoint zip_with_result {A B C : Type} (f : A -> B -> result C)
    (a : list A) (b : list B) : result (list C) :=
  match a, b with
  | x :: a', y :: b' =>
      v <- f x y ;; vs <- zip_with_result f a' b' ;; Ok (v :: vs)
  | _, _ => Ok []
  end.

Definition np_broadcast {A B C : Type} (f : A -> B -> result C)
    (a : list A) (b : list B) : result (list C) :=
  if Nat.eqb (length a) (length b) then zip_with_result f a b
  else match a, b with
       | [x], _ => zip_with_result f (replicate (length b) x) b
       | _, [y] => zip_with_result f a (replicate (length a) y)
       | _, _ => Raise ValueError
       end.

Definition np_broadcast_2d {A : Type} (f : A -> A -> A) (a b : list (list A))
  : result (list (list A)) :=
  np_broadcast (np_broadcast (fun x y => Ok (f x y))) a b.

(** *** The function *)

(** [np.abs(a - b)]: on two integer arrays the subtraction and the absolute
    value are [int64] operations (both wrap: [abs] of the least integer is
    the least integer); as soon as one array is a float array the other is
    converted and the operations are those of [float64]. *)
Definition int64_abs_sub (x y : Z) : Z := int64_wrap (Z.abs (int64_wrap (x - y))).

Definition f64_abs_sub (x y : float64) : float64 := f64_abs (f64_sub x y).

Definition np_abs_sub (a b : ndarray) : result ndarray :=
  match a, b with
  | Int64Array da, Int64Array db =>
      d <- np_broadcast_2d int64_abs_sub da db ;; Ok (Int64Array d)
  | _, _ =>
      d <- np_broadcast_2d f64_abs_sub (as_float64 a) (as_float64 b) ;;
      Ok (Float64Array d)
  end.

(** [np.max(a)] and [np.min(a)] over all entries: a scalar of the array's
    dtype; a zero-size array raises [ValueError]. *)
Definition ndarray_max (a : ndarray) : result npscalar :=
  match a with
  | Int64Array d =>
      match concat d with
      | [] => Raise ValueError
      | v :: vs => Ok (Int64 (fold_left Z.max vs v))
      end
  | Float64Array d =>
      match concat d with
      | [] => Raise ValueError
      | v :: vs => Ok (Float64 (fold_left f64_maximum vs v))
      end
  end.

Definition ndarray_min (a : ndarray) : result npscalar :=
  match a with
  | Int64Array d =>
      match concat d with
      | [] => Raise ValueError
      | v :: vs => Ok (Int64 (fold_left Z.min vs v))
      end
  | Float64Array d =>
      match concat d with
      | [] => Raise ValueError
      | v :: vs => Ok (Float64 (fold_left f64_minimum vs v))
      end
  end.

(** [max_value - min_value] on two numpy scalars. *)
Definition npscalar_sub (u v : npscalar) : npscalar :=
  match u, v with
  | Int64 a, Int64 b => Int64 (int64_wrap (a - b))
  | _, _ => Float64 (f64_sub (scalar_as_float64 u) (scalar_as_float64 v))
  end.

(** [difference / max_possible_difference]: true division, always carried
    out in [float64]; a zero divisor gives [inf] or [nan], no exception. *)
Definition np_true_divide (a : ndarray) (d : npscalar) : list (list float64) :=
  map (map (fun x => f64_div x (scalar_as_float64 d))) (as_float64 a).

(** [normalized_difference * 100] *)
Definition np_times_100 (a : list (list float64)) : list (list float64) :=
  map (map (fun x => f64_mul x (f64_of_int 100))) a.

Definition percentage_difference (base_array compare_array : ndarray)
  : result (list (list float64)) :=
  difference <- np_abs_sub base_array compare_array ;;
  max_value <- ndarray_max base_array ;;
  min_value <- ndarray_min base_array ;;
  let max_possible_difference := npscalar_sub max_value min_value in
  let normalized_difference := np_true_divide difference max_possible_difference in
  Ok (np_times_100 normalized_difference).




(** ** Figures and [add_traces_to_figure] *)

(** The Python values that travel through the annotation inputs and the
    trace dictionaries. *)
#[local] Set Warnings "-register-all".
Inductive pyval : Type :=
| PNone
| PNum (q : Q)
| PStr (s : string)
| PList (l : list pyval).

(** [v == 'literal'] : only a string equal to the literal compares equal. *)
Definition py_eq_str (v : pyval) (s : string) : bool :=
  match v with
  | PStr t => String.eqb t s
  | _ => false
  end.

(** [z - 1]: defined on numbers, [TypeError] otherwise. *)
Definition py_sub_1 (z : pyval) : result pyval :=
  match z with
  | PNum q => Ok (PNum (q - 1))
  | _ => Raise TypeError
  end.

Record scatter3d : Type := {
  s3_x : pyval;
  s3_y : pyval;
  s3_z : pyval;
  s3_mode : string;
  s3_text : pyval;
  s3_textposition : string;
  s3_textfont : font;
  s3_showlegend : bool
}.

Record cone : Type := {
  cone_x : pyval;
  cone_y : pyval;
  cone_z : pyval;
  cone_u : list Z;
  cone_v : list Z;
  cone_w : list Z;
  cone_anchor : string;
  cone_colorscale : list (Z * pyval);
  cone_showscale : bool;
  cone_showlegend : bool
}.

Inductive trace : Type :=
| Surface (s : surface)
| Scatter3d (s : scatter3d)
| Cone (c : cone).

Record figure : Type := {
  fig_data : list trace;
  fig_layout : option layout
}.

(** [figure.add_scatter3d(...)] / [figure.add_cone(...)]: the new trace goes
    to the end of the figure's data. *)
Definition add_to_figure (fg : figure) (t : trace) : figure :=
  {| fig_data := fig_data fg ++ [t]; fig_layout := fig_layout fg |}.

(** [figure.add_scatter3d(...)] and [figure.add_cone(...)] build the trace
    from their keyword arguments and raise [ValueError] when plotly rejects
    one of them (a coordinate that is no list, a string that is no colour);
    [scatter3d_accepted] and [cone_accepted] are those checks. *)
Class TraceValidator : Type := {
  scatter3d_accepted : scatter3d -> bool;
  cone_accepted : cone -> bool
}.

(** The keyword arguments of the two calls. *)
Definition scatter3d_kwargs (x y z text : pyval) : scatter3d :=
  {| s3_x := x; s3_y := y; s3_z := z;
     s3_mode := "text";
     s3_text := text;
     s3_textposition := "top center";
     s3_textfont :=
       {| font_size := 18; font_color := Some "black"; font_family := Some "Arial" |};
     s3_showlegend := false |}.

Definition cone_kwargs (x y z color0 color1 : pyval) : cone :=
  {| cone_x := x; cone_y := y; cone_z := z;
     cone_u := [0]; cone_v := [0]; cone_w := [-2];
     cone_anchor := "tip";
     cone_colorscale := [(0, color0); (1, color1)];
     cone_showscale := false;
     cone_showlegend := false |}.

Definition add_scatter3d {plotly : TraceValidator} (fg : figure) (kwargs : scatter3d)
  : result figure :=
  if scatter3d_accepted kwargs then Ok (add_to_figure fg (Scatter3d kwargs))
  else Raise ValueError.

Definition add_cone {plotly : TraceValidator} (fg : figure) (kwargs : cone)
  : result figure :=
  if cone_accepted kwargs then Ok (add_to_figure fg (Cone kwargs))
  else Raise ValueError.

(** The body of [for trace in data]. *)
Definition add_one_trace {plotly : TraceValidator} (fg : figure)
    (tr : gmap string pyval) : result figure :=
  ty <- py_getitem tr "type" ;;
  if py_eq_str ty "scatter3d" then
    x <- py_getitem tr "x" ;;
    y <- py_getitem tr "y" ;;
    z <- py_getitem tr "z" ;;
    text <- py_getitem tr "text" ;;
    add_scatter3d fg (scatter3d_kwargs x y z text)
  else
    ty' <- py_getitem tr "type" ;;
    if py_eq_str ty' "cone" then
      x <- py_getitem tr "x" ;;
      y <- py_getitem tr "y" ;;
      z <- py_getitem tr "z" ;;
      color0 <- py_getitem tr "color" ;;
      color1 <- py_getitem tr "color" ;;
      add_cone fg (cone_kwargs x y z color0 color1)
    else Ok fg.

Definition add_traces_to_figure {plotly : TraceValidator} (fg : figure)
    (data : list (gmap string pyval)) : result figure :=
  for_each add_one_trace data fg.

(** ** [app.py]: the [add_trace] callback *)

(** [n_clicks] is [None] until the button has been clicked; [figure_dict] is
    the figure shown in the plot window, [figures_dict] the figure store. *)
Definition add_trace {plotly : TraceValidator} (n_clicks : option Z)
    (x y z text color : pyval) (figure_dict : figure) (selected_graph : string)
    (figures_dict : gmap string figure) : result (gmap string figure) :=
  match n_clicks with
  | None => Ok figures_dict
  | Some _ =>
      let fg := figure_dict in
      z_1 <- py_sub_1 z ;;
      let data_dicts : list (gmap string pyval) :=
        [ list_to_map [("type", PStr "scatter3d"); ("x", PList [x]);
                       ("y", PList [y]); ("z", PList [z]);
                       ("text", PList [text])];
          list_to_map [("type", PStr "cone"); ("x", PList [x]);
                       ("y", PList [y]); ("z", PList [z_1]);
                       ("color", color)] ] in
      fg' <- add_traces_to_figure fg data_dicts ;;
      Ok (<[selected_graph := fg']> figures_dict)
  end.

(** The two traces the dictionaries of [add_trace] turn into: what
    [add_scatter3d] builds from the first and [add_cone] from the second. *)
Definition annotation_label (x y z text : pyval) : scatter3d :=
  scatter3d_kwargs (PList [x]) (PList [y]) (PList [z]) (PList [text]).

Definition annotation_cone (x y z_1 color : pyval) : cone :=
  cone_kwargs (PList [x]) (PList [y]) (PList [z_1]) color color.

(** ** Sample validators

    Validators that stand in for plotly's when the code is run on concrete
    inputs.  They are deliberately narrow: everything they accept, plotly
    accepts.  A colour is a ["#rrggbb"] string or one of a few names; a
    colour scale has at least two entries, each a position in [[0, 1]] with
    a colour; opacity and ambient light lie in [[0, 1]]; coordinates are
    lists of numbers and texts are lists of strings. *)

Definition is_hex_digit (c : Ascii.ascii) : bool :=
  let n := Z.of_nat (Ascii.nat_of_ascii c) in
  ((48 <=? n) && (n <=? 57)) || ((65 <=? n) && (n <=? 70))
  || ((97 <=? n) && (n <=? 102)).

Fixpoint all_hex_digits (s : string) : bool :=
  match s with
  | EmptyString => true
  | String c s' => is_hex_digit c && all_hex_digits s'
  end.

Definition is_hex_color (s : string) : bool :=
  match s with
  | String "#"%char rest => Nat.eqb (String.length rest) 6 && all_hex_digits rest
  | _ => false
  end.

Definition sample_color (s : string) : bool :=
  is_hex_color s
  || bool_decide (s ∈ ["red"; "green"; "blue"; "black"; "white"; "rgb(0, 255, 0)"]).

Definition in_unit_interval (q : Q) : bool := Qle_bool 0 q && Qle_bool q 1.

Definition sample_surface_accepted (s : surface) : bool :=
  (2 <=? Z.of_nat (length (colorscale s)))
  && forallb (fun pc => in_unit_interval (fst pc) && sample_color (snd pc))
             (colorscale s)
  && in_unit_interval (opacity s)
  && in_unit_interval (ambient (srf_lighting s)).

Definition is_number_list (v : pyval) : bool :=
  match v with
  | PList l => forallb (fun e => match e with PNum _ => true | _ => false end) l
  | _ => false
  end.

Definition is_string_list (v : pyval) : bool :=
  match v with
  | PList l => forallb (fun e => match e with PStr _ => true | _ => false end) l
  | _ => false
  end.

Definition is_sample_color (v : pyval) : bool :=
  match v with
  | PStr s => sample_color s
  | _ => false
  end.

Definition sample_scatter3d_accepted (t : scatter3d) : bool :=
  is_number_list (s3_x t) && is_number_list (s3_y t) && is_number_list (s3_z t)
  && is_string_list (s3_text t).

Definition sample_cone_accepted (c : cone) : bool :=
  is_number_list (cone_x c) && is_number_list (cone_y c) && is_number_list (cone_z c)
  && forallb (fun pc => is_sample_color (snd pc)) (cone_colorscale c).

Definition sample_surfaces : SurfaceValidator :=
  {| surface_accepted := sample_surface_accepted |}.

Definition sample_traces : TraceValidator :=
  {| scatter3d_accepted := sample_scatter3d_accepted;
     cone_accepted := sample_cone_accepted |}.

(** The figure of the demo pair as the store holds it: the two surfaces the
    pair loop builds for [demo_group] (surface 2 has the larger maximum). *)
Definition demo_figure : figure :=
  {| fig_data :=
       [ Surface (surface_kwargs [0; 2]%Q [0; 0.5]%Q [[1; 2]; [3; 4]]%Q
                    (stepped_from 3 0 ["#e41a1c"; "#377eb8"; "#4daf4a"])
                    6 1.0 false 0.9);
         Surface (surface_kwargs [0; 2]%Q [0; 0.5]%Q [[1; 2]; [3; 5]]%Q
                    (stepped_from 4 0 ["#e41a1c"; "#377eb8"; "#4daf4a"; "#984ea3"])
                    8 0.8 true 0.5) ];
     fig_layout := None |}.

(** ** [get_cam_data] *)

(** [s.capitalize()] on ASCII text: first character upper case, the others
    lower case. *)
Definition ascii_upper (c : Ascii.ascii) : Ascii.ascii :=
  let n := Ascii.nat_of_ascii c in
  if (Nat.leb 97 n && Nat.leb n 122)%bool then Ascii.ascii_of_nat (n - 32) else c.

Definition ascii_lower (c : Ascii.ascii) : Ascii.ascii :=
  let n := Ascii.nat_of_ascii c in
  if (Nat.leb 65 n && Nat.leb n 90)%bool then Ascii.ascii_of_nat (n + 32) else c.

Fixpoint str_map (f : Ascii.ascii -> Ascii.ascii) (s : string) : string :=
  match s with
  | EmptyString => EmptyString
  | String c s' => String (f c) (str_map f s')
  end.

Definition py_capitalize (s : string) : string :=
  match s with
  | EmptyString => EmptyString
  | String c s' => String (ascii_upper c) (str_map ascii_lower s')
  end.

(** [enumerate(l)] *)
Definition py_enumerate {A : Type} (l : list A) : list (Z * A) :=
  zip (map Z.of_nat (seq 0 (length l))) l.

(** [l[i] = v] on a Python list. *)
Definition py_list_set {A : Type} (l : list A) (i : Z) (v : A) : result (list A) :=
  let n := Z.of_nat (length l) in
  let j := if i <? 0 then i + n else i in
  if (0 <=? j) && (j <? n) then Ok (<[Z.to_nat j := v]> l)
  else Raise IndexError.

(** [d[k][i] = v] on a dict of lists that remembers its insertion order. *)
Fixpoint py_dict_list_set (d : list (string * list pyval)) (k : string) (i : Z)
    (v : pyval) : result (list (string * list pyval)) :=
  match d with
  | [] => Raise KeyError
  | (k', l) :: rest =>
      if String.eqb k' k
      then l' <- py_list_set l i v ;; Ok ((k', l') :: rest)
      else rest' <- py_dict_list_set rest k i v ;; Ok ((k', l) :: rest')
  end.

(** [zip] applied to the unpacked [lists]: the tuples of entries at the same
    index, as long as every list has one. *)
Definition py_zip_star {A : Type} (lists : list (list A)) : list (list A) :=
  match lists with
  | [] => []
  | first :: others =>
      omap (fun i => mapM (fun l : list A => l !! i) lists)
           (seq 0 (foldr (fun l m => Nat.min (length l) m) (length first) others))
  end.

(** [dict(pairs)]: a later pair overwrites an earlier one with the same key. *)
Definition py_dict {V : Type} (pairs : list (string * V)) : gmap string V :=
  fold_left (fun m p => <[fst p := snd p]> m) pairs ∅.

(** The value of ["scene.camera"] in [relayoutData]: a dict of dicts
    (["eye"], ["center"], ["up"], ...). *)
Abbreviation camera := (gmap string (gmap string pyval)).

Record data_table : Type := {
  dt_id : string;
  dt_columns : list (string * string);
  dt_data : list (gmap string pyval);
  dt_style_cell_textAlign : string;
  dt_style_header_backgroundColor : string;
  dt_style_header_fontWeight : string;
  dt_style_table_width : string
}.

(** What the function returns: the message string or an [html.Div] around
    the table. *)
Inductive cam_output : Type :=
| CamMessage (s : string)
| CamDiv (children : list data_table).

(** The inner loop [for i, sub_key in enumerate(['x', 'y', 'z'])]. *)
Definition cam_fill_column (key : string) (sub_dict : gmap string pyval)
    (data_dict : list (string * list pyval)) : result (list (string * list pyval)) :=
  for_each
    (fun data_dict (isub : Z * string) =>
       let value := default PNone (sub_dict !! snd isub) in
       py_dict_list_set data_dict (py_capitalize key) (fst isub) value)
    (py_enumerate ["x"; "y"; "z"]) data_dict.

(** [cam_data] is given by its dict-valued entries; only the one under
    ["scene.camera"] is read. *)
Definition get_cam_data (cam_data : option (gmap string camera)) (input_graph : string)
  : result cam_output :=
  match cam_data with
  | None => Ok (CamMessage "Interact with the graph to see camera properties")
  | Some cam_data =>
      match cam_data !! "scene.camera" with
      | None => Ok (CamMessage "Interact with the graph to see camera properties")
      | Some _ =>
          camera_data <- py_getitem cam_data "scene.camera" ;;
          let data_dict :=
            [("Axis", [PStr "x"; PStr "y"; PStr "z"]);
             ("Eye", [PNone; PNone; PNone]);
             ("Center", [PNone; PNone; PNone])] in
          data_dict <-
            for_each
              (fun data_dict key =>
                 match camera_data !! key with
                 | None => Ok data_dict
                 | Some _ =>
                     sub_dict <- py_getitem camera_data key ;;
                     cam_fill_column key sub_dict data_dict
                 end)
              ["eye"; "center"] data_dict ;;
          let data :=
            map (fun values => py_dict (zip (map fst data_dict) values))
                (py_zip_star (map snd data_dict)) in
          Ok (CamDiv
                [ {| dt_id := (input_graph ++ "-cam-properties")%string;
                     dt_columns := [("Axis", "Axis"); ("Eye (Viewing Angle)", "Eye");
                                    ("Center", "Center")];
                     dt_data := data;
                     dt_style_cell_textAlign := "left";
                     dt_style_header_backgroundColor := "rgb(230, 230, 230)";
                     dt_style_header_fontWeight := "bold";
                     dt_style_table_width := "25%" |} ])
      end
  end.

(** [app.py]: the camera callback. *)
Definition update_camera_output (relayout_data : option (gmap string camera))
  : result cam_output :=
  get_cam_data relayout_data "main".

(** What the camera table shows for one axis: the entry of [camera[key]]
    under that axis, [None] when either is missing. *)
Definition cam_field (camera_data : camera) (key axis_name : string) : pyval :=
  match camera_data !! key with
  | None => PNone
  | Some sub_dict => default PNone (sub_dict !! axis_name)
  end.

Definition cam_row (camera_data : camera) (axis_name : string) : gmap string pyval :=
  py_dict [("Axis", PStr axis_name);
           ("Eye", cam_field camera_data "eye" axis_name);
           ("Center", cam_field camera_data "center" axis_name)].

(** ** [app.py]: layouts, dropdown options and the figure store at start-up *)

(** The [create_layout] call as both the start-up loop and [select_graph]
    write it. *)
Definition labelled_layout (surf_name_1 surf_name_2 : string) (s1 s2 : grid)
  : result layout :=
  create_layout "Wave Height [m]"
    (if str_contains "WPI" surf_name_1 then "Wave Period [s]" else "Current Speed [m/s]")
    (if str_contains "SEE" surf_name_1 then "SEE Index" else "EVRD Index")
    surf_name_1 surf_name_2 s1 s2 1.0 0.5 0.5.

Record dropdown_option : Type := {
  opt_label : string;
  opt_value : string
}.

(** [f"{surf_name_1}+{surf_name_2}"] *)
Definition pair_key (names : string * string) : string :=
  (fst names ++ "+" ++ snd names)%string.

(** The body of [for i in range(len(group['combinations']))]; the state is
    [(dropdown_options, layouts)]. *)
Definition layouts_step (g : group) (st : list dropdown_option * list layout) (i : Z)
  : result (list dropdown_option * list layout) :=
  names <- py_index (combinations g) i ;;
  let surf_name_1 := fst names in
  let surf_name_2 := snd names in
  let dropdown_options :=
    fst st ++ [{| opt_label := pair_key names; opt_value := pair_key names |}] in
  s1 <- py_getitem (files g) surf_name_1 ;;
  s2 <- py_getitem (files g) surf_name_2 ;;
  layout <- labelled_layout surf_name_1 surf_name_2 s1 s2 ;;
  Ok (dropdown_options, snd st ++ [layout]).

Definition build_layouts (surface_data : list (string * group))
  : result (list dropdown_option * list layout) :=
  for_each
    (fun st kg =>
       for_each (layouts_step (snd kg))
                (py_range (Z.of_nat (length (combinations (snd kg))))) st)
    surface_data ([], []).

(** [go.Figure(data=traces[i], layout=layouts[i]).to_dict()] *)
Definition pair_figure (pair : surface * surface) (ly : layout) : figure :=
  {| fig_data := [Surface (fst pair); Surface (snd pair)]; fig_layout := Some ly |}.

(** The dict comprehension that fills [figures]. *)
Definition build_figures (traces : list (surface * surface)) (layouts : list layout)
    (dropdown_options : list dropdown_option) : result (gmap string figure) :=
  for_each
    (fun figures (iopt : Z * dropdown_option) =>
       pair <- py_index traces (fst iopt) ;;
       ly <- py_index layouts (fst iopt) ;;
       Ok (<[opt_value (snd iopt) := pair_figure pair ly]> figures))
    (py_enumerate dropdown_options) ∅.

(** The module-level code up to [figures]: the store and the dropdown
    options. *)
Definition startup {plotly : SurfaceValidator} (surface_data : list (string * group))
  : result (gmap string figure * list dropdown_option) :=
  traces <- build_traces surface_data ;;
  st <- build_layouts surface_data ;;
  figures <- build_figures traces (snd st) (fst st) ;;
  Ok (figures, fst st).

(** The dropdown's initial [value]: the first pair of the second group. *)
Definition default_selection (surface_data : list (string * group)) : result string :=
  kg <- py_index surface_data 1 ;;
  names <- py_index (combinations (snd kg)) 0 ;;
  kg' <- py_index surface_data 1 ;;
  names' <- py_index (combinations (snd kg')) 0 ;;
  Ok (fst names ++ "+" ++ snd names')%string.

(** ** [app.py]: [select_graph] and [update_graph] *)

(** [s.split(sep)] for a one-character separator. *)
Fixpoint py_split (sep : Ascii.ascii) (s : string) : list string :=
  match s with
  | EmptyString => [EmptyString]
  | String c s' =>
      if Ascii.eqb c sep then EmptyString :: py_split sep s'
      else match py_split sep s' with
           | [] => [String c EmptyString]
           | part :: parts => String c part :: parts
           end
  end.

(** The [if]/[elif] chain that picks the group index from the title. *)
Definition select_group (title : string) : result Z :=
  if str_contains "WPI" title && str_contains "SEE" title then Ok 3
  else if str_contains "WPI" title && str_contains "EV" title then Ok 2
  else if negb (str_contains "WPI" title) && str_contains "SEE" title then Ok 1
  else if negb (str_contains "WPI" title) && str_contains "EV" title then Ok 0
  else Raise ValueError.

Section SelectGraph.
(** plotly's [fig.update_layout(layout, uirevision=title)], applied to the
    figure rebuilt from the store. *)
Variable update_layout : figure -> layout -> string -> figure.
Variable surface_data : list (string * group).

Definition select_graph (title : string) (figures_dict : gmap string figure)
  : result (figure * gmap string figure) :=
  surf_name_1 <- py_index (py_split "+"%char title) 0 ;;
  surf_name_2 <- py_index (py_split "+"%char title) 1 ;;
  group_index <- select_group title ;;
  kg_1 <- py_index surface_data group_index ;;
  data_1_2d_list <- py_getitem (files (snd kg_1)) surf_name_1 ;;
  kg_2 <- py_index surface_data group_index ;;
  data_2_2d_list <- py_getitem (files (snd kg_2)) surf_name_2 ;;
  ly <- labelled_layout surf_name_1 surf_name_2 data_1_2d_list data_2_2d_list ;;
  stored <- py_getitem figures_dict title ;;
  let fig := update_layout stored ly title in
  Ok (fig, <[title := fig]> figures_dict).
End SelectGraph.

(** The outcome of a callback that may decline to update its output. *)
Inductive callback_result (A : Type) : Type :=
| Return (a : A)
| PreventUpdate
| Raised (e : exn).

Arguments Return {A} a.
Arguments PreventUpdate {A}.
Arguments Raised {A} e.

(** [triggered] is [callback_context.triggered]. *)
Definition update_graph (triggered : list (gmap string pyval))
    (figures_dict : gmap string figure) (selected_graph : string)
  : callback_result figure :=
  match py_index triggered 0 with
  | Raise e => Raised e
  | Ok first =>
      match py_getitem first "prop_id" with
      | Raise e => Raised e
      | Ok prop_id =>
          if py_eq_str prop_id "figure-store.data"
          then match py_getitem figures_dict selected_graph with
               | Ok fg => Return fg
               | Raise e => Raised e
               end
          else PreventUpdate
      end
  end.

(** The entries of [data] that [add_traces_to_figure] turns into a trace. *)
Definition is_annotation_entry (tr : gmap string pyval) : bool :=
  match tr !! "type" with
  | Some ty => py_eq_str ty "scatter3d" || py_eq_str ty "cone"
  | None => false
  end.

(** The traces an annotation can add. *)
Definition not_a_surface (t : trace) : Prop :=
  match t with
  | Surface _ => False
  | _ => True
  end.

(** [ly] is the layout the start-up loop builds for the pair [names] of
    group [g]. *)
Definition pair_layout_is (g : group) (names : string * string) (ly : layout) : Prop :=
  exists s1 s2,
    files g !! fst names = Some s1 /\ files g !! snd names = Some s2
    /\ labelled_layout (fst names) (snd names) s1 s2 = Ok ly.

(** * Properties *)

(** ** Substring tests *)

Lemma append_String (a : Ascii.ascii) (s t : string) :
  (String a s ++ t)%string = String a (s ++ t)%string.
Proof. reflexivity. Qed.

Lemma append_Empty (t : string) : ("" ++ t)%string = t.
Proof. reflexivity. Qed.

Lemma prefix_spec (needle hay : string) :
  String.prefix needle hay = true <-> exists rest, hay = (needle ++ rest)%string.
Proof.
  revert hay. induction needle as [|a needle IH]; intros hay.
  - destruct hay; cbn; (split; [intros _; eexists; reflexivity|reflexivity]).
  - destruct hay as [|b hay]; cbn.
    + split; [discriminate|]. intros [rest H]. rewrite append_String in H. discriminate.
    + destruct (Ascii.ascii_dec a b) as [->|Hne].
      * rewrite IH. split; intros [rest H]; exists rest; rewrite append_String in *;
          congruence.
      * split; [discriminate|]. intros [rest H]. rewrite append_String in H. congruence.
Qed.

(** [str_contains] is Python's [in] on strings: the needle occurs somewhere
    in the haystack. *)
Lemma str_contains_spec (needle hay : string) :
  str_contains needle hay = true
  <-> exists before rest, hay = (before ++ needle ++ rest)%string.
Proof.
  induction hay as [|b hay IH]; cbn [str_contains].
  - destruct (String.prefix needle "") eqn:Hp.
    + apply prefix_spec in Hp as [rest Hrest].
      split; [|reflexivity]. intros _. exists "", rest. exact Hrest.
    + split; [discriminate|]. intros (before & rest & H).
      destruct before as [|b' before]; [|rewrite append_String in H; discriminate].
      rewrite append_Empty in H.
      assert (String.prefix needle "" = true) by (apply prefix_spec; eauto).
      congruence.
  - destruct (String.prefix needle (String b hay)) eqn:Hp.
    + apply prefix_spec in Hp as [rest Hrest].
      split; [|reflexivity]. intros _. exists "", rest. exact Hrest.
    + rewrite IH. split.
      * intros (before & rest & ->). exists (String b before), rest. reflexivity.
      * intros (before & rest & H). destruct before as [|b' before].
        -- rewrite append_Empty in H.
           assert (String.prefix needle (String b hay) = true)
             by (apply prefix_spec; eauto).
           congruence.
        -- rewrite append_String in H. injection H as -> ->. eauto.
Qed.

(** ** The annotation protocol *)

Lemma for_each_app {A S : Type} (body : S -> A -> result S) (xs ys : list A) (acc : S) :
  for_each body (xs ++ ys) acc =
  (acc' <- for_each body xs acc ;; for_each body ys acc').
Proof.
  revert acc. induction xs as [|x xs IH]; intros acc; simpl; [reflexivity|].
  destruct (body acc x) as [acc'|e]; simpl; [apply IH | reflexivity].
Qed.

Lemma py_eq_str_false (v : pyval) (s : string) :
  v <> PStr s -> py_eq_str v s = false.
Proof.
  destruct v as [| |t|]; simpl; try reflexivity.
  intros Hne. apply String.eqb_neq. congruence.
Qed.

Lemma py_eq_str_true (v : pyval) (s : string) :
  py_eq_str v s = true -> v = PStr s.
Proof.
  destruct v as [| |t|]; simpl; try discriminate.
  intros H. apply String.eqb_eq in H. congruence.
Qed.

(** C7: with [n_clicks] unset the callback hands back the very store it was
    given, whatever the other inputs are; no figure is touched. *)
Theorem add_trace_no_click_is_noop {plotly : TraceValidator}
    (x y z text color : pyval) (figure_dict : figure) (selected_graph : string)
    (figures_dict : gmap string figure) :
  add_trace None x y z text color figure_dict selected_graph figures_dict
  = Ok figures_dict.
Proof. reflexivity. Qed.

(** The two dictionaries of [add_trace] reach [add_scatter3d] and then
    [add_cone], each with the keyword arguments of the annotation. *)
Lemma add_traces_label_then_cone {plotly : TraceValidator}
    (fg : figure) (x y z z_1 text color : pyval) :
  add_traces_to_figure fg
    [ list_to_map [("type", PStr "scatter3d"); ("x", PList [x]);
                   ("y", PList [y]); ("z", PList [z]); ("text", PList [text])];
      list_to_map [("type", PStr "cone"); ("x", PList [x]);
                   ("y", PList [y]); ("z", PList [z_1]); ("color", color)] ]
  = (fg1 <- add_scatter3d fg (annotation_label x y z text) ;;
     add_cone fg1 (annotation_cone x y z_1 color)).
Proof.
  unfold add_traces_to_figure. cbn [for_each].
  assert (H1 : add_one_trace fg
                 (list_to_map [("type", PStr "scatter3d"); ("x", PList [x]);
                               ("y", PList [y]); ("z", PList [z]);
                               ("text", PList [text])])
               = add_scatter3d fg (annotation_label x y z text)) by reflexivity.
  rewrite H1.
  destruct (add_scatter3d fg (annotation_label x y z text)) as [fg1|e]; cbn [bind];
    [|reflexivity].
  assert (H2 : add_one_trace fg1
                 (list_to_map [("type", PStr "cone"); ("x", PList [x]);
                               ("y", PList [y]); ("z", PList [z_1]);
                               ("color", color)])
               = add_cone fg1 (annotation_cone x y z_1 color)) by reflexivity.
  rewrite H2. destruct (add_cone fg1 _); reflexivity.
Qed.

(** What a click with a numeric [z] does, in terms of plotly's two checks. *)
Lemma add_trace_click {plotly : TraceValidator}
    (n : Z) (x y text color : pyval) (z : Q) (fg : figure)
    (selected_graph : string) (figures_dict : gmap string figure) :
  add_trace (Some n) x y (PNum z) text color fg selected_graph figures_dict
  = if scatter3d_accepted (annotation_label x y (PNum z) text)
       && cone_accepted (annotation_cone x y (PNum (z - 1)) color)
    then Ok (<[selected_graph :=
                 {| fig_data := fig_data fg
                                ++ [Scatter3d (annotation_label x y (PNum z) text);
                                    Cone (annotation_cone x y (PNum (z - 1)) color)];
                    fig_layout := fig_layout fg |}]> figures_dict)
    else Raise ValueError.
Proof.
  unfold add_trace. cbn [py_sub_1 bind].
  rewrite add_traces_label_then_cone. unfold add_scatter3d, add_cone.
  destruct (scatter3d_accepted _); cbn [bind andb]; [|reflexivity].
  destruct (cone_accepted _); cbn [bind]; [|reflexivity].
  unfold add_to_figure. cbn [fig_data fig_layout].
  rewrite <- app_assoc. reflexivity.
Qed.

Lemma add_trace_not_a_number {plotly : TraceValidator}
    (n : Z) (x y z text color : pyval) (fg : figure)
    (selected_graph : string) (figures_dict : gmap string figure) :
  (forall q, z <> PNum q) ->
  add_trace (Some n) x y z text color fg selected_graph figures_dict = Raise TypeError.
Proof.
  intros Hz. destruct z as [|q|s|l]; try reflexivity.
  exfalso. exact (Hz q eq_refl).
Qed.

(** C5 (amended): a triggered add-annotation with a numeric [z] whose label
    and cone plotly accepts stores, under the selected key, the figure it
    was handed (the figure shown in the plot window, holding [k] traces)
    followed by exactly two new traces, so [k + 2] in all: a text label at
    [(x, y, z)] and a cone at [(x, y, z - 1)] whose direction is
    [(0, 0, -2)] (pointing down), anchored at its tip, with the one colour
    at both ends of its colour scale, no colour bar and no legend.  When the
    plot window shows the artifact stored under the selected key, these are
    that artifact's traces followed by the two new ones.  Every other key of
    the store is untouched.  A label or cone plotly rejects raises
    [ValueError], a [z] that is no number raises [TypeError]; in both cases
    nothing is stored. *)
Theorem add_trace_appends_label_and_cone {plotly : TraceValidator}
    (n : Z) (x y text color : pyval) (z : Q) (figure_dict : figure)
    (selected_graph : string) (figures_dict : gmap string figure) :
  let label := annotation_label x y (PNum z) text in
  let marker := annotation_cone x y (PNum (z - 1)) color in
  let stored :=
    {| fig_data := fig_data figure_dict ++ [Scatter3d label; Cone marker];
       fig_layout := fig_layout figure_dict |} in
  (scatter3d_accepted label = true -> cone_accepted marker = true ->
     add_trace (Some n) x y (PNum z) text color figure_dict selected_graph figures_dict
     = Ok (<[selected_graph := stored]> figures_dict))
  /\ (scatter3d_accepted label = false \/ cone_accepted marker = false ->
      add_trace (Some n) x y (PNum z) text color figure_dict selected_graph figures_dict
      = Raise ValueError)
  /\ (forall z' : pyval, (forall q, z' <> PNum q) ->
      add_trace (Some n) x y z' text color figure_dict selected_graph figures_dict
      = Raise TypeError)
  /\ length (fig_data stored) = (length (fig_data figure_dict) + 2)%nat
  /\ (forall (selected : figure) (k : nat),
        figures_dict !! selected_graph = Some selected ->
        fig_data figure_dict = fig_data selected ->
        length (fig_data selected) = k ->
        fig_data stored = fig_data selected ++ [Scatter3d label; Cone marker]
        /\ length (fig_data stored) = (k + 2)%nat)
  /\ fig_layout stored = fig_layout figure_dict
  /\ (s3_x label, s3_y label, s3_z label) = (PList [x], PList [y], PList [PNum z])
  /\ s3_text label = PList [text]
  /\ s3_mode label = "text"
  /\ s3_showlegend label = false
  /\ (cone_x marker, cone_y marker, cone_z marker)
     = (PList [x], PList [y], PList [PNum (z - 1)])
  /\ (cone_u marker, cone_v marker, cone_w marker) = ([0], [0], [-2])
  /\ cone_anchor marker = "tip"
  /\ cone_colorscale marker = [(0, color); (1, color)]
  /\ cone_showscale marker = false
  /\ cone_showlegend marker = false
  /\ (<[selected_graph := stored]> figures_dict) !! selected_graph = Some stored
  /\ (forall key, key <> selected_graph ->
        (<[selected_graph := stored]> figures_dict) !! key = figures_dict !! key).
Proof.
  intros label marker stored.
  split.
  { intros Hlabel Hmarker. rewrite add_trace_click.
    fold label marker. rewrite Hlabel, Hmarker. reflexivity. }
  split.
  { intros Hrej. rewrite add_trace_click. fold label marker.
    destruct Hrej as [-> | ->]; [reflexivity|].
    destruct (scatter3d_accepted label); reflexivity. }
  split.
  { intros z' Hz'. apply add_trace_not_a_number. exact Hz'. }
  split.
  { subst stored. cbn [fig_data]. rewrite length_app. reflexivity. }
  split.
  { intros selected k _ Hshown Hk. subst stored. cbn [fig_data].
    rewrite Hshown. split; [reflexivity|].
    rewrite length_app, Hk. reflexivity. }
  subst stored label marker.
  cbn [fig_data fig_layout annotation_label annotation_cone scatter3d_kwargs
       cone_kwargs s3_x s3_y s3_z
       s3_text s3_mode s3_showlegend cone_x cone_y cone_z cone_u cone_v cone_w
       cone_anchor cone_colorscale cone_showscale cone_showlegend].
  repeat split.
  - apply lookup_insert_eq.
  - intros key Hne. apply lookup_insert_ne. congruence.
Qed.

(** The default inputs of the form, on the demo figure shown in the plot
    window and stored under the selected key: the click returns, the store
    then holds four traces under the key, and the cone sits at
    [z = 2.15 - 1 = 1.15]. *)
Lemma add_trace_appends_label_and_cone_witness :
  add_trace (plotly := sample_traces) (Some 1) (PNum 2) (PNum 0.5) (PNum 2.15)
            (PStr "Max working conditions") (PStr "rgb(0, 255, 0)")
            demo_figure "CS_SEE_A+CS_SEE_B" {["CS_SEE_A+CS_SEE_B" := demo_figure]}
  = Ok (<["CS_SEE_A+CS_SEE_B" :=
          {| fig_data :=
               fig_data demo_figure
               ++ [Scatter3d (annotation_label (PNum 2) (PNum 0.5) (PNum 2.15)
                                (PStr "Max working conditions"));
                   Cone (annotation_cone (PNum 2) (PNum 0.5) (PNum (2.15 - 1))
                           (PStr "rgb(0, 255, 0)"))];
             fig_layout := fig_layout demo_figure |}]>
          {["CS_SEE_A+CS_SEE_B" := demo_figure]}).
Proof.
  apply (add_trace_appends_label_and_cone (plotly := sample_traces)
           1 (PNum 2) (PNum 0.5) (PStr "Max working conditions")
           (PStr "rgb(0, 255, 0)") 2.15 demo_figure "CS_SEE_A+CS_SEE_B"
           {["CS_SEE_A+CS_SEE_B" := demo_figure]});
    vm_compute; reflexivity.
Defined.

(** The wording of the specification fails in two ways.  An emptied [z]
    field arrives as [None]: [z - 1] raises and the stored artifact keeps its
    two traces.  And the traces counted are those of the plot window, not of
    the stored artifact: with an empty plot window (no graph drawn yet) and
    two surfaces stored under the selected key, the artifact stored
    afterwards holds two traces (label and cone), not four. *)
Lemma add_trace_counts_plot_window_traces :
  let store : gmap string figure := {["CS_SEE_A+CS_SEE_B" := demo_figure]} in
  let empty_window := {| fig_data := []; fig_layout := None |} in
  store !! "CS_SEE_A+CS_SEE_B" = Some demo_figure
  /\ length (fig_data demo_figure) = 2%nat
  /\ add_trace (plotly := sample_traces) (Some 1) (PNum 2) (PNum 0.5) PNone
       (PStr "Max working conditions") (PStr "rgb(0, 255, 0)")
       demo_figure "CS_SEE_A+CS_SEE_B" store
     = Raise TypeError
  /\ exists store' stored,
       add_trace (plotly := sample_traces) (Some 1) (PNum 2) (PNum 0.5) (PNum 2.15)
         (PStr "Max working conditions") (PStr "rgb(0, 255, 0)")
         empty_window "CS_SEE_A+CS_SEE_B" store
       = Ok store'
       /\ store' !! "CS_SEE_A+CS_SEE_B" = Some stored
       /\ length (fig_data stored) = 2%nat
       /\ length (fig_data stored) <> (length (fig_data demo_figure) + 2)%nat.
Proof.
  intros store empty_window.
  split; [apply lookup_singleton_eq|].
  split; [reflexivity|].
  split; [reflexivity|].
  eexists _, _. split.
  - rewrite add_trace_click. reflexivity.
  - split; [apply lookup_insert_eq|]. split; [reflexivity|]. cbn. lia.
Qed.

(** ** [add_traces_to_figure] *)

Lemma add_one_trace_other_type {plotly : TraceValidator}
    (fg : figure) (tr : gmap string pyval) (ty : pyval) :
  tr !! "type" = Some ty ->
  ty <> PStr "scatter3d" -> ty <> PStr "cone" ->
  add_one_trace fg tr = Ok fg.
Proof.
  intros Hty Hs Hc. unfold add_one_trace, py_getitem. rewrite Hty. cbn [bind].
  rewrite (py_eq_str_false _ _ Hs), (py_eq_str_false _ _ Hc). reflexivity.
Qed.

Lemma add_one_trace_grows {plotly : TraceValidator}
    (fg fg' : figure) (tr : gmap string pyval) :
  add_one_trace fg tr = Ok fg' ->
  fg' = fg \/ exists t, fg' = add_to_figure fg t /\
                        match t with Surface _ => False | _ => True end.
Proof.
  unfold add_one_trace, py_getitem, add_scatter3d, add_cone.
  destruct (tr !! "type") as [ty|]; cbn [bind]; [|discriminate].
  destruct (py_eq_str ty "scatter3d").
  - destruct (tr !! "x"); cbn [bind]; [|discriminate].
    destruct (tr !! "y"); cbn [bind]; [|discriminate].
    destruct (tr !! "z"); cbn [bind]; [|discriminate].
    destruct (tr !! "text"); cbn [bind]; [|discriminate].
    destruct (scatter3d_accepted _); [|discriminate].
    intros [= <-]. right. eexists. split; [reflexivity|exact I].
  - destruct (py_eq_str ty "cone").
    + destruct (tr !! "x"); cbn [bind]; [|discriminate].
      destruct (tr !! "y"); cbn [bind]; [|discriminate].
      destruct (tr !! "z"); cbn [bind]; [|discriminate].
      destruct (tr !! "color"); cbn [bind]; [|discriminate].
      destruct (cone_accepted _); [|discriminate].
      intros [= <-]. right. eexists. split; [reflexivity|exact I].
    + intros [= <-]. left. reflexivity.
Qed.

(** C10: an entry whose ['type'] is neither ['scatter3d'] nor ['cone'] is
    skipped: the loop body returns the figure as it was, without raising, and
    the whole call behaves as if the entry were not in the list.  Conversely
    the body changes the figure only by appending one trace, and only when
    the entry's type is one of the two. *)
Theorem add_traces_to_figure_skips_other_types {plotly : TraceValidator}
    (fg : figure) (before after : list (gmap string pyval))
    (tr : gmap string pyval) (ty : pyval) :
  tr !! "type" = Some ty ->
  (ty <> PStr "scatter3d" -> ty <> PStr "cone" ->
     add_one_trace fg tr = Ok fg
     /\ add_traces_to_figure fg [tr] = Ok fg
     /\ add_traces_to_figure fg (before ++ tr :: after)
        = add_traces_to_figure fg (before ++ after))
  /\ (forall fg', add_one_trace fg tr = Ok fg' ->
        fig_data fg' <> fig_data fg ->
        (ty = PStr "scatter3d" \/ ty = PStr "cone")
        /\ exists t, fig_data fg' = fig_data fg ++ [t]).
Proof.
  intros Hty. split.
  - intros Hs Hc.
    assert (Hskip : forall f, add_one_trace f tr = Ok f).
    { intros f. exact (add_one_trace_other_type f tr ty Hty Hs Hc). }
    split; [apply Hskip|]. split.
    + unfold add_traces_to_figure. cbn [for_each]. rewrite Hskip. reflexivity.
    + unfold add_traces_to_figure. rewrite !for_each_app.
      destruct (for_each add_one_trace before fg) as [f|e]; cbn [bind]; [|reflexivity].
      cbn [for_each]. rewrite Hskip. reflexivity.
  - intros fg' Hrun Hchanged. split.
    + assert (Hdec : forall s, ty = PStr s \/ ty <> PStr s).
      { intros s. destruct ty as [| |t|]; try (right; discriminate).
        destruct (decide (t = s)) as [->|Hne]; [left; reflexivity|].
        right. congruence. }
      destruct (Hdec "scatter3d") as [|Hs]; [left; assumption|].
      destruct (Hdec "cone") as [|Hc]; [right; assumption|].
      rewrite (add_one_trace_other_type fg tr ty Hty Hs Hc) in Hrun.
      injection Hrun as <-. contradiction.
    + destruct (add_one_trace_grows _ _ _ Hrun) as [->|(t & -> & _)];
        [contradiction|].
      exists t. reflexivity.
Qed.

Lemma add_traces_to_figure_skips_other_types_witness :
  add_traces_to_figure (plotly := sample_traces) {| fig_data := []; fig_layout := None |}
    [ list_to_map [("type", PStr "mesh3d"); ("x", PList [PNum 1])] ]
  = Ok {| fig_data := []; fig_layout := None |}.
Proof.
  refine (proj1 (proj2 (proj1
    (add_traces_to_figure_skips_other_types (plotly := sample_traces)
       {| fig_data := []; fig_layout := None |} [] []
       (list_to_map [("type", PStr "mesh3d"); ("x", PList [PNum 1])])
       (PStr "mesh3d") _) _ _))).
  - vm_compute. reflexivity.
  - discriminate.
  - discriminate.
Defined.

(** ** [create_surface]: the colour-bar ticks *)

Lemma np_arange0_lookup (stop step : Z) (k : nat) (t : Z) :
  np_arange0 stop step !! k = Some t -> t = Z.of_nat k * step.
Proof.
  unfold np_arange0. rewrite list_lookup_fmap.
  destruct (seq 0 _ !! k) as [j|] eqn:Hj; [|discriminate].
  apply lookup_seq in Hj as [-> _]. cbn. congruence.
Qed.

Lemma elem_of_np_arange0 (stop step t : Z) :
  0 < step ->
  (t ∈ np_arange0 stop step) <-> (0 <= t < stop /\ t mod step = 0).
Proof.
  intros Hstep. unfold np_arange0. rewrite list_elem_of_fmap. split.
  - intros (k & -> & Hk). apply elem_of_seq in Hk as [_ Hk].
    split; [|apply Z.mod_mul; lia].
    split; [nia|].
    assert (Hq : Z.of_nat k + 1 <= (stop + step - 1) / step) by lia.
    pose proof (Z.mul_div_le (stop + step - 1) step Hstep). nia.
  - intros [[H0 Hlt] Hmod].
    apply Z.div_exact in Hmod; [|lia].
    exists (Z.to_nat (t / step)). split.
    + rewrite Z2Nat.id by (apply Z.div_pos; lia). lia.
    + apply elem_of_seq. split; [lia|].
      assert (Hle : t / step + 1 <= (stop + step - 1) / step).
      { replace (t / step + 1) with ((t + 1 * step) / step)
          by (rewrite Z.div_add by lia; reflexivity).
        apply Z.div_le_mono; [lia|].
        assert (t + step <= stop + step - 1) by lia. lia. }
      assert (0 <= t / step) by (apply Z.div_pos; lia).
      lia.
Qed.

(** [create_surface] returns the keyword arguments themselves, and only
    when plotly accepts them. *)
Lemma create_surface_Ok {plotly : SurfaceValidator}
    (x y : list Q) (z : grid) (colors_scaled : list (Q * string)) (n_colors : Z)
    (opacity : Q) (show_colorbar : bool) (ambient_light : Q) (s : surface) :
  create_surface x y z colors_scaled n_colors opacity show_colorbar ambient_light = Ok s
  <-> s = surface_kwargs x y z colors_scaled n_colors opacity show_colorbar ambient_light
      /\ surface_accepted s = true.
Proof.
  unfold create_surface.
  destruct (surface_accepted (surface_kwargs _ _ _ _ _ _ _ _)) eqn:Hacc; split.
  - intros [= <-]. split; [reflexivity|exact Hacc].
  - intros [-> _]. reflexivity.
  - discriminate.
  - intros [-> Hs]. congruence.
Qed.

Lemma create_surface_raises {plotly : SurfaceValidator}
    (x y : list Q) (z : grid) (colors_scaled : list (Q * string)) (n_colors : Z)
    (opacity : Q) (show_colorbar : bool) (ambient_light : Q) (e : exn) :
  create_surface x y z colors_scaled n_colors opacity show_colorbar ambient_light
  = Raise e -> e = ValueError.
Proof.
  unfold create_surface.
  destruct (surface_accepted _); [discriminate|congruence].
Qed.

(** C6 as the code has it: in every surface descriptor [create_surface]
    returns, the ticks are the multiples of the step (2 when [n_colors > 6],
    1 otherwise) from 0 up to [n_colors], in order, and the labels are the
    same numbers; [n_colors] itself is a tick exactly when it is at most 6
    or even, and for an odd [n_colors > 6] the ticks stop at
    [n_colors - 1]. *)
Theorem create_surface_colorbar_ticks {plotly : SurfaceValidator}
    (x y : list Q) (z : grid) (colors_scaled : list (Q * string)) (n_colors : Z)
    (opacity : Q) (show_colorbar : bool) (ambient_light : Q) (s : surface) :
  create_surface x y z colors_scaled n_colors opacity show_colorbar ambient_light = Ok s ->
  let cb := srf_colorbar s in
  let step := if 6 <? n_colors then 2 else 1 in
  cb_ticktext cb = cb_tickvals cb
  /\ (forall (k : nat) (t : Z), cb_tickvals cb !! k = Some t -> t = Z.of_nat k * step)
  /\ (forall t, (t ∈ cb_tickvals cb) <-> (0 <= t <= n_colors /\ t mod step = 0))
  /\ ((n_colors ∈ cb_tickvals cb) <->
      (0 <= n_colors /\ (n_colors <= 6 \/ Z.even n_colors = true)))
  /\ (6 < n_colors -> Z.odd n_colors = true ->
      (n_colors ∉ cb_tickvals cb) /\ (n_colors - 1 ∈ cb_tickvals cb)).
Proof.
  intros Hrun cb step. subst cb.
  apply create_surface_Ok in Hrun as [-> _].
  cbn [surface_kwargs srf_colorbar cb_ticktext cb_tickvals].
  assert (Hstep : 0 < step) by (subst step; destruct (6 <? n_colors); lia).
  assert (Hmem : forall t, (t ∈ colorbar_ticks n_colors) <->
                           (0 <= t <= n_colors /\ t mod step = 0)).
  { intros t. unfold colorbar_ticks. subst step.
    destruct (6 <? n_colors); rewrite elem_of_np_arange0 by lia; lia. }
  split; [reflexivity|]. split.
  { intros k t. unfold colorbar_ticks. subst step.
    destruct (6 <? n_colors); apply np_arange0_lookup. }
  split; [exact Hmem|]. split.
  { rewrite Hmem. subst step. destruct (6 <? n_colors) eqn:H6.
    - apply Z.ltb_lt in H6. rewrite Z.even_spec. split.
      + intros [H0 Hmod]. split; [lia|]. right.
        exists (n_colors / 2). apply Z.div_exact in Hmod; lia.
      + intros [H0 [Hle|[q ->]]]; [lia|]. split; [lia|].
        rewrite Z.mul_comm. apply Z.mod_mul. lia.
    - apply Z.ltb_ge in H6. rewrite Z.mod_1_r. lia. }
  intros H6 Hodd. rewrite !Hmem. subst step.
  apply Z.ltb_lt in H6 as H6'. rewrite H6'.
  apply Z.odd_spec in Hodd as [q ->]. split.
  - intros [_ Hmod]. replace (2 * q + 1) with (1 + q * 2) in Hmod by lia.
    rewrite Z.mod_add in Hmod by lia. discriminate.
  - split; [lia|]. replace (2 * q + 1 - 1) with (q * 2) by lia.
    apply Z.mod_mul. lia.
Qed.

(** A surface with seven groups, coloured by the stepped scale
    [make_colorscale_distinct 7 "Set3"] builds. *)
Lemma create_surface_colorbar_ticks_witness :
  exists s,
    create_surface (plotly := sample_surfaces) [0; 2]%Q [0; 0.5]%Q [[1; 2]; [3; 4]]%Q
      (stepped_from 7 0 ["#8DD3C7"; "#FFFFB3"; "#BEBADA"; "#FB8072"; "#80B1D3";
                         "#FDB462"; "#B3DE69"])
      7 1 false 0.9 = Ok s
    /\ (7 ∉ cb_tickvals (srf_colorbar s))
    /\ (7 - 1 ∈ cb_tickvals (srf_colorbar s)).
Proof.
  eexists. split; [vm_compute; reflexivity|].
  apply (create_surface_colorbar_ticks (plotly := sample_surfaces)
           [0; 2]%Q [0; 0.5]%Q [[1; 2]; [3; 4]]%Q
           (stepped_from 7 0 ["#8DD3C7"; "#FFFFB3"; "#BEBADA"; "#FB8072"; "#80B1D3";
                              "#FDB462"; "#B3DE69"])
           7 1 false 0.9);
    [vm_compute; reflexivity | lia | reflexivity].
Defined.

(** The wording of the specification (every [n_colors] is a tick) fails at
    [n_colors = 7]: with the colour scale [make_colorscale_distinct] builds
    for seven groups the descriptor is built, and its ticks are 0, 2, 4, 6. *)
Lemma colorbar_ticks_miss_odd_n_colors :
  exists colors_scaled s,
    make_colorscale_distinct 7 "Set3" = Ok colors_scaled
    /\ create_surface (plotly := sample_surfaces) [0; 2]%Q [0; 0.5]%Q
         [[1; 2]; [3; 4]]%Q colors_scaled 7 1 false 0.9 = Ok s
    /\ 6 < 7
    /\ cb_tickvals (srf_colorbar s) = [0; 2; 4; 6]
    /\ ~ (7 ∈ cb_tickvals (srf_colorbar s)).
Proof.
  eexists _, _. split; [vm_compute; reflexivity|].
  split; [vm_compute; reflexivity|].
  split; [lia|]. split; [reflexivity|].
  cbn. intros H. repeat (apply elem_of_cons in H as [H|H]; [discriminate|]).
  by apply elem_of_nil in H.
Qed.

(** ** The pair loop: which surface is emphasised *)

Lemma Qgtb_lt (a b : Q) : Qgtb a b = true <-> (b < a)%Q.
Proof.
  unfold Qgtb. rewrite Qgt_alt.
  destruct (a ?= b)%Q; split; congruence.
Qed.

Lemma np_max_is_ok (a : grid) : concat a <> [] -> is_ok (np_max a).
Proof. unfold np_max. destruct (concat a); [congruence|intros _; exact I]. Qed.

(** The loop body step by step: it returns exactly when every lookup
    succeeds, both grids have a maximum and plotly accepts the keyword
    arguments of both surfaces, and then it returns those arguments. *)
Lemma pair_surfaces_Ok {plotly : SurfaceValidator}
    (g : group) (name_1 name_2 : string) (s1 s2 : surface) :
  pair_surfaces g (name_1, name_2) = Ok (s1, s2)
  <-> exists d1 d2 m1 m2 cs1 cs2 k1 k2,
        files g !! name_1 = Some d1 /\ files g !! name_2 = Some d2
        /\ np_max (oriented name_1 d1) = Ok m1
        /\ np_max (oriented name_1 d2) = Ok m2
        /\ group_colorscale g !! name_1 = Some cs1
        /\ group_n_colors g !! name_1 = Some k1
        /\ group_colorscale g !! name_2 = Some cs2
        /\ group_n_colors g !! name_2 = Some k2
        /\ s1 = surface_kwargs (axes_x_values g) (axes_y_values g)
                  (oriented name_1 d1) cs1
                  (if negb (str_contains "SEE" name_1) then k1 else k1 * 2)
                  (if Qgtb m2 m1 then 1.0 else 0.8)%Q
                  (if Qgtb m2 m1 then false else true)
                  (if Qgtb m2 m1 then 0.9 else 0.5)%Q
        /\ s2 = surface_kwargs (axes_x_values g) (axes_y_values g)
                  (oriented name_1 d2) cs2
                  (if negb (str_contains "SEE" name_2) then k2 else k2 * 2)
                  (if Qgtb m2 m1 then 0.8 else 1.0)%Q
                  (if Qgtb m2 m1 then true else false)
                  (if Qgtb m2 m1 then 0.5 else 0.9)%Q
        /\ surface_accepted s1 = true /\ surface_accepted s2 = true.
Proof.
  unfold pair_surfaces, py_getitem. cbn [fst snd]. split.
  - destruct (files g !! name_1) as [d1|]; cbn [bind]; [|discriminate].
    destruct (files g !! name_2) as [d2|]; cbn [bind]; [|discriminate].
    destruct (np_max (oriented name_1 d1)) as [m1|] eqn:Hm1; cbn [bind];
      [|discriminate].
    destruct (np_max (oriented name_1 d2)) as [m2|] eqn:Hm2; cbn [bind];
      [|discriminate].
    destruct (group_colorscale g !! name_1) as [cs1|]; cbn [bind]; [|discriminate].
    destruct (group_n_colors g !! name_1) as [k1|]; cbn [bind]; [|discriminate].
    destruct (create_surface _ _ _ cs1 _ _ _ _) as [t1|] eqn:Ht1; cbn [bind];
      [|discriminate].
    destruct (group_colorscale g !! name_2) as [cs2|]; cbn [bind]; [|discriminate].
    destruct (group_n_colors g !! name_2) as [k2|]; cbn [bind]; [|discriminate].
    destruct (create_surface _ _ _ cs2 _ _ _ _) as [t2|] eqn:Ht2; cbn [bind];
      [|discriminate].
    intros [= <- <-].
    apply create_surface_Ok in Ht1 as [Ht1 Ha1].
    apply create_surface_Ok in Ht2 as [Ht2 Ha2].
    exists d1, d2, m1, m2, cs1, cs2, k1, k2.
    repeat split; first [reflexivity | assumption].
  - intros (d1 & d2 & m1 & m2 & cs1 & cs2 & k1 & k2 & Hd1 & Hd2 & Hm1 & Hm2
            & Hc1 & Hk1 & Hc2 & Hk2 & Hs1 & Hs2 & Ha1 & Ha2).
    rewrite Hd1, Hd2. cbn [bind]. rewrite Hm1, Hm2. cbn [bind].
    rewrite Hc1, Hk1. cbn [bind].
    rewrite (proj2 (create_surface_Ok _ _ _ _ _ _ _ _ s1) (conj Hs1 Ha1)). cbn [bind].
    rewrite Hc2, Hk2. cbn [bind].
    rewrite (proj2 (create_surface_Ok _ _ _ _ _ _ _ _ s2) (conj Hs2 Ha2)). reflexivity.
Qed.

(** The emphasis of the two keyword-argument records, by the comparison of
    the maxima. *)
Lemma emphasis_by_maxima (x y : list Q) (z1 z2 : grid) (cs1 cs2 : list (Q * string))
    (n1 n2 : Z) (m1 m2 : Q) :
  let s1 := surface_kwargs x y z1 cs1 n1
              (if Qgtb m2 m1 then 1.0 else 0.8)%Q
              (if Qgtb m2 m1 then false else true)
              (if Qgtb m2 m1 then 0.9 else 0.5)%Q in
  let s2 := surface_kwargs x y z2 cs2 n2
              (if Qgtb m2 m1 then 0.8 else 1.0)%Q
              (if Qgtb m2 m1 then true else false)
              (if Qgtb m2 m1 then 0.5 else 0.9)%Q in
  ((m1 < m2)%Q -> is_background s1 /\ is_foreground s2)
  /\ (~ (m1 < m2)%Q -> is_foreground s1 /\ is_background s2)
  /\ ((m1 == m2)%Q -> showscale s1 = true /\ showscale s2 = false).
Proof.
  intros s1 s2. subst s1 s2. unfold is_background, is_foreground.
  cbn [surface_kwargs opacity showscale srf_lighting ambient].
  destruct (Qgtb m2 m1) eqn:Hgt.
  - apply Qgtb_lt in Hgt.
    split; [intros _; repeat split|].
    split; [intros Hn; contradiction|].
    intros Heq. rewrite Heq in Hgt. exfalso. exact (Qlt_irrefl _ Hgt).
  - assert (Hnlt : ~ (m1 < m2)%Q).
    { intros Hlt. apply Qgtb_lt in Hlt. congruence. }
    split; [intros Hlt; contradiction|].
    split; intros _; repeat split.
Qed.

(** C1: whenever the loop body returns two surfaces for a pair, they carry
    the pair's two grids (both turned when the first name contains "WIP"),
    and with [m1], [m2] the maxima of these grids: if [m2 > m1] surface 1 is
    the background (opacity 1.0, no colour bar, ambient 0.9) and surface 2
    the foreground (opacity 0.8, colour bar, ambient 0.5); otherwise, ties
    included, the roles are swapped and surface 1 shows the colour bar.
    ([pair_surfaces_Ok] says when the body returns.) *)
Theorem pair_surfaces_emphasis {plotly : SurfaceValidator}
    (g : group) (name_1 name_2 : string) (s1 s2 : surface) :
  pair_surfaces g (name_1, name_2) = Ok (s1, s2) ->
  exists (d1 d2 : grid) (m1 m2 : Q),
    files g !! name_1 = Some d1
    /\ files g !! name_2 = Some d2
    /\ srf_z s1 = oriented name_1 d1
    /\ srf_z s2 = oriented name_1 d2
    /\ np_max (srf_z s1) = Ok m1
    /\ np_max (srf_z s2) = Ok m2
    /\ ((m1 < m2)%Q -> is_background s1 /\ is_foreground s2)
    /\ (~ (m1 < m2)%Q -> is_foreground s1 /\ is_background s2)
    /\ ((m1 == m2)%Q -> showscale s1 = true /\ showscale s2 = false).
Proof.
  intros Hrun.
  apply pair_surfaces_Ok in Hrun
    as (d1 & d2 & m1 & m2 & cs1 & cs2 & k1 & k2 & Hd1 & Hd2 & Hm1 & Hm2
        & _ & _ & _ & _ & -> & -> & _ & _).
  exists d1, d2, m1, m2.
  split; [exact Hd1|]. split; [exact Hd2|].
  split; [reflexivity|]. split; [reflexivity|].
  split; [exact Hm1|]. split; [exact Hm2|].
  apply emphasis_by_maxima.
Qed.

(** The demo pair: the second grid has the larger maximum (5 against 4), so
    the first surface is the background. *)
Lemma pair_surfaces_emphasis_witness :
  exists s1 s2,
    pair_surfaces (plotly := sample_surfaces) demo_group ("CS_SEE_A", "CS_SEE_B")
    = Ok (s1, s2)
    /\ is_background s1 /\ is_foreground s2.
Proof.
  eexists _, _. split; [vm_compute; reflexivity|].
  destruct (pair_surfaces_emphasis (plotly := sample_surfaces)
              demo_group "CS_SEE_A" "CS_SEE_B" _ _ eq_refl)
    as (d1 & d2 & m1 & m2 & _ & _ & _ & _ & Hm1 & Hm2 & Hlt & _).
  apply Hlt. vm_compute in Hm1, Hm2.
  injection Hm1 as <-. injection Hm2 as <-. reflexivity.
Defined.

(** ** [create_layout] *)

Lemma py_index_last {A : Type} (l : list A) :
  py_index l (-1) = match last l with
                    | Some x => Ok x
                    | None => Raise IndexError
                    end.
Proof.
  unfold py_index. cbn [Z.ltb Z.compare].
  destruct l as [|x l] using rev_ind; [reflexivity|].
  rewrite last_snoc, length_app. cbn [length].
  replace (-1 + Z.of_nat (length l + 1)) with (Z.of_nat (length l)) by lia.
  rewrite Nat2Z.id.
  rewrite (proj2 (Z.leb_le 0 (Z.of_nat (length l)))) by lia.
  rewrite (proj2 (Z.ltb_lt (Z.of_nat (length l)) (Z.of_nat (length l + 1)))) by lia.
  cbn [andb]. rewrite lookup_app_r by lia.
  rewrite Nat.sub_diag. reflexivity.
Qed.

Lemma py_index_0_cons {A : Type} (x : A) (l : list A) : py_index (x :: l) 0 = Ok x.
Proof.
  unfold py_index. cbn [Z.ltb Z.compare length].
  rewrite (proj2 (Z.ltb_lt 0 (Z.of_nat (S (length l))))) by lia. reflexivity.
Qed.

(** The corner reader returns the last entry of the last row, and raises
    [IndexError] when there is no last row or the last row has no entry. *)
Lemma extracted_corner (arg0 : grid) :
  _extracted_from_create_layout_31 arg0 =
  match last arg0 with
  | None => Raise IndexError
  | Some row => match last row with
                | None => Raise IndexError
                | Some v => Ok v
                end
  end.
Proof.
  unfold _extracted_from_create_layout_31.
  destruct arg0 as [|r rest].
  - reflexivity.
  - rewrite py_index_0_cons. cbn [bind]. rewrite py_index_last.
    destruct (last (r :: rest)) as [row|]; cbn [bind]; [|reflexivity].
    apply py_index_last.
Qed.

Lemma extracted_empty_grid (arg0 : grid) :
  concat arg0 = [] -> _extracted_from_create_layout_31 arg0 = Raise IndexError.
Proof.
  intros Hempty. rewrite extracted_corner.
  destruct (last arg0) as [row|] eqn:Hlast; [|reflexivity].
  assert (Hrow : row = []).
  { apply last_Some in Hlast as [front ->].
    rewrite concat_app in Hempty. cbn in Hempty.
    apply app_eq_nil in Hempty as [_ Hempty].
    rewrite app_nil_r in Hempty. exact Hempty. }
  rewrite Hrow. reflexivity.
Qed.






(** ** [make_colorscale_distinct] *)

Lemma py_index_nat {A : Type} (l : list A) (i : nat) (x : A) :
  l !! i = Some x -> py_index l (Z.of_nat i) = Ok x.
Proof.
  intros Hx. unfold py_index.
  pose proof (lookup_lt_Some _ _ _ Hx) as Hlt.
  rewrite (proj2 (Z.ltb_ge (Z.of_nat i) 0)) by lia.
  rewrite (proj2 (Z.leb_le 0 (Z.of_nat i))) by lia.
  rewrite (proj2 (Z.ltb_lt (Z.of_nat i) (Z.of_nat (length l)))) by lia.
  cbn [andb]. rewrite Nat2Z.id, Hx. reflexivity.
Qed.

Lemma py_index_past_end {A : Type} (l : list A) (i : nat) :
  (length l <= i)%nat -> py_index l (Z.of_nat i) = Raise IndexError.
Proof.
  intros Hge. unfold py_index.
  rewrite (proj2 (Z.ltb_ge (Z.of_nat i) 0)) by lia.
  rewrite (proj2 (Z.ltb_ge (Z.of_nat i) (Z.of_nat (length l)))) by lia.
  rewrite andb_false_r. reflexivity.
Qed.

Lemma py_slice_to_take {A : Type} (l : list A) (n : Z) :
  0 <= n -> py_slice_to l n = take (Z.to_nat n) l.
Proof.
  intros Hn. unfold py_slice_to.
  rewrite (proj2 (Z.ltb_ge n 0)) by lia.
  destruct (Z.le_ge_cases n (Z.of_nat (length l))) as [Hle|Hge].
  - rewrite Z.min_l by lia. reflexivity.
  - rewrite Z.min_r by lia. rewrite Nat2Z.id.
    rewrite !take_ge by lia. reflexivity.
Qed.

Lemma np_linspace01_succ (n : Z) :
  0 <= n -> np_linspace01 (n + 1) = Ok (linspace01_points (n + 1)).
Proof.
  intros Hn. unfold np_linspace01.
  rewrite (proj2 (Z.ltb_ge (n + 1) 0)) by lia. reflexivity.
Qed.

Section ColorscaleLoop.
Variable n_colors : Z.
Variable colors : list string.
Hypothesis n_colors_nonneg : 0 <= n_colors.

Local Abbreviation scaled_values := (linspace01_points (n_colors + 1)).

Lemma scaled_values_lookup (i : nat) :
  (i <= Z.to_nat n_colors)%nat ->
  scaled_values !! i = Some (Qmake (Z.of_nat i) (Z.to_pos n_colors)).
Proof.
  intros Hi. unfold linspace01_points. rewrite list_lookup_fmap.
  rewrite lookup_seq_lt by lia.
  replace (n_colors + 1 - 1) with n_colors by lia. reflexivity.
Qed.

(** A turn of the loop inside the palette appends the two entries. *)
Lemma colorscale_step_inside (acc : list (Q * string)) (i : nat) (c : string) :
  (i < Z.to_nat n_colors)%nat ->
  colors !! i = Some c ->
  colorscale_step scaled_values colors acc (Z.of_nat i)
  = Ok (acc ++ [(Qmake (Z.of_nat i) (Z.to_pos n_colors), c);
                (Qmake (Z.of_nat (S i)) (Z.to_pos n_colors), c)]).
Proof.
  intros Hi Hc. unfold colorscale_step.
  rewrite (py_index_nat scaled_values i _ (scaled_values_lookup i ltac:(lia))).
  cbn [bind]. rewrite (py_index_nat colors i c Hc). cbn [bind].
  replace (Z.of_nat i + 1) with (Z.of_nat (S i)) by lia.
  rewrite (py_index_nat scaled_values (S i) _ (scaled_values_lookup (S i) ltac:(lia))).
  reflexivity.
Qed.

(** A turn of the loop past the end of the palette raises. *)
Lemma colorscale_step_outside (acc : list (Q * string)) (i : nat) :
  (i < Z.to_nat n_colors)%nat ->
  (length colors <= i)%nat ->
  colorscale_step scaled_values colors acc (Z.of_nat i) = Raise IndexError.
Proof.
  intros Hi Hout. unfold colorscale_step.
  rewrite (py_index_nat scaled_values i _ (scaled_values_lookup i ltac:(lia))).
  cbn [bind]. rewrite (py_index_past_end colors i Hout). reflexivity.
Qed.

Lemma colorscale_loop_closed_form (k a : nat) (acc : list (Q * string)) :
  (a + k <= Z.to_nat n_colors)%nat ->
  (a + k <= length colors)%nat ->
  for_each (colorscale_step scaled_values colors) (map Z.of_nat (seq a k)) acc
  = Ok (acc ++ stepped_from n_colors a (take k (drop a colors))).
Proof.
  revert a acc. induction k as [|k IH]; intros a acc Hn Hlen.
  - cbn. rewrite app_nil_r. reflexivity.
  - destruct (colors !! a) as [c|] eqn:Hc.
    2:{ apply lookup_ge_None in Hc. lia. }
    cbn [seq map for_each].
    rewrite (colorscale_step_inside acc a c) by (lia || assumption).
    cbn [bind]. rewrite IH by lia.
    rewrite (drop_S _ _ _ Hc). cbn [take stepped_from].
    rewrite <- app_assoc. reflexivity.
Qed.

Lemma colorscale_loop_raises (k a : nat) (acc : list (Q * string)) :
  (a <= length colors)%nat ->
  (length colors < a + k)%nat ->
  (a + k <= Z.to_nat n_colors)%nat ->
  for_each (colorscale_step scaled_values colors) (map Z.of_nat (seq a k)) acc
  = Raise IndexError.
Proof.
  revert a acc. induction k as [|k IH]; intros a acc Ha Hpast Hn; [lia|].
  cbn [seq map for_each].
  destruct (colors !! a) as [c|] eqn:Hc.
  - pose proof (lookup_lt_Some _ _ _ Hc).
    rewrite (colorscale_step_inside acc a c) by (lia || assumption).
    cbn [bind]. apply IH; lia.
  - apply lookup_ge_None in Hc.
    rewrite colorscale_step_outside by lia. reflexivity.
Qed.
End ColorscaleLoop.

(** Within the palette the function returns the closed form. *)
Lemma make_colorscale_distinct_within (n_colors : Z) (pal : string) (colors : list string) :
  COLOR_SCALES !! pal = Some colors ->
  0 <= n_colors <= Z.of_nat (length colors) ->
  make_colorscale_distinct n_colors pal
  = Ok (stepped_from n_colors 0 (take (Z.to_nat n_colors) colors)).
Proof.
  intros Hpal [H0 Hlen]. unfold make_colorscale_distinct.
  rewrite np_linspace01_succ by lia. cbn [bind]. rewrite Hpal. cbn [bind].
  rewrite py_slice_to_take by lia. unfold py_range.
  rewrite colorscale_loop_closed_form.
  - rewrite drop_0, take_take, Nat.min_id. reflexivity.
  - lia.
  - lia.
  - rewrite length_take. lia.
Qed.

(** Past the palette's length it raises [IndexError]. *)
Lemma make_colorscale_distinct_overflow (n_colors : Z) (pal : string) (colors : list string) :
  COLOR_SCALES !! pal = Some colors ->
  Z.of_nat (length colors) < n_colors ->
  make_colorscale_distinct n_colors pal = Raise IndexError.
Proof.
  intros Hpal Hlen. unfold make_colorscale_distinct.
  rewrite np_linspace01_succ by lia. cbn [bind]. rewrite Hpal. cbn [bind].
  rewrite py_slice_to_take by lia. unfold py_range.
  rewrite take_ge by lia.
  apply colorscale_loop_raises; lia.
Qed.

Lemma COLOR_SCALES_NoDup (pal : string) (colors : list string) :
  COLOR_SCALES !! pal = Some colors -> NoDup colors.
Proof.
  intros H. unfold COLOR_SCALES in H. apply elem_of_list_to_map_2 in H.
  repeat (apply elem_of_cons in H as [H|H];
          [injection H as -> ->; refine (bool_decide_unpack _ _); vm_compute; exact I|]).
  by apply elem_of_nil in H.
Qed.

Lemma COLOR_SCALES_Set3 :
  exists colors, COLOR_SCALES !! "Set3" = Some colors /\ length colors = 12%nat.
Proof. eexists. split; [vm_compute; reflexivity|reflexivity]. Qed.

(** *** The closed form is a stepped colour scale *)

Section Stepped.
Variable n_colors : Z.

Lemma length_stepped_from (a : nat) (colors : list string) :
  length (stepped_from n_colors a colors) = (2 * length colors)%nat.
Proof.
  revert a. induction colors as [|c rest IH]; intros a; cbn [stepped_from length];
    [reflexivity|]. rewrite IH. lia.
Qed.

Lemma stepped_from_lookup (a j : nat) (colors : list string) (c : string) :
  colors !! j = Some c ->
  stepped_from n_colors a colors !! (2 * j)%nat
  = Some (Qmake (Z.of_nat (a + j)) (Z.to_pos n_colors), c)
  /\ stepped_from n_colors a colors !! (2 * j + 1)%nat
     = Some (Qmake (Z.of_nat (S (a + j))) (Z.to_pos n_colors), c).
Proof.
  revert a j. induction colors as [|c0 rest IH]; intros a j Hj; [discriminate|].
  destruct j as [|j].
  - injection Hj as ->. rewrite Nat.add_0_r. split; reflexivity.
  - cbn [lookup list_lookup] in Hj. destruct (IH (S a) j Hj) as [He Ho].
    replace (2 * S j)%nat with (S (S (2 * j))) by lia.
    replace (S (S (2 * j)) + 1)%nat with (S (S (2 * j + 1))) by lia.
    replace (a + S j)%nat with (S a + j)%nat by lia.
    cbn [stepped_from]. split; [exact He|exact Ho].
Qed.

Lemma stepped_from_elem (a : nat) (colors : list string) (p : Q) (c : string) :
  (p, c) ∈ stepped_from n_colors a colors ->
  exists j, colors !! j = Some c
            /\ (p = Qmake (Z.of_nat (a + j)) (Z.to_pos n_colors)
                \/ p = Qmake (Z.of_nat (S (a + j))) (Z.to_pos n_colors)).
Proof.
  revert a. induction colors as [|c0 rest IH]; intros a Hin; cbn [stepped_from] in Hin.
  - by apply elem_of_nil in Hin.
  - apply elem_of_cons in Hin as [Hin|Hin].
    { injection Hin as -> ->. exists 0%nat. rewrite Nat.add_0_r.
      split; [reflexivity|left; reflexivity]. }
    apply elem_of_cons in Hin as [Hin|Hin].
    { injection Hin as -> ->. exists 0%nat. rewrite Nat.add_0_r.
      split; [reflexivity|right; reflexivity]. }
    destruct (IH (S a) Hin) as (j & Hj & Hp).
    exists (S j). replace (a + S j)%nat with (S a + j)%nat by lia.
    split; [exact Hj|exact Hp].
Qed.

Lemma Qmake_le_same_den (u v : Z) (d : positive) :
  u <= v -> (Qmake u d <= Qmake v d)%Q.
Proof. intros Huv. unfold Qle. cbn [Qnum Qden]. nia. Qed.

(** Neighbouring positions never decrease. *)
Lemma stepped_from_nondecreasing (a m : nat) (colors : list string)
    (p q : Q) (c c' : string) :
  stepped_from n_colors a colors !! m = Some (p, c) ->
  stepped_from n_colors a colors !! S m = Some (q, c') ->
  (p <= q)%Q.
Proof.
  revert a m. induction colors as [|c0 rest IH]; intros a m Hp Hq; [discriminate|].
  cbn [stepped_from] in Hp, Hq.
  destruct m as [|[|m]].
  - injection Hp as <- _. injection Hq as <- _.
    apply Qmake_le_same_den. lia.
  - injection Hp as <- _. cbn [lookup list_lookup] in Hq.
    destruct rest as [|c1 rest']; [discriminate|].
    injection Hq as <- _. apply Qle_refl.
  - cbn [lookup list_lookup] in Hp, Hq. exact (IH (S a) m Hp Hq).
Qed.

(** A colour that occurs once in the palette occurs twice in the scale. *)
Lemma stepped_from_count (a : nat) (colors : list string) (c : string) :
  NoDup colors ->
  length (filter (fun e : Q * string => snd e = c) (stepped_from n_colors a colors))
  = if decide (c ∈ colors) then 2%nat else 0%nat.
Proof.
  revert a. induction colors as [|c0 rest IH]; intros a Hnd; cbn [stepped_from].
  - rewrite decide_False by apply not_elem_of_nil. reflexivity.
  - apply NoDup_cons in Hnd as [Hfresh Hnd].
    destruct (decide (c0 = c)) as [->|Hne].
    + rewrite !filter_cons_True by reflexivity. cbn [length].
      rewrite IH by assumption.
      rewrite (decide_False (P := c ∈ rest)) by assumption.
      rewrite decide_True by apply list_elem_of_here. reflexivity.
    + rewrite !filter_cons_False by (cbn; congruence).
      rewrite IH by assumption.
      destruct (decide (c ∈ rest)) as [Hin|Hnin].
      * rewrite decide_True by (apply list_elem_of_further; assumption). reflexivity.
      * rewrite decide_False; [reflexivity|].
        intros Hin. apply elem_of_cons in Hin as [->|Hin]; congruence.
Qed.
End Stepped.

(** C3 as the code has it: asking for more colours than the palette holds
    raises [IndexError]; the slice [colors[:n_colors]] neither wraps around
    nor pads, and the loop then indexes past the palette's end.  Asking for
    exactly as many colours as the palette holds (12 for "Set3") succeeds
    and uses every palette colour, each twice. *)
Theorem make_colorscale_distinct_beyond_palette
    (n_colors : Z) (pal : string) (colors : list string) :
  COLOR_SCALES !! pal = Some colors ->
  Z.of_nat (length colors) < n_colors ->
  make_colorscale_distinct n_colors pal = Raise IndexError
  /\ exists l,
       make_colorscale_distinct (Z.of_nat (length colors)) pal = Ok l
       /\ length l = (2 * length colors)%nat
       /\ forall c, c ∈ colors ->
                    length (filter (fun e : Q * string => snd e = c) l) = 2%nat.
Proof.
  intros Hpal Hlen. split.
  - exact (make_colorscale_distinct_overflow n_colors pal colors Hpal Hlen).
  - eexists. split.
    + apply (make_colorscale_distinct_within _ pal colors Hpal). lia.
    + rewrite Nat2Z.id, firstn_all. split.
      * apply length_stepped_from.
      * intros c Hc. rewrite stepped_from_count by exact (COLOR_SCALES_NoDup _ _ Hpal).
        rewrite decide_True by assumption. reflexivity.
Qed.

Lemma make_colorscale_distinct_beyond_palette_witness :
  make_colorscale_distinct 13 "Set3" = Raise IndexError.
Proof.
  refine (proj1 (make_colorscale_distinct_beyond_palette 13 "Set3"
    ["#8DD3C7"; "#FFFFB3"; "#BEBADA"; "#FB8072"; "#80B1D3"; "#FDB462";
     "#B3DE69"; "#FCCDE5"; "#D9D9D9"; "#BC80BD"; "#CCEBC5"; "#FFED6F"] _ _)).
  - vm_compute. reflexivity.
  - vm_compute. reflexivity.
Defined.

(** The wording of the specification (no exception, silent truncation) fails
    at [n_colors = 13] with "Set3": the palette has 12 entries and the call
    raises instead of returning a truncated scale. *)
Lemma set3_thirteen_colors_raises :
  (exists colors, COLOR_SCALES !! "Set3" = Some colors
                  /\ Z.of_nat (length colors) < 13)
  /\ make_colorscale_distinct 13 "Set3" = Raise IndexError
  /\ ~ is_ok (make_colorscale_distinct 13 "Set3").
Proof.
  split; [|split].
  - eexists. split; [vm_compute; reflexivity|]. vm_compute. reflexivity.
  - vm_compute. reflexivity.
  - vm_compute. intros [].
Qed.

(** C4 as the code has it: for a palette of the table and
    [1 <= n <= len(palette)] the function returns [2n] entries; entry [2i]
    is [(i/n, colour i)] and entry [2i+1] is [((i+1)/n, colour i)], so every
    position is one of the [n+1] points [k/n], neighbouring positions never
    decrease, the first is 0 and the last is 1, and each of the first [n]
    palette colours occurs exactly twice. *)
Theorem make_colorscale_distinct_stepped
    (n_colors : Z) (pal : string) (colors : list string) :
  COLOR_SCALES !! pal = Some colors ->
  1 <= n_colors <= Z.of_nat (length colors) ->
  exists l,
    make_colorscale_distinct n_colors pal = Ok l
    /\ Z.of_nat (length l) = 2 * n_colors
    /\ (forall (i : nat) (c : string),
          Z.of_nat i < n_colors -> colors !! i = Some c ->
          l !! (2 * i)%nat = Some (Qmake (Z.of_nat i) (Z.to_pos n_colors), c)
          /\ l !! (2 * i + 1)%nat
             = Some (Qmake (Z.of_nat i + 1) (Z.to_pos n_colors), c))
    /\ (forall (p : Q) (c : string),
          (p, c) ∈ l ->
          exists k, 0 <= k <= n_colors /\ p = Qmake k (Z.to_pos n_colors))
    /\ (forall (m : nat) (p q : Q) (c c' : string),
          l !! m = Some (p, c) -> l !! S m = Some (q, c') -> (p <= q)%Q)
    /\ (exists p c, head l = Some (p, c) /\ (p == 0)%Q)
    /\ (exists p c, last l = Some (p, c) /\ (p == 1)%Q)
    /\ (forall c, c ∈ take (Z.to_nat n_colors) colors ->
                  length (filter (fun e : Q * string => snd e = c) l) = 2%nat).
Proof.
  intros Hpal [H1 Hlen].
  set (N := Z.to_nat n_colors).
  assert (HN : Z.of_nat N = n_colors) by (subst N; lia).
  assert (Htake : length (take N colors) = N) by (rewrite length_take; lia).
  exists (stepped_from n_colors 0 (take N colors)). split.
  { apply (make_colorscale_distinct_within n_colors pal colors Hpal). lia. }
  split.
  { rewrite length_stepped_from, Htake. lia. }
  split.
  { intros i c Hi Hc.
    assert (Hc' : take N colors !! i = Some c) by (rewrite lookup_take_lt by lia; exact Hc).
    destruct (stepped_from_lookup n_colors 0 i _ c Hc') as [He Ho].
    cbn [Nat.add] in He, Ho.
    replace (Z.of_nat i + 1) with (Z.of_nat (S i)) by lia.
    split; assumption. }
  split.
  { intros p c Hin.
    destruct (stepped_from_elem n_colors 0 _ p c Hin) as (j & Hj & Hp).
    apply lookup_lt_Some in Hj. rewrite Htake in Hj. cbn [Nat.add] in Hp.
    destruct Hp as [->| ->]; eexists; (split; [|reflexivity]); lia. }
  split.
  { intros m p q c c'. apply stepped_from_nondecreasing. }
  split.
  { destruct (take N colors) as [|c0 rest] eqn:Hcs; [cbn in Htake; lia|].
    eexists _, c0. split; [reflexivity|]. reflexivity. }
  split.
  { destruct (take N colors !! (N - 1)%nat) as [c|] eqn:Hc.
    2:{ apply lookup_ge_None in Hc. lia. }
    destruct (stepped_from_lookup n_colors 0 (N - 1) _ c Hc) as [_ Ho].
    exists (Qmake (Z.of_nat (S (0 + (N - 1)))) (Z.to_pos n_colors)), c. split.
    - rewrite last_lookup, length_stepped_from, Htake.
      replace (Nat.pred (2 * N)) with (2 * (N - 1) + 1)%nat by lia. exact Ho.
    - replace (Z.of_nat (S (0 + (N - 1)))) with n_colors by lia.
      unfold Qeq. cbn [Qnum Qden]. rewrite Z2Pos.id by lia. lia. }
  intros c Hc.
  rewrite stepped_from_count.
  - rewrite decide_True by assumption. reflexivity.
  - pose proof (COLOR_SCALES_NoDup _ _ Hpal) as Hnd.
    rewrite <- (take_drop N colors) in Hnd.
    apply NoDup_app in Hnd as [Hnd _]. exact Hnd.
Qed.

Lemma make_colorscale_distinct_stepped_witness :
  exists l, make_colorscale_distinct 3 "Set1" = Ok l /\ Z.of_nat (length l) = 2 * 3.
Proof.
  destruct (make_colorscale_distinct_stepped 3 "Set1"
    ["#e41a1c"; "#377eb8"; "#4daf4a"; "#984ea3"; "#ff7f00"; "#ffff33";
     "#a65628"; "#f781bf"; "#999999"]) as (l & Hrun & Hlen & _).
  - vm_compute. reflexivity.
  - vm_compute. split; discriminate.
  - exists l. split; assumption.
Defined.

(** The wording of the specification has no bound on [n]: at [n = 13] with
    "Set3" no list is returned at all. *)
Lemma stepped_scale_needs_enough_colors :
  1 <= 13
  /\ is_Some (COLOR_SCALES !! "Set3")
  /\ ~ exists l, make_colorscale_distinct 13 "Set3" = Ok l.
Proof.
  split; [lia|]. split.
  - eexists. vm_compute. reflexivity.
  - intros [l Hl]. vm_compute in Hl. discriminate.
Qed.

(** ** [percentage_difference] *)

Lemma Qmax_cases (x y : Q) : Qmax x y = x \/ Qmax x y = y.
Proof.
  unfold Qmax, GenericMinMax.gmax. destruct (x ?= y)%Q; auto.
Qed.

Lemma fold_left_Qmax_spec (vs : list Q) (v : Q) :
  (fold_left Qmax vs v = v \/ fold_left Qmax vs v ∈ vs)
  /\ (v <= fold_left Qmax vs v)%Q
  /\ (forall x, x ∈ vs -> (x <= fold_left Qmax vs v)%Q).
Proof.
  revert v. induction vs as [|x vs IH]; intros v; cbn [fold_left].
  - split; [left; reflexivity|]. split; [apply Qle_refl|].
    intros x Hx. by apply elem_of_nil in Hx.
  - destruct (IH (Qmax v x)) as (Hmem & Hle & Hall). split; [|split].
    + destruct Hmem as [Hm|Hm].
      * rewrite Hm. destruct (Qmax_cases v x) as [->| ->];
          [left; reflexivity|right; apply list_elem_of_here].
      * right. apply list_elem_of_further. exact Hm.
    + eapply Qle_trans; [apply Q.le_max_l|exact Hle].
    + intros y Hy. apply elem_of_cons in Hy as [->|Hy].
      * eapply Qle_trans; [apply Q.le_max_r|exact Hle].
      * apply Hall. exact Hy.
Qed.

(** [np_max] returns an entry of the array that bounds all entries. *)
Lemma np_max_spec (a : grid) (m : Q) :
  np_max a = Ok m ->
  m ∈ concat a /\ forall v, v ∈ concat a -> (v <= m)%Q.
Proof.
  unfold np_max. destruct (concat a) as [|v vs]; [discriminate|].
  intros [= <-]. destruct (fold_left_Qmax_spec vs v) as (Hmem & Hle & Hall).
  split.
  - destruct Hmem as [->|Hm]; [apply list_elem_of_here|].
    apply list_elem_of_further. exact Hm.
  - intros x Hx. apply elem_of_cons in Hx as [->|Hx]; [exact Hle|apply Hall; exact Hx].
Qed.









Lemma elem_of_entry {A : Type} (a : list (list A)) (i j : nat) (x : A) :
  entry a i j = Some x -> x ∈ concat a.
Proof.
  unfold entry. destruct (a !! i) as [row|] eqn:Hrow; [|discriminate]. intros Hx.
  apply list_elem_of_lookup_2 in Hx. apply list_elem_of_lookup_2 in Hrow.
  clear i j. induction a as [|r a IH]; [by apply elem_of_nil in Hrow|].
  cbn [concat]. apply elem_of_app.
  apply elem_of_cons in Hrow as [->|Hrow]; [left; exact Hx|right; exact (IH Hrow)].
Qed.

(** *** Facts of binary64 arithmetic *)

























(** *** The formula *)







(** Arrays whose shapes cannot be broadcast together raise [ValueError]; an
    empty base array raises [ValueError] in [np.max]. *)
Example percentage_difference_shape_mismatch :
  percentage_difference (Int64Array [[1; 2]; [3; 5]]) (Int64Array [[1]; [2]; [3]])
  = Raise ValueError
  /\ percentage_difference (Float64Array []) (Float64Array []) = Raise ValueError.
Proof. split; reflexivity. Qed.

(** The whole loop: when it finishes, [traces] holds, in order, what the loop
    body returns for every pair of every group. *)
Lemma build_traces_pairs {plotly : SurfaceValidator}
    (surface_data : list (string * group)) (traces : list (surface * surface)) :
  build_traces surface_data = Ok traces ->
  Forall2 (fun t gn => pair_surfaces (fst gn) (snd gn) = Ok t)
          traces (all_pairs surface_data).
Proof.
  unfold build_traces.
  assert (Hinner : forall (g : group) names acc out,
             for_each (fun traces names =>
                         pair <- pair_surfaces g names ;; Ok (traces ++ [pair]))
                      names acc = Ok out ->
             exists new, out = acc ++ new
                         /\ Forall2 (fun t gn => pair_surfaces (fst gn) (snd gn) = Ok t)
                                    new (map (fun names => (g, names)) names)).
  { intros g names. induction names as [|nm names IH]; intros acc out Hrun.
    - injection Hrun as <-. exists []. rewrite app_nil_r. split; [reflexivity|constructor].
    - cbn [for_each] in Hrun.
      destruct (pair_surfaces g nm) as [pair|e] eqn:Hpair; [|discriminate].
      cbn [bind] in Hrun. destruct (IH _ _ Hrun) as (new & -> & Hnew).
      exists (pair :: new). rewrite <- app_assoc. split; [reflexivity|].
      cbn [map]. constructor; [exact Hpair|exact Hnew]. }
  assert (Houter : forall sd acc out,
             for_each (fun traces (kg : string * group) =>
                         for_each (fun traces names =>
                                     pair <- pair_surfaces (snd kg) names ;;
                                     Ok (traces ++ [pair]))
                                  (combinations (snd kg)) traces)
                      sd acc = Ok out ->
             exists new, out = acc ++ new
                         /\ Forall2 (fun t gn => pair_surfaces (fst gn) (snd gn) = Ok t)
                                    new (all_pairs sd)).
  { intros sd. induction sd as [|kg sd IH]; intros acc out Hrun.
    - injection Hrun as <-. exists []. rewrite app_nil_r. split; [reflexivity|constructor].
    - cbn [for_each] in Hrun.
      destruct (for_each _ (combinations (snd kg)) acc) as [mid|e] eqn:Hmid;
        [|discriminate].
      cbn [bind] in Hrun.
      destruct (Hinner _ _ _ _ Hmid) as (new1 & -> & Hnew1).
      destruct (IH _ _ Hrun) as (new2 & -> & Hnew2).
      exists (new1 ++ new2). rewrite <- app_assoc. split; [reflexivity|].
      unfold all_pairs. cbn [flat_map]. apply Forall2_app; assumption. }
  intros Hrun. destruct (Houter _ _ _ Hrun) as (new & -> & Hnew). exact Hnew.
Qed.

(** ** The pair loop and transposition *)

Lemma concat_zip_with_cons (row : list Q) (cols : grid) :
  length row = length cols ->
  concat (zip_with cons row cols) ≡ₚ row ++ concat cols.
Proof.
  revert cols. induction row as [|v row IH]; intros [|col cols] Hlen;
    try discriminate; [reflexivity|].
  cbn [zip_with concat]. rewrite IH by (cbn in Hlen; lia).
  cbn [app]. constructor.
  rewrite !app_assoc. apply Permutation_app_tail. apply Permutation_app_comm.
Qed.

Lemma concat_singletons (row : list Q) : concat (map (fun v => [v]) row) = row.
Proof. induction row as [|v row IH]; cbn; [reflexivity|]. rewrite IH. reflexivity. Qed.

Lemma length_transpose (a : grid) (cols : nat) :
  a <> [] -> Forall (fun row => length row = cols) a -> length (transpose a) = cols.
Proof.
  induction a as [|row rest IH]; intros Hne Hrect; [congruence|].
  apply Forall_cons in Hrect as [Hrow Hrest].
  destruct rest as [|row' rest].
  - cbn. rewrite length_map. exact Hrow.
  - change (transpose (row :: row' :: rest))
      with (zip_with cons row (transpose (row' :: rest))).
    rewrite length_zip_with, IH by (congruence || assumption). lia.
Qed.

(** For a rectangular array the transpose holds the same entries. *)
Lemma transpose_entries (a : grid) (cols : nat) :
  Forall (fun row => length row = cols) a ->
  concat (transpose a) ≡ₚ concat a.
Proof.
  induction a as [|row rest IH]; intros Hrect; [reflexivity|].
  apply Forall_cons in Hrect as [Hrow Hrest].
  destruct rest as [|row' rest].
  - cbn. rewrite concat_singletons, app_nil_r. reflexivity.
  - change (transpose (row :: row' :: rest))
      with (zip_with cons row (transpose (row' :: rest))).
    rewrite concat_zip_with_cons.
    + cbn [concat]. apply Permutation_app_head. apply IH. exact Hrest.
    + rewrite (length_transpose _ cols) by (congruence || assumption).
      exact Hrow.
Qed.

Lemma np_max_same_entries (a b : grid) (m : Q) :
  concat a ≡ₚ concat b ->
  np_max a = Ok m ->
  exists m', np_max b = Ok m' /\ (m' == m)%Q.
Proof.
  intros Hperm Ha.
  destruct (np_max b) as [m'|e] eqn:Hb.
  - exists m'. split; [reflexivity|].
    destruct (np_max_spec _ _ Ha) as [Hin Hall].
    destruct (np_max_spec _ _ Hb) as [Hin' Hall'].
    apply Qle_antisym.
    + apply Hall. rewrite Hperm. exact Hin'.
    + apply Hall'. rewrite <- Hperm. exact Hin.
  - exfalso. unfold np_max in Ha, Hb.
    destruct (concat b); [|discriminate].
    apply Permutation_nil_r in Hperm. rewrite Hperm in Ha. discriminate.
Qed.

Lemma Qgtb_Qeq (a a' b b' : Q) :
  (a == a')%Q -> (b == b')%Q -> Qgtb a b = Qgtb a' b'.
Proof.
  intros Ha Hb. unfold Qgtb. rewrite (Qcompare_comp a a' Ha b b' Hb). reflexivity.
Qed.

(** The emphasis in terms of the grids as they are on file: for rectangular
    grids the transposition applied to "WIP" names changes neither maximum,
    so the comparison is that of the two data sets themselves. *)
Lemma pair_surfaces_emphasis_on_file {plotly : SurfaceValidator}
    (g : group) (name_1 name_2 : string) (d1 d2 : grid) (m1 m2 : Q)
    (cols_1 cols_2 : nat) (s1 s2 : surface) :
  files g !! name_1 = Some d1 ->
  files g !! name_2 = Some d2 ->
  Forall (fun row => length row = cols_1) d1 ->
  Forall (fun row => length row = cols_2) d2 ->
  np_max d1 = Ok m1 ->
  np_max d2 = Ok m2 ->
  pair_surfaces g (name_1, name_2) = Ok (s1, s2) ->
  ((m1 < m2)%Q -> is_background s1 /\ is_foreground s2)
  /\ (~ (m1 < m2)%Q -> is_foreground s1 /\ is_background s2).
Proof.
  intros Hd1 Hd2 Hr1 Hr2 Hm1 Hm2 Hrun.
  assert (Hturn : forall d m cols,
             Forall (fun row => length row = cols) d -> np_max d = Ok m ->
             exists m', np_max (oriented name_1 d) = Ok m' /\ (m' == m)%Q).
  { intros d m cols Hr Hm. unfold oriented.
    destruct (str_contains "WIP" name_1).
    - apply (np_max_same_entries d); [|exact Hm].
      symmetry. exact (transpose_entries d cols Hr).
    - exists m. split; [exact Hm|reflexivity]. }
  destruct (Hturn d1 m1 cols_1 Hr1 Hm1) as (m1' & Hm1' & He1).
  destruct (Hturn d2 m2 cols_2 Hr2 Hm2) as (m2' & Hm2' & He2).
  apply pair_surfaces_Ok in Hrun
    as (d1' & d2' & n1 & n2 & cs1 & cs2 & k1 & k2 & Hd1' & Hd2' & Hn1 & Hn2
        & _ & _ & _ & _ & -> & -> & _ & _).
  assert (d1' = d1) by congruence. assert (d2' = d2) by congruence. subst d1' d2'.
  assert (n1 = m1') by congruence. assert (n2 = m2') by congruence. subst n1 n2.
  rewrite (Qgtb_Qeq m2' m2 m1' m1 He2 He1).
  pose proof (emphasis_by_maxima (axes_x_values g) (axes_y_values g)
                (oriented name_1 d1) (oriented name_1 d2) cs1 cs2
                (if negb (str_contains "SEE" name_1) then k1 else k1 * 2)
                (if negb (str_contains "SEE" name_2) then k2 else k2 * 2) m1 m2)
    as (Hlt & Hge & _).
  split; assumption.
Qed.

(** * Further properties of the code *)

(** ** [make_colorscale_distinct]: palettes and group counts at the edges *)

(** X1: a palette name that is not in the table makes the call raise
    [ValueError], whatever the group count is. *)
Theorem make_colorscale_distinct_unknown_palette (n_colors : Z) (pal : string) :
  COLOR_SCALES !! pal = None ->
  make_colorscale_distinct n_colors pal = Raise ValueError.
Proof.
  intros Hpal. unfold make_colorscale_distinct, np_linspace01.
  destruct (n_colors + 1 <? 0); cbn [bind]; [reflexivity|].
  rewrite Hpal. reflexivity.
Qed.

Lemma make_colorscale_distinct_unknown_palette_witness :
  make_colorscale_distinct 3 "RCB_Set3_12" = Raise ValueError.
Proof.
  apply (make_colorscale_distinct_unknown_palette 3 "RCB_Set3_12").
  vm_compute. reflexivity.
Defined.

(** X2: for a palette of the table the call returns a list exactly when
    [-1 <= n_colors <= len(palette)]; the list is empty for [n_colors] 0 and
    -1, and [n_colors <= -2] raises [ValueError] (from [np.linspace]). *)
Theorem make_colorscale_distinct_ok_iff
    (n_colors : Z) (pal : string) (colors : list string) :
  COLOR_SCALES !! pal = Some colors ->
  (is_ok (make_colorscale_distinct n_colors pal)
   <-> -1 <= n_colors <= Z.of_nat (length colors))
  /\ (-1 <= n_colors <= 0 -> make_colorscale_distinct n_colors pal = Ok [])
  /\ (n_colors < -1 -> make_colorscale_distinct n_colors pal = Raise ValueError).
Proof.
  intros Hpal.
  assert (Hneg : n_colors < -1 -> make_colorscale_distinct n_colors pal = Raise ValueError).
  { intros Hn. unfold make_colorscale_distinct, np_linspace01.
    rewrite (proj2 (Z.ltb_lt (n_colors + 1) 0)) by lia. reflexivity. }
  assert (Hm1 : make_colorscale_distinct (-1) pal = Ok []).
  { unfold make_colorscale_distinct. cbn [np_linspace01 Z.add Z.ltb Z.compare bind].
    rewrite Hpal. reflexivity. }
  assert (H0 : make_colorscale_distinct 0 pal = Ok []).
  { rewrite (make_colorscale_distinct_within 0 pal colors Hpal) by lia. reflexivity. }
  split; [|split].
  - split.
    + intros Hok.
      destruct (Z.lt_ge_cases n_colors (-1)) as [Hlt|Hge].
      { rewrite (Hneg Hlt) in Hok. destruct Hok. }
      destruct (Z.lt_ge_cases (Z.of_nat (length colors)) n_colors) as [Hbig|Hsmall]; [|lia].
      rewrite (make_colorscale_distinct_overflow _ _ _ Hpal Hbig) in Hok. destruct Hok.
    + intros [Hlo Hhi].
      destruct (Z.eq_dec n_colors (-1)) as [->|Hne]; [rewrite Hm1; exact I|].
      rewrite (make_colorscale_distinct_within n_colors pal colors Hpal) by lia.
      exact I.
  - intros [Hlo Hhi].
    destruct (Z.eq_dec n_colors (-1)) as [->|Hne]; [exact Hm1|].
    replace n_colors with 0 by lia. exact H0.
  - exact Hneg.
Qed.

Lemma make_colorscale_distinct_ok_iff_witness :
  make_colorscale_distinct (-2) "Set1" = Raise ValueError
  /\ make_colorscale_distinct (-1) "Set1" = Ok [].
Proof.
  destruct (make_colorscale_distinct_ok_iff (-2) "Set1"
    ["#e41a1c"; "#377eb8"; "#4daf4a"; "#984ea3"; "#ff7f00"; "#ffff33";
     "#a65628"; "#f781bf"; "#999999"]) as (_ & _ & Hneg); [vm_compute; reflexivity|].
  destruct (make_colorscale_distinct_ok_iff (-1) "Set1"
    ["#e41a1c"; "#377eb8"; "#4daf4a"; "#984ea3"; "#ff7f00"; "#ffff33";
     "#a65628"; "#f781bf"; "#999999"]) as (_ & Hempty & _); [vm_compute; reflexivity|].
  split; [apply Hneg; lia|apply Hempty; lia].
Defined.

(** ** [create_layout]: axes and annotations *)

(** X3: in every layout each axis carries as many tick labels as tick
    values; the x-axis is [0,10] with ticks every 2, and the y-axis follows
    "WPI" in the first name: reversed range [15,6] with ticks 15, 12, 9, 6,
    or [0,1.5] with ticks 0, 0.5, 1, 1.5. *)
Theorem create_layout_axes
    (x_label y_label z_label surface_1_name surface_2_name : string)
    (surface_1_2d_list surface_2_2d_list : grid) (x_scale y_scale z_scale : Q)
    (ly : layout) :
  create_layout x_label y_label z_label surface_1_name surface_2_name
                surface_1_2d_list surface_2_2d_list x_scale y_scale z_scale = Ok ly ->
  let sc := layout_scene ly in
  length (ticktext (xaxis sc)) = length (tickvals (xaxis sc))
  /\ length (ticktext (yaxis sc)) = length (tickvals (yaxis sc))
  /\ length (ticktext (zaxis sc)) = length (tickvals (zaxis sc))
  /\ range (xaxis sc) = [0; 10]%Q
  /\ tickvals (xaxis sc) = [0; 2; 4; 6; 8; 10]%Q
  /\ (str_contains "WPI" surface_1_name = true ->
      range (yaxis sc) = [15; 6]%Q
      /\ tickvals (yaxis sc) = [15; 12; 9; 6]%Q
      /\ ticktext (yaxis sc) = ["15"; "12"; "9"; "6"])
  /\ (str_contains "WPI" surface_1_name = false ->
      range (yaxis sc) = [0.00; 1.5]%Q
      /\ tickvals (yaxis sc) = [0; 0.5; 1; 1.5]%Q
      /\ ticktext (yaxis sc) = ["0"; "0.5"; "1.0"; "1.5"]).
Proof.
  unfold create_layout.
  destruct (_extracted_from_create_layout_31 surface_1_2d_list) as [c1|e];
    cbn [bind]; [|discriminate].
  destruct (_extracted_from_create_layout_31 surface_2_2d_list) as [c2|e];
    cbn [bind]; [|discriminate].
  intros [= <-].
  cbn [layout_scene xaxis yaxis zaxis make_axis range tickvals ticktext].
  destruct (str_contains "WPI" surface_1_name);
    repeat split; try reflexivity; intros; discriminate.
Qed.

Lemma create_layout_axes_witness :
  exists ly,
    create_layout "Wave Height [m]" "Current Speed [m/s]" "EVRD Index"
                  "CS_EV_A" "CS_EV_B" [[1; 5]]%Q [[2; 6]]%Q 1.0 0.5 0.5 = Ok ly
    /\ range (yaxis (layout_scene ly)) = [0.00; 1.5]%Q.
Proof.
  eexists. split; [reflexivity|].
  refine (proj1 (proj2 (proj2 (proj2 (proj2 (proj2 (proj2
    (create_layout_axes "Wave Height [m]" "Current Speed [m/s]" "EVRD Index"
       "CS_EV_A" "CS_EV_B" [[1; 5]]%Q [[2; 6]]%Q 1.0 0.5 0.5 _ eq_refl)))))) _)).
  reflexivity.
Defined.



(** ** The pair loop: when it succeeds and what it sets *)

Lemma np_max_ok_iff (a : grid) : is_ok (np_max a) <-> concat a <> [].
Proof.
  unfold np_max. destruct (concat a); cbn.
  - split; [intros []|congruence].
  - split; [discriminate|intros _; exact I].
Qed.

Lemma np_max_empty (a : grid) : concat a = [] -> np_max a = Raise ValueError.
Proof. intros H. unfold np_max. rewrite H. reflexivity. Qed.

(** X5: the loop body returns a pair exactly when both names are keys of
    [files], [colorscale] and [n_colors], both grids (as oriented) have an
    entry, and [go.Surface] accepts the keyword arguments of both surfaces.
    A missing file raises [KeyError]; with both files present an empty grid
    raises [ValueError]; and the body raises nothing but [KeyError] and
    [ValueError]. *)
Theorem pair_surfaces_ok_iff {plotly : SurfaceValidator}
    (g : group) (name_1 name_2 : string) :
  (is_ok (pair_surfaces g (name_1, name_2))
   <-> exists d1 d2 m1 m2 cs1 cs2 k1 k2,
         files g !! name_1 = Some d1 /\ files g !! name_2 = Some d2
         /\ concat (oriented name_1 d1) <> [] /\ concat (oriented name_1 d2) <> []
         /\ np_max (oriented name_1 d1) = Ok m1
         /\ np_max (oriented name_1 d2) = Ok m2
         /\ group_colorscale g !! name_1 = Some cs1
         /\ group_n_colors g !! name_1 = Some k1
         /\ group_colorscale g !! name_2 = Some cs2
         /\ group_n_colors g !! name_2 = Some k2
         /\ surface_accepted
              (surface_kwargs (axes_x_values g) (axes_y_values g)
                 (oriented name_1 d1) cs1
                 (if negb (str_contains "SEE" name_1) then k1 else k1 * 2)
                 (if Qgtb m2 m1 then 1.0 else 0.8)%Q
                 (if Qgtb m2 m1 then false else true)
                 (if Qgtb m2 m1 then 0.9 else 0.5)%Q) = true
         /\ surface_accepted
              (surface_kwargs (axes_x_values g) (axes_y_values g)
                 (oriented name_1 d2) cs2
                 (if negb (str_contains "SEE" name_2) then k2 else k2 * 2)
                 (if Qgtb m2 m1 then 0.8 else 1.0)%Q
                 (if Qgtb m2 m1 then true else false)
                 (if Qgtb m2 m1 then 0.5 else 0.9)%Q) = true)
  /\ (files g !! name_1 = None \/ files g !! name_2 = None ->
      pair_surfaces g (name_1, name_2) = Raise KeyError)
  /\ (forall d1 d2,
        files g !! name_1 = Some d1 -> files g !! name_2 = Some d2 ->
        concat (oriented name_1 d1) = [] \/ concat (oriented name_1 d2) = [] ->
        pair_surfaces g (name_1, name_2) = Raise ValueError)
  /\ (forall e, pair_surfaces g (name_1, name_2) = Raise e ->
        e = KeyError \/ e = ValueError).
Proof.
  split; [|split; [|split]].
  - split.
    + intros Hok.
      destruct (pair_surfaces g (name_1, name_2)) as [[s1 s2]|] eqn:Hrun; [|destruct Hok].
      apply pair_surfaces_Ok in Hrun
        as (d1 & d2 & m1 & m2 & cs1 & cs2 & k1 & k2 & Hd1 & Hd2 & Hm1 & Hm2
            & Hc1 & Hk1 & Hc2 & Hk2 & -> & -> & Ha1 & Ha2).
      exists d1, d2, m1, m2, cs1, cs2, k1, k2.
      assert (Hne1 : concat (oriented name_1 d1) <> []).
      { apply np_max_ok_iff. rewrite Hm1. exact I. }
      assert (Hne2 : concat (oriented name_1 d2) <> []).
      { apply np_max_ok_iff. rewrite Hm2. exact I. }
      repeat split; assumption.
    + intros (d1 & d2 & m1 & m2 & cs1 & cs2 & k1 & k2 & Hd1 & Hd2 & _ & _ & Hm1 & Hm2
              & Hc1 & Hk1 & Hc2 & Hk2 & Ha1 & Ha2).
      erewrite (proj2 (pair_surfaces_Ok g name_1 name_2 _ _)); [exact I|].
      exists d1, d2, m1, m2, cs1, cs2, k1, k2.
      repeat split; first [reflexivity | eassumption].
  - unfold pair_surfaces, py_getitem. cbn [fst snd].
    intros [H|H]; rewrite H; [reflexivity|].
    destruct (files g !! name_1); reflexivity.
  - unfold pair_surfaces, py_getitem. cbn [fst snd].
    intros d1 d2 -> -> Hempty. cbn [bind].
    destruct Hempty as [H|H].
    + rewrite (np_max_empty _ H). reflexivity.
    + rewrite (np_max_empty _ H).
      destruct (np_max (oriented name_1 d1)) as [m1|e] eqn:Hm1; [reflexivity|].
      unfold np_max in Hm1. destruct (concat (oriented name_1 d1)); [|discriminate].
      injection Hm1 as <-. reflexivity.
  - unfold pair_surfaces, py_getitem. cbn [fst snd]. intros e.
    destruct (files g !! name_1) as [d1|]; cbn [bind]; [|intros [= <-]; auto].
    destruct (files g !! name_2) as [d2|]; cbn [bind]; [|intros [= <-]; auto].
    unfold np_max.
    destruct (concat (oriented name_1 d1)); cbn [bind]; [intros [= <-]; auto|].
    destruct (concat (oriented name_1 d2)); cbn [bind]; [intros [= <-]; auto|].
    destruct (group_colorscale g !! name_1) as [cs1|]; cbn [bind];
      [|intros [= <-]; auto].
    destruct (group_n_colors g !! name_1) as [k1|]; cbn [bind]; [|intros [= <-]; auto].
    destruct (create_surface _ _ _ cs1 _ _ _ _) as [t1|e1] eqn:Ht1; cbn [bind].
    2:{ intros [= <-]. right. exact (create_surface_raises _ _ _ _ _ _ _ _ _ Ht1). }
    destruct (group_colorscale g !! name_2) as [cs2|]; cbn [bind];
      [|intros [= <-]; auto].
    destruct (group_n_colors g !! name_2) as [k2|]; cbn [bind]; [|intros [= <-]; auto].
    destruct (create_surface _ _ _ cs2 _ _ _ _) as [t2|e2] eqn:Ht2; cbn [bind].
    2:{ intros [= <-]. right. exact (create_surface_raises _ _ _ _ _ _ _ _ _ Ht2). }
    discriminate.
Qed.

(** X6: in every pair the loop returns, exactly one surface shows its colour
    bar, and that surface is the translucent one (opacity 0.8, ambient 0.5)
    while the other is opaque (opacity 1.0, ambient 0.9); each surface's
    colour range runs from 0 to its own group count, doubled when its own
    name contains "SEE"; both surfaces share the group's axes. *)
Theorem pair_surfaces_one_colorbar {plotly : SurfaceValidator}
    (g : group) (name_1 name_2 : string) (s1 s2 : surface) :
  pair_surfaces g (name_1, name_2) = Ok (s1, s2) ->
  showscale s1 = negb (showscale s2)
  /\ (forall s, s = s1 \/ s = s2 ->
        if showscale s then is_foreground s else is_background s)
  /\ (exists k1 k2,
        group_n_colors g !! name_1 = Some k1 /\ group_n_colors g !! name_2 = Some k2
        /\ cmax s1 = (if str_contains "SEE" name_1 then k1 * 2 else k1)
        /\ cmax s2 = (if str_contains "SEE" name_2 then k2 * 2 else k2))
  /\ (cmin s1, cmin s2) = (0, 0)
  /\ (srf_x s1, srf_y s1) = (axes_x_values g, axes_y_values g)
  /\ (srf_x s2, srf_y s2) = (axes_x_values g, axes_y_values g).
Proof.
  intros Hrun.
  apply pair_surfaces_Ok in Hrun
    as (d1 & d2 & m1 & m2 & cs1 & cs2 & k1 & k2 & _ & _ & _ & _
        & _ & Hk1 & _ & Hk2 & -> & -> & _ & _).
  cbn [surface_kwargs showscale cmax cmin srf_x srf_y].
  split; [destruct (Qgtb m2 m1); reflexivity|].
  split.
  { intros s [->| ->]; unfold is_foreground, is_background;
      cbn [surface_kwargs showscale opacity srf_lighting ambient];
      destruct (Qgtb m2 m1); repeat split. }
  split.
  { exists k1, k2. split; [exact Hk1|]. split; [exact Hk2|].
    split; [destruct (str_contains "SEE" name_1)|destruct (str_contains "SEE" name_2)];
      reflexivity. }
  repeat split.
Qed.

Lemma pair_surfaces_one_colorbar_witness :
  exists s1 s2,
    pair_surfaces (plotly := sample_surfaces) demo_group ("CS_SEE_A", "CS_SEE_B")
    = Ok (s1, s2)
    /\ showscale s1 = negb (showscale s2).
Proof.
  eexists _, _. split; [vm_compute; reflexivity|].
  refine (proj1 (pair_surfaces_one_colorbar (plotly := sample_surfaces)
                   demo_group "CS_SEE_A" "CS_SEE_B" _ _ _)).
  vm_compute. reflexivity.
Defined.

(** ** [add_traces_to_figure] on arbitrary entries *)

Lemma add_one_trace_cases {plotly : TraceValidator}
    (fg fg' : figure) (tr : gmap string pyval) :
  add_one_trace fg tr = Ok fg' ->
  if is_annotation_entry tr
  then exists t, fg' = add_to_figure fg t /\ not_a_surface t
  else fg' = fg.
Proof.
  unfold add_one_trace, is_annotation_entry, py_getitem, add_scatter3d, add_cone.
  destruct (tr !! "type") as [ty|]; cbn [bind]; [|discriminate].
  destruct (py_eq_str ty "scatter3d"); cbn [orb].
  - destruct (tr !! "x"); cbn [bind]; [|discriminate].
    destruct (tr !! "y"); cbn [bind]; [|discriminate].
    destruct (tr !! "z"); cbn [bind]; [|discriminate].
    destruct (tr !! "text"); cbn [bind]; [|discriminate].
    destruct (scatter3d_accepted _); [|discriminate].
    intros [= <-]. eexists. split; [reflexivity|exact I].
  - destruct (py_eq_str ty "cone").
    + destruct (tr !! "x"); cbn [bind]; [|discriminate].
      destruct (tr !! "y"); cbn [bind]; [|discriminate].
      destruct (tr !! "z"); cbn [bind]; [|discriminate].
      destruct (tr !! "color"); cbn [bind]; [|discriminate].
      destruct (cone_accepted _); [|discriminate].
      intros [= <-]. eexists. split; [reflexivity|exact I].
    + intros [= <-]. reflexivity.
Qed.

(** The loop body raises [KeyError] for a missing key and [ValueError] when
    plotly rejects the trace, and nothing else. *)
Lemma add_one_trace_raises {plotly : TraceValidator}
    (fg : figure) (tr : gmap string pyval) (e : exn) :
  add_one_trace fg tr = Raise e -> e = KeyError \/ e = ValueError.
Proof.
  unfold add_one_trace, py_getitem, add_scatter3d, add_cone.
  destruct (tr !! "type") as [ty|]; cbn [bind]; [|intros [= <-]; auto].
  destruct (py_eq_str ty "scatter3d").
  - destruct (tr !! "x"); cbn [bind]; [|intros [= <-]; auto].
    destruct (tr !! "y"); cbn [bind]; [|intros [= <-]; auto].
    destruct (tr !! "z"); cbn [bind]; [|intros [= <-]; auto].
    destruct (tr !! "text"); cbn [bind]; [|intros [= <-]; auto].
    destruct (scatter3d_accepted _); [discriminate|intros [= <-]; auto].
  - destruct (py_eq_str ty "cone"); [|discriminate].
    destruct (tr !! "x"); cbn [bind]; [|intros [= <-]; auto].
    destruct (tr !! "y"); cbn [bind]; [|intros [= <-]; auto].
    destruct (tr !! "z"); cbn [bind]; [|intros [= <-]; auto].
    destruct (tr !! "color"); cbn [bind]; [|intros [= <-]; auto].
    destruct (cone_accepted _); [discriminate|intros [= <-]; auto].
Qed.

(** X7: when the call returns, the figure keeps its layout and all its
    traces in place, and behind them stand the new traces: one per entry of
    type ['scatter3d'] or ['cone'], none of them a surface. *)
Theorem add_traces_to_figure_appends {plotly : TraceValidator}
    (data : list (gmap string pyval)) (fg fg' : figure) :
  add_traces_to_figure fg data = Ok fg' ->
  fig_layout fg' = fig_layout fg
  /\ exists added,
       fig_data fg' = fig_data fg ++ added
       /\ length added = length (filter (fun tr => is_annotation_entry tr = true) data)
       /\ Forall not_a_surface added.
Proof.
  unfold add_traces_to_figure. revert fg.
  induction data as [|tr data IH]; intros fg Hrun.
  - injection Hrun as <-. split; [reflexivity|].
    exists []. rewrite app_nil_r. repeat split. constructor.
  - cbn [for_each] in Hrun.
    destruct (add_one_trace fg tr) as [mid|e] eqn:Hstep; [|discriminate].
    cbn [bind] in Hrun.
    destruct (IH _ Hrun) as (Hlay & added & Hdata & Hlen & Hall).
    pose proof (add_one_trace_cases _ _ _ Hstep) as Hcase.
    destruct (is_annotation_entry tr) eqn:Hentry.
    + destruct Hcase as (t & -> & Ht). cbn [add_to_figure fig_data fig_layout] in *.
      split; [exact Hlay|]. exists (t :: added).
      rewrite Hdata, <- app_assoc. split; [reflexivity|].
      rewrite filter_cons_True by exact Hentry. cbn [length].
      split; [congruence|]. constructor; assumption.
    + subst mid. split; [exact Hlay|]. exists added.
      rewrite filter_cons_False by congruence.
      repeat split; assumption.
Qed.

(** An entry of another type followed by a red cone at [(1, 2, 3)]. *)
Lemma add_traces_to_figure_appends_witness :
  exists fg',
    add_traces_to_figure (plotly := sample_traces)
      {| fig_data := []; fig_layout := None |}
      [ list_to_map [("type", PStr "mesh3d")];
        list_to_map [("type", PStr "cone"); ("x", PList [PNum 1]);
                     ("y", PList [PNum 2]); ("z", PList [PNum 3]);
                     ("color", PStr "red")] ] = Ok fg'
    /\ fig_layout fg' = None.
Proof.
  eexists. split; [vm_compute; reflexivity|].
  refine (proj1 (add_traces_to_figure_appends (plotly := sample_traces)
    [ list_to_map [("type", PStr "mesh3d")];
      list_to_map [("type", PStr "cone"); ("x", PList [PNum 1]);
                   ("y", PList [PNum 2]); ("z", PList [PNum 3]);
                   ("color", PStr "red")] ]
    {| fig_data := []; fig_layout := None |} _ _)).
  vm_compute. reflexivity.
Defined.

(** X8: the call raises nothing but [KeyError] (a key the entry lacks) and
    [ValueError] (a trace plotly rejects).  An entry without a ['type'] key
    makes it raise: [KeyError] once the loop reaches that entry, and in any
    case the call does not return. *)
Theorem add_traces_to_figure_key_errors {plotly : TraceValidator}
    (data : list (gmap string pyval)) (fg : figure) :
  (forall e, add_traces_to_figure fg data = Raise e -> e = KeyError \/ e = ValueError)
  /\ (forall tr, tr ∈ data -> tr !! "type" = None ->
        ~ is_ok (add_traces_to_figure fg data))
  /\ (forall before tr after fg1,
        data = before ++ tr :: after ->
        add_traces_to_figure fg before = Ok fg1 ->
        tr !! "type" = None ->
        add_traces_to_figure fg data = Raise KeyError).
Proof.
  split; [|split].
  - unfold add_traces_to_figure. revert fg.
    induction data as [|tr data IH]; intros fg e; [discriminate|].
    cbn [for_each].
    destruct (add_one_trace fg tr) as [mid|e0] eqn:Hstep; cbn [bind].
    + apply IH.
    + intros [= <-]. exact (add_one_trace_raises _ _ _ Hstep).
  - unfold add_traces_to_figure. revert fg.
    induction data as [|tr data IH]; intros fg tr' Hin Hnone.
    + by apply elem_of_nil in Hin.
    + cbn [for_each].
      destruct (add_one_trace fg tr) as [mid|e0] eqn:Hstep; cbn [bind]; [|intros []].
      apply elem_of_cons in Hin as [->|Hin].
      * unfold add_one_trace, py_getitem in Hstep. rewrite Hnone in Hstep.
        discriminate.
      * exact (IH mid tr' Hin Hnone).
  - intros before tr after fg1 -> Hbefore Hnone.
    unfold add_traces_to_figure in *. rewrite for_each_app, Hbefore. cbn [bind for_each].
    unfold add_one_trace, py_getitem. rewrite Hnone. reflexivity.
Qed.

(** ** [add_trace]: clicks in sequence *)

(** X9: once the button has been clicked the callback succeeds exactly when
    [z] is a number and plotly accepts the label and the cone built from the
    inputs.  Any other [z] (an emptied field gives [None]) raises
    [TypeError], whatever plotly would accept; a numeric [z] with a label or
    cone plotly rejects raises [ValueError]. *)
Theorem add_trace_needs_numeric_z {plotly : TraceValidator}
    (n : Z) (x y z text color : pyval) (fg : figure) (selected_graph : string)
    (figures_dict : gmap string figure) :
  (is_ok (add_trace (Some n) x y z text color fg selected_graph figures_dict)
   <-> exists q, z = PNum q
                 /\ scatter3d_accepted (annotation_label x y (PNum q) text) = true
                 /\ cone_accepted (annotation_cone x y (PNum (q - 1)) color) = true)
  /\ ((forall q, z <> PNum q) ->
      add_trace (Some n) x y z text color fg selected_graph figures_dict
      = Raise TypeError)
  /\ (forall q, z = PNum q ->
      scatter3d_accepted (annotation_label x y (PNum q) text) = false
      \/ cone_accepted (annotation_cone x y (PNum (q - 1)) color) = false ->
      add_trace (Some n) x y z text color fg selected_graph figures_dict
      = Raise ValueError).
Proof.
  split; [|split].
  - split.
    + intros Hok. destruct z as [|q|s|l]; try (cbn in Hok; destruct Hok).
      exists q. split; [reflexivity|].
      rewrite add_trace_click in Hok.
      destruct (scatter3d_accepted _); [|destruct Hok].
      destruct (cone_accepted _); [|destruct Hok].
      split; reflexivity.
    + intros (q & -> & Hl & Hm). rewrite add_trace_click, Hl, Hm. exact I.
  - apply add_trace_not_a_number.
  - intros q -> Hrej. rewrite add_trace_click.
    destruct Hrej as [-> | ->]; [reflexivity|].
    destruct (scatter3d_accepted _); reflexivity.
Qed.

(** X10: annotations accumulate.  When two clicks in a row both return, the
    second one on the figure the first one stored, the selected key holds
    the original traces followed by label, cone, label, cone in that order;
    the layout and every other key of the store are as before. *)
Theorem add_trace_twice {plotly : TraceValidator}
    (n1 n2 : Z) (x1 y1 text1 color1 x2 y2 text2 color2 : pyval) (z1 z2 : Q)
    (fg : figure) (selected_graph : string)
    (figures_dict store1 : gmap string figure) :
  add_trace (Some n1) x1 y1 (PNum z1) text1 color1 fg selected_graph figures_dict
  = Ok store1 ->
  exists fg1,
    store1 !! selected_graph = Some fg1
    /\ forall store2,
         add_trace (Some n2) x2 y2 (PNum z2) text2 color2 fg1 selected_graph store1
         = Ok store2 ->
         exists fg2,
           store2 !! selected_graph = Some fg2
           /\ fig_data fg2
              = fig_data fg
                ++ [Scatter3d (annotation_label x1 y1 (PNum z1) text1);
                    Cone (annotation_cone x1 y1 (PNum (z1 - 1)) color1);
                    Scatter3d (annotation_label x2 y2 (PNum z2) text2);
                    Cone (annotation_cone x2 y2 (PNum (z2 - 1)) color2)]
           /\ length (fig_data fg2) = (length (fig_data fg) + 4)%nat
           /\ fig_layout fg2 = fig_layout fg
           /\ store2 = <[selected_graph := fg2]> figures_dict.
Proof.
  rewrite add_trace_click.
  destruct (_ && _); [|discriminate]. intros [= <-].
  eexists. split; [apply lookup_insert_eq|].
  intros store2. rewrite add_trace_click.
  destruct (_ && _); [|discriminate]. intros [= <-].
  eexists. split; [apply lookup_insert_eq|].
  cbn [fig_data fig_layout].
  split; [rewrite <- app_assoc; reflexivity|].
  split; [rewrite !length_app; cbn [length]; lia|].
  split; [reflexivity|].
  apply insert_insert_eq.
Qed.

(** Two clicks with the default inputs of the form on the demo figure. *)
Lemma add_trace_twice_witness :
  exists store1 fg1 store2 fg2,
    add_trace (plotly := sample_traces) (Some 1) (PNum 2) (PNum 0.5) (PNum 2.15)
      (PStr "Max working conditions") (PStr "rgb(0, 255, 0)")
      demo_figure "CS_SEE_A+CS_SEE_B" {["CS_SEE_A+CS_SEE_B" := demo_figure]}
    = Ok store1
    /\ store1 !! "CS_SEE_A+CS_SEE_B" = Some fg1
    /\ add_trace (plotly := sample_traces) (Some 2) (PNum 4) (PNum 1) (PNum 3)
         (PStr "Limit") (PStr "red") fg1 "CS_SEE_A+CS_SEE_B" store1
       = Ok store2
    /\ store2 !! "CS_SEE_A+CS_SEE_B" = Some fg2
    /\ length (fig_data fg2) = 6%nat.
Proof.
  destruct (add_trace_twice (plotly := sample_traces) 1 2
              (PNum 2) (PNum 0.5) (PStr "Max working conditions")
              (PStr "rgb(0, 255, 0)") (PNum 4) (PNum 1) (PStr "Limit") (PStr "red")
              2.15 3 demo_figure "CS_SEE_A+CS_SEE_B"
              {["CS_SEE_A+CS_SEE_B" := demo_figure]} _
              ltac:(rewrite add_trace_click; reflexivity))
    as (fg1 & Hfg1 & Hsecond).
  rewrite lookup_insert_eq in Hfg1. injection Hfg1 as <-.
  destruct (Hsecond _ ltac:(rewrite add_trace_click; reflexivity))
    as (fg2 & Hfg2 & _ & Hlen & _).
  eexists _, _, _, fg2.
  split; [rewrite add_trace_click; reflexivity|].
  split; [apply lookup_insert_eq|].
  split; [rewrite add_trace_click; reflexivity|].
  split; [exact Hfg2|]. exact Hlen.
Defined.

(** X11: the callback never drops a figure: whenever it returns, every key
    of the store it was given is still a key, the figures under all keys but
    the selected one are the same, and after a click the selected key is
    present even if it was not before. *)
Theorem add_trace_keeps_store {plotly : TraceValidator}
    (n_clicks : option Z) (x y z text color : pyval) (fg : figure)
    (selected_graph : string) (figures_dict store' : gmap string figure) :
  add_trace n_clicks x y z text color fg selected_graph figures_dict = Ok store' ->
  dom figures_dict ⊆ dom store'
  /\ (forall key, key <> selected_graph -> store' !! key = figures_dict !! key)
  /\ (n_clicks <> None -> dom store' = {[selected_graph]} ∪ dom figures_dict).
Proof.
  destruct n_clicks as [n|].
  - destruct z as [|q|s|l]; try discriminate.
    rewrite add_trace_click. destruct (_ && _); [|discriminate]. intros [= <-].
    split; [rewrite dom_insert_L; set_solver|].
    split; [intros key Hne; apply lookup_insert_ne; congruence|].
    intros _. apply dom_insert_L.
  - intros [= <-]. split; [reflexivity|]. split; [reflexivity|]. congruence.
Qed.

(** The default inputs of the form with an empty store: the selected key
    is created. *)
Lemma add_trace_keeps_store_witness :
  exists store',
    add_trace (plotly := sample_traces) (Some 1) (PNum 2) (PNum 0.5) (PNum 2.15)
              (PStr "Max working conditions") (PStr "rgb(0, 255, 0)")
              {| fig_data := []; fig_layout := None |} "a+b" ∅ = Ok store'
    /\ dom store' = {["a+b"]} ∪ dom (∅ : gmap string figure).
Proof.
  eexists. split; [rewrite add_trace_click; reflexivity|].
  refine (proj2 (proj2 (add_trace_keeps_store (plotly := sample_traces)
            (Some 1) (PNum 2) (PNum 0.5) (PNum 2.15)
            (PStr "Max working conditions") (PStr "rgb(0, 255, 0)")
            {| fig_data := []; fig_layout := None |} "a+b" ∅ _ _)) _).
  - rewrite add_trace_click. reflexivity.
  - discriminate.
Defined.

(** ** [percentage_difference]: the exceptions *)

Lemma zip_with_result_raises {A B C : Type} (f : A -> B -> result C)
    (a : list A) (b : list B) (e : exn) :
  zip_with_result f a b = Raise e -> exists x y, f x y = Raise e.
Proof.
  revert b. induction a as [|x a IH]; intros [|y b] Hrun; try discriminate.
  cbn [zip_with_result] in Hrun.
  destruct (f x y) as [v|e0] eqn:Hf; cbn [bind] in Hrun.
  - destruct (zip_with_result f a b) as [vs|e1] eqn:Hrest; cbn [bind] in Hrun;
      [discriminate|]. injection Hrun as <-. exact (IH _ Hrest).
  - injection Hrun as <-. eauto.
Qed.

Lemma np_broadcast_raises {A B C : Type} (f : A -> B -> result C)
    (a : list A) (b : list B) (e : exn) :
  np_broadcast f a b = Raise e -> e = ValueError \/ exists x y, f x y = Raise e.
Proof.
  unfold np_broadcast. destruct (Nat.eqb (length a) (length b)).
  - intros H. right. exact (zip_with_result_raises _ _ _ _ H).
  - destruct a as [|x [|x' a]]; destruct b as [|y [|y' b]]; intros H;
      first [ injection H as <-; left; reflexivity
            | right; exact (zip_with_result_raises _ _ _ _ H) ].
Qed.

Lemma np_broadcast_2d_raises {A : Type} (f : A -> A -> A) (a b : list (list A))
    (e : exn) :
  np_broadcast_2d f a b = Raise e -> e = ValueError.
Proof.
  unfold np_broadcast_2d. intros H.
  apply np_broadcast_raises in H as [->|(r1 & r2 & H)]; [reflexivity|].
  apply np_broadcast_raises in H as [->|(x & y & H)]; [reflexivity|discriminate].
Qed.

Lemma np_abs_sub_raises (a b : ndarray) (e : exn) :
  np_abs_sub a b = Raise e -> e = ValueError.
Proof.
  unfold np_abs_sub.
  destruct a as [da|da], b as [db|db];
    match goal with
    | |- context [np_broadcast_2d ?f ?u ?v] =>
        destruct (np_broadcast_2d f u v) as [d|e0] eqn:Hd; cbn [bind];
        [discriminate|intros [= <-]; exact (np_broadcast_2d_raises _ _ _ _ Hd)]
    end.
Qed.

Lemma ndarray_max_empty (a : ndarray) :
  ndarray_size a = 0%nat -> ndarray_max a = Raise ValueError.
Proof.
  destruct a as [d|d]; cbn [ndarray_size ndarray_max];
    destruct (concat d); [reflexivity|discriminate|reflexivity|discriminate].
Qed.

Lemma ndarray_max_raises (a : ndarray) (e : exn) :
  ndarray_max a = Raise e -> e = ValueError.
Proof.
  destruct a as [d|d]; cbn [ndarray_max]; destruct (concat d);
    first [discriminate | congruence].
Qed.

Lemma ndarray_min_raises (a : ndarray) (e : exn) :
  ndarray_min a = Raise e -> e = ValueError.
Proof.
  destruct a as [d|d]; cbn [ndarray_min]; destruct (concat d);
    first [discriminate | congruence].
Qed.

(** X14: the call raises nothing but [ValueError], and it does raise it on a
    base array without entries (from the subtraction when the shapes do not
    fit, from [np.max] otherwise). *)
Theorem percentage_difference_value_errors (base_array compare_array : ndarray) :
  (forall e, percentage_difference base_array compare_array = Raise e -> e = ValueError)
  /\ (ndarray_size base_array = 0%nat ->
      percentage_difference base_array compare_array = Raise ValueError).
Proof.
  assert (Honly : forall e, percentage_difference base_array compare_array = Raise e
                            -> e = ValueError).
  { intros e. unfold percentage_difference.
    destruct (np_abs_sub base_array compare_array) as [d|e0] eqn:Hd; cbn [bind].
    2:{ intros [= <-]. exact (np_abs_sub_raises _ _ _ Hd). }
    destruct (ndarray_max base_array) as [mx|e1] eqn:Hmx; cbn [bind].
    2:{ intros [= <-]. exact (ndarray_max_raises _ _ Hmx). }
    destruct (ndarray_min base_array) as [mn|e2] eqn:Hmn; cbn [bind].
    2:{ intros [= <-]. exact (ndarray_min_raises _ _ Hmn). }
    discriminate. }
  split; [exact Honly|].
  intros Hempty.
  destruct (percentage_difference base_array compare_array) as [out|e] eqn:Hrun.
  - exfalso. unfold percentage_difference in Hrun.
    destruct (np_abs_sub base_array compare_array); cbn [bind] in Hrun; [|discriminate].
    rewrite (ndarray_max_empty _ Hempty) in Hrun. discriminate.
  - rewrite (Honly e eq_refl). reflexivity.
Qed.

(** ** [get_cam_data] *)

Lemma cam_fill_column_eye (sub_dict : gmap string pyval)
    (axis_col center_col : list pyval) (e0 e1 e2 : pyval) :
  cam_fill_column "eye" sub_dict
    [("Axis", axis_col); ("Eye", [e0; e1; e2]); ("Center", center_col)]
  = Ok [("Axis", axis_col);
        ("Eye", [default PNone (sub_dict !! "x"); default PNone (sub_dict !! "y");
                 default PNone (sub_dict !! "z")]);
        ("Center", center_col)].
Proof. reflexivity. Qed.

Lemma cam_fill_column_center (sub_dict : gmap string pyval)
    (axis_col eye_col : list pyval) (c0 c1 c2 : pyval) :
  cam_fill_column "center" sub_dict
    [("Axis", axis_col); ("Eye", eye_col); ("Center", [c0; c1; c2])]
  = Ok [("Axis", axis_col); ("Eye", eye_col);
        ("Center", [default PNone (sub_dict !! "x"); default PNone (sub_dict !! "y");
                    default PNone (sub_dict !! "z")])].
Proof. reflexivity. Qed.

(** With a camera entry the function returns the table in closed form. *)
Lemma get_cam_data_with_camera (cam_data : gmap string camera)
    (camera_data : camera) (input_graph : string) :
  cam_data !! "scene.camera" = Some camera_data ->
  get_cam_data (Some cam_data) input_graph
  = Ok (CamDiv
          [ {| dt_id := (input_graph ++ "-cam-properties")%string;
               dt_columns := [("Axis", "Axis"); ("Eye (Viewing Angle)", "Eye");
                              ("Center", "Center")];
               dt_data := map (cam_row camera_data) ["x"; "y"; "z"];
               dt_style_cell_textAlign := "left";
               dt_style_header_backgroundColor := "rgb(230, 230, 230)";
               dt_style_header_fontWeight := "bold";
               dt_style_table_width := "25%" |} ]).
Proof.
  intros Hcam. unfold get_cam_data, py_getitem. rewrite Hcam. cbn [bind for_each].
  unfold cam_row, cam_field.
  destruct (camera_data !! "eye") as [eye|]; cbn [bind];
    [rewrite cam_fill_column_eye; cbn [bind]|];
    (destruct (camera_data !! "center") as [center|]; cbn [bind];
     [rewrite cam_fill_column_center; cbn [bind]|]);
    reflexivity.
Qed.

(** X15: the function never raises.  It returns the fixed hint text exactly
    when there is no relayout data or the data has no ["scene.camera"]
    entry, and a [Div] holding one table in every other case. *)
Theorem get_cam_data_message_or_table
    (cam_data : option (gmap string camera)) (input_graph : string) :
  exists out,
    get_cam_data cam_data input_graph = Ok out
    /\ ((cam_data = None
         \/ exists d, cam_data = Some d /\ d !! "scene.camera" = None)
        -> out = CamMessage "Interact with the graph to see camera properties")
    /\ ((exists d c, cam_data = Some d /\ d !! "scene.camera" = Some c)
        -> exists table, out = CamDiv [table]).
Proof.
  destruct cam_data as [d|].
  - destruct (d !! "scene.camera") as [c|] eqn:Hc.
    + eexists. split; [exact (get_cam_data_with_camera d c input_graph Hc)|].
      split.
      * intros [?|(d' & [= <-] & Hnone)]; congruence.
      * intros _. eexists. reflexivity.
    + eexists. split; [unfold get_cam_data; rewrite Hc; reflexivity|].
      split; [reflexivity|].
      intros (d' & c & [= <-] & Hsome). congruence.
  - eexists. split; [reflexivity|]. split; [reflexivity|].
    intros (d & c & ? & _). discriminate.
Qed.

(** X16: with a camera entry the table is named
    [<input_graph>-cam-properties] and has three rows, for the axes x, y, z
    in this order; each row has exactly the keys [Axis], [Eye], [Center],
    and its [Eye] (resp. [Center]) cell is the camera's ["eye"] (resp.
    ["center"]) entry for that axis, or [None] when the camera has no such
    sub-dict or the sub-dict has no such axis.  Other keys of the camera
    (["up"], ["projection"]) do not matter. *)
Theorem get_cam_data_table
    (cam_data : gmap string camera) (camera_data : camera) (input_graph : string) :
  cam_data !! "scene.camera" = Some camera_data ->
  exists table,
    get_cam_data (Some cam_data) input_graph = Ok (CamDiv [table])
    /\ dt_id table = (input_graph ++ "-cam-properties")%string
    /\ length (dt_data table) = 3%nat
    /\ (forall (k : nat) (axis_name : string),
          ["x"; "y"; "z"] !! k = Some axis_name ->
          exists row,
            dt_data table !! k = Some row
            /\ row !! "Axis" = Some (PStr axis_name)
            /\ row !! "Eye" = Some (cam_field camera_data "eye" axis_name)
            /\ row !! "Center" = Some (cam_field camera_data "center" axis_name)
            /\ dom row = ({["Axis"; "Eye"; "Center"]} : gset string))
    /\ (forall (cam_data' : gmap string camera) (camera_data' : camera),
          cam_data' !! "scene.camera" = Some camera_data' ->
          camera_data' !! "eye" = camera_data !! "eye" ->
          camera_data' !! "center" = camera_data !! "center" ->
          get_cam_data (Some cam_data') input_graph = Ok (CamDiv [table])).
Proof.
  intros Hcam. eexists.
  split; [exact (get_cam_data_with_camera cam_data camera_data input_graph Hcam)|].
  cbn [dt_id dt_data]. split; [reflexivity|]. split; [reflexivity|]. split.
  - intros k axis_name Hk.
    exists (cam_row camera_data axis_name). split.
    + destruct k as [|[|[|k]]]; cbn in Hk; try discriminate;
        injection Hk as <-; reflexivity.
    + unfold cam_row. generalize (cam_field camera_data "eye" axis_name).
      generalize (cam_field camera_data "center" axis_name). intros vc ve.
      repeat split; vm_compute; reflexivity.
  - intros cam_data' camera_data' Hcam' Heye Hcenter.
    rewrite (get_cam_data_with_camera cam_data' camera_data' input_graph Hcam').
    unfold cam_row, cam_field. rewrite Heye, Hcenter. reflexivity.
Qed.

Lemma get_cam_data_table_witness :
  exists table,
    get_cam_data
      (Some {[ "scene.camera" :=
                 ({[ "eye" := ({[ "x" := PNum 1; "z" := PNum 3 ]} : gmap string pyval) ]}
                    : camera) ]})
      "main" = Ok (CamDiv [table])
    /\ dt_id table = "main-cam-properties".
Proof.
  destruct (get_cam_data_table
              {[ "scene.camera" :=
                   ({[ "eye" := ({[ "x" := PNum 1; "z" := PNum 3 ]} : gmap string pyval) ]}
                      : camera) ]}
              {[ "eye" := ({[ "x" := PNum 1; "z" := PNum 3 ]} : gmap string pyval) ]}
              "main")
    as (table & Hrun & Hid & _).
  - vm_compute. reflexivity.
  - exists table. split; [exact Hrun|exact Hid].
Defined.

(** ** Dropdown keys and [select_graph] *)

Lemma str_contains_plus_cons (c : Ascii.ascii) (s : string) :
  str_contains "+" (String c s)
  = if Ascii.eqb c "+"%char then true else str_contains "+" s.
Proof.
  cbn [str_contains String.prefix].
  destruct (Ascii.ascii_dec "+"%char c) as [<-|Hne].
  - destruct s; reflexivity.
  - destruct (Ascii.eqb c "+"%char) eqn:Heq; [|reflexivity].
    apply Ascii.eqb_eq in Heq. congruence.
Qed.

Lemma py_split_no_plus (s : string) :
  str_contains "+" s = false -> py_split "+"%char s = [s].
Proof.
  induction s as [|c s IH]; [reflexivity|].
  rewrite str_contains_plus_cons. cbn [py_split].
  destruct (Ascii.eqb c "+"%char); [discriminate|].
  intros Hs. rewrite (IH Hs). reflexivity.
Qed.

Lemma py_split_join (s1 s2 : string) :
  str_contains "+" s1 = false ->
  py_split "+"%char (s1 ++ "+" ++ s2)%string = s1 :: py_split "+"%char s2.
Proof.
  induction s1 as [|c s1 IH].
  - intros _. reflexivity.
  - rewrite str_contains_plus_cons, append_String. cbn [py_split].
    destruct (Ascii.eqb c "+"%char); [discriminate|].
    intros Hs. rewrite (IH Hs). reflexivity.
Qed.

Lemma py_split_with_plus (s : string) :
  str_contains "+" s = true ->
  exists a b rest, py_split "+"%char s = a :: b :: rest.
Proof.
  induction s as [|c s IH]; [discriminate|].
  rewrite str_contains_plus_cons. cbn [py_split].
  destruct (Ascii.eqb c "+"%char).
  - intros _. destruct s as [|c' s'].
    + eexists _, _, _. reflexivity.
    + destruct (py_split "+"%char (String c' s')) as [|p ps] eqn:Hp.
      * cbn [py_split] in Hp. destruct (Ascii.eqb c' "+"%char); [discriminate|].
        destruct (py_split "+"%char s'); discriminate.
      * eexists _, _, _. reflexivity.
  - intros Hs. destruct (IH Hs) as (a & b & rest & ->).
    eexists _, _, _. reflexivity.
Qed.

Lemma py_index_cons_1 {A : Type} (a b : A) (rest : list A) :
  py_index (a :: b :: rest) 1 = Ok b.
Proof. exact (py_index_nat (a :: b :: rest) 1 b eq_refl). Qed.

(** X17: the dropdown key [name_1 + "+" + name_2] splits back into the two
    names: the first part is [name_1] when [name_1] has no "+", and then the
    second part is [name_2] when [name_2] has none either. *)
Theorem pair_key_split (name_1 name_2 : string) :
  str_contains "+" name_1 = false ->
  py_index (py_split "+"%char (pair_key (name_1, name_2))) 0 = Ok name_1
  /\ (str_contains "+" name_2 = false ->
      py_split "+"%char (pair_key (name_1, name_2)) = [name_1; name_2]
      /\ py_index (py_split "+"%char (pair_key (name_1, name_2))) 1 = Ok name_2).
Proof.
  intros H1. unfold pair_key. cbn [fst snd]. rewrite (py_split_join _ _ H1).
  split; [apply py_index_0_cons|].
  intros H2. rewrite (py_split_no_plus _ H2). split; reflexivity.
Qed.

Lemma pair_key_split_witness :
  py_split "+"%char (pair_key ("WPI_SEE_A", "WPI_SEE_B")) = ["WPI_SEE_A"; "WPI_SEE_B"].
Proof.
  refine (proj1 (proj2 (pair_key_split "WPI_SEE_A" "WPI_SEE_B" _) _)); reflexivity.
Defined.

Lemma py_index_raises {A : Type} (l : list A) (i : Z) (e : exn) :
  py_index l i = Raise e -> e = IndexError.
Proof.
  unfold py_index.
  destruct ((0 <=? _) && _); [|congruence].
  destruct (l !! _); [discriminate|congruence].
Qed.

Lemma py_getitem_raises {V : Type} (d : gmap string V) (k : string) (e : exn) :
  py_getitem d k = Raise e -> e = KeyError.
Proof. unfold py_getitem. destruct (d !! k); [discriminate|congruence]. Qed.

Lemma create_layout_raises
    (x_label y_label z_label surface_1_name surface_2_name : string)
    (g1 g2 : grid) (x_scale y_scale z_scale : Q) (e : exn) :
  create_layout x_label y_label z_label surface_1_name surface_2_name
                g1 g2 x_scale y_scale z_scale = Raise e ->
  e = IndexError.
Proof.
  unfold create_layout. rewrite !extracted_corner.
  destruct (last g1) as [r1|]; cbn [bind]; [|congruence].
  destruct (last r1) as [v1|]; cbn [bind]; [|congruence].
  destruct (last g2) as [r2|]; cbn [bind]; [|congruence].
  destruct (last r2) as [v2|]; cbn [bind]; [discriminate|congruence].
Qed.

Lemma select_group_raises (title : string) (e : exn) :
  select_group title = Raise e ->
  e = ValueError /\ str_contains "SEE" title = false /\ str_contains "EV" title = false.
Proof.
  unfold select_group.
  destruct (str_contains "WPI" title), (str_contains "SEE" title),
    (str_contains "EV" title); cbn [andb negb]; try discriminate;
    intros [= <-]; repeat split.
Qed.

(** X18: a title without "+" makes [select_graph] raise [IndexError] (from
    [title.split("+")[1]]), whatever the store and the data are. *)
Theorem select_graph_title_without_plus
    (update_layout : figure -> layout -> string -> figure)
    (surface_data : list (string * group))
    (title : string) (figures_dict : gmap string figure) :
  str_contains "+" title = false ->
  select_graph update_layout surface_data title figures_dict = Raise IndexError.
Proof.
  intros Hplus. unfold select_graph. rewrite (py_split_no_plus _ Hplus).
  reflexivity.
Qed.

Lemma select_graph_title_without_plus_witness :
  select_graph (fun fg _ _ => fg) [] "WPI_SEE_A" ∅ = Raise IndexError.
Proof.
  apply (select_graph_title_without_plus (fun fg _ _ => fg) [] "WPI_SEE_A" ∅).
  reflexivity.
Defined.

(** X19: for a title with a "+", [select_graph] raises [ValueError] exactly
    when the title contains neither "SEE" nor "EV". *)
Theorem select_graph_invalid_title
    (update_layout : figure -> layout -> string -> figure)
    (surface_data : list (string * group))
    (title : string) (figures_dict : gmap string figure) :
  str_contains "+" title = true ->
  select_graph update_layout surface_data title figures_dict = Raise ValueError
  <-> str_contains "SEE" title = false /\ str_contains "EV" title = false.
Proof.
  intros Hplus. unfold select_graph.
  destruct (py_split_with_plus _ Hplus) as (a & b & rest & ->).
  rewrite py_index_0_cons, py_index_cons_1. cbn [bind].
  destruct (select_group title) as [gi|e] eqn:Hgroup; cbn [bind].
  - split.
    + intros Hrun. exfalso.
      destruct (py_index surface_data gi) as [kg|e] eqn:Hkg; cbn [bind] in Hrun.
      2:{ injection Hrun as ->. apply py_index_raises in Hkg. discriminate. }
      destruct (py_getitem (files (snd kg)) a) as [d1|e] eqn:Hd1; cbn [bind] in Hrun.
      2:{ injection Hrun as ->. apply py_getitem_raises in Hd1. discriminate. }
      destruct (py_getitem (files (snd kg)) b) as [d2|e] eqn:Hd2; cbn [bind] in Hrun.
      2:{ injection Hrun as ->. apply py_getitem_raises in Hd2. discriminate. }
      destruct (labelled_layout a b d1 d2) as [ly|e] eqn:Hly; cbn [bind] in Hrun.
      2:{ injection Hrun as ->. apply create_layout_raises in Hly. discriminate. }
      destruct (py_getitem figures_dict title) as [stored|e] eqn:Hst;
        cbn [bind] in Hrun; [discriminate|].
      injection Hrun as ->. apply py_getitem_raises in Hst. discriminate.
    + intros [Hsee Hev]. exfalso. unfold select_group in Hgroup.
      rewrite Hsee, Hev in Hgroup.
      destruct (str_contains "WPI" title); discriminate.
  - destruct (select_group_raises _ _ Hgroup) as (-> & Hsee & Hev).
    split; [intros _; split; assumption|reflexivity].
Qed.

Lemma select_graph_invalid_title_witness :
  select_graph (fun fg _ _ => fg) [] "alpha+beta" ∅ = Raise ValueError.
Proof.
  apply (select_graph_invalid_title (fun fg _ _ => fg) [] "alpha+beta" ∅).
  - reflexivity.
  - split; reflexivity.
Defined.

(** The group [select_graph] reads is the one at the index [select_group]
    picks: an index that is not below the number of groups raises
    [IndexError], and when the group at that index has no file for the first
    name the call raises [KeyError]. *)
Lemma select_graph_reads_group
    (update_layout : figure -> layout -> string -> figure)
    (surface_data : list (string * group))
    (title : string) (figures_dict : gmap string figure) (k : nat) :
  str_contains "+" title = true ->
  select_group title = Ok (Z.of_nat k) ->
  ((length surface_data <= k)%nat ->
   select_graph update_layout surface_data title figures_dict = Raise IndexError)
  /\ (forall kg name_1,
        surface_data !! k = Some kg ->
        py_index (py_split "+"%char title) 0 = Ok name_1 ->
        files (snd kg) !! name_1 = None ->
        select_graph update_layout surface_data title figures_dict = Raise KeyError).
Proof.
  intros Hplus Hgroup. unfold select_graph.
  destruct (py_split_with_plus _ Hplus) as (a & b & rest & ->).
  rewrite py_index_0_cons, py_index_cons_1. cbn [bind].
  rewrite Hgroup. cbn [bind]. split.
  - intros Hlen. rewrite (py_index_past_end _ _ Hlen). reflexivity.
  - intros kg name_1 Hkg [= <-] Hnone.
    rewrite (py_index_nat _ _ _ Hkg). cbn [bind].
    unfold py_getitem. rewrite Hnone. reflexivity.
Qed.

(** X20: the group is picked by a fixed index read off the title: "WPI" and
    "SEE" give 3, "WPI" and "EV" (without "SEE") 2, "SEE" without "WPI" 1,
    "EV" alone 0.  For a title with a "+", [select_graph] reads the group at
    that index of [surface_data]: it raises [IndexError] when the index is
    not below the number of groups, and [KeyError] when the group at that
    index has no file for the first name. *)
Theorem select_graph_group_out_of_range
    (update_layout : figure -> layout -> string -> figure)
    (surface_data : list (string * group))
    (title : string) (figures_dict : gmap string figure) :
  str_contains "+" title = true ->
  let reads (k : nat) : Prop :=
    select_group title = Ok (Z.of_nat k)
    /\ ((length surface_data <= k)%nat ->
        select_graph update_layout surface_data title figures_dict = Raise IndexError)
    /\ (forall kg name_1,
          surface_data !! k = Some kg ->
          py_index (py_split "+"%char title) 0 = Ok name_1 ->
          files (snd kg) !! name_1 = None ->
          select_graph update_layout surface_data title figures_dict = Raise KeyError) in
  (str_contains "WPI" title = true -> str_contains "SEE" title = true -> reads 3%nat)
  /\ (str_contains "WPI" title = true -> str_contains "SEE" title = false ->
      str_contains "EV" title = true -> reads 2%nat)
  /\ (str_contains "WPI" title = false -> str_contains "SEE" title = true ->
      reads 1%nat)
  /\ (str_contains "WPI" title = false -> str_contains "SEE" title = false ->
      str_contains "EV" title = true -> reads 0%nat).
Proof.
  intros Hplus reads.
  assert (Hreads : forall k, select_group title = Ok (Z.of_nat k) -> reads k).
  { intros k Hk. split; [exact Hk|].
    exact (select_graph_reads_group update_layout surface_data title figures_dict k
             Hplus Hk). }
  unfold select_group in Hreads.
  split; [|split; [|split]]; intros; apply Hreads;
    repeat match goal with H : str_contains _ title = _ |- _ => rewrite H; clear H end;
    reflexivity.
Qed.

(** A "WPI"/"SEE" title needs a fourth group: with one group only the call
    raises [IndexError]. *)
Lemma select_graph_group_out_of_range_witness :
  select_graph (fun fg _ _ => fg) [("only", demo_group)] "WPI_SEE_A+WPI_SEE_B" ∅
  = Raise IndexError.
Proof.
  refine (proj1 (proj2 (proj1 (select_graph_group_out_of_range (fun fg _ _ => fg)
           [("only", demo_group)] "WPI_SEE_A+WPI_SEE_B" ∅ _) _ _)) _).
  - reflexivity.
  - reflexivity.
  - reflexivity.
  - cbn. lia.
Defined.

(** X21: when [select_graph] returns, the title was already a key of the
    store; the new store differs from the old one only under that key, where
    it now holds the returned figure (the stored figure after
    [update_layout]); no key is added or removed. *)
Theorem select_graph_updates_one_entry
    (update_layout : figure -> layout -> string -> figure)
    (surface_data : list (string * group))
    (title : string) (figures_dict store' : gmap string figure) (fig : figure) :
  select_graph update_layout surface_data title figures_dict = Ok (fig, store') ->
  (exists stored ly,
     figures_dict !! title = Some stored /\ fig = update_layout stored ly title)
  /\ store' = <[title := fig]> figures_dict
  /\ store' !! title = Some fig
  /\ (forall key, key <> title -> store' !! key = figures_dict !! key)
  /\ dom store' = dom figures_dict.
Proof.
  unfold select_graph. intros Hrun.
  destruct (py_index (py_split "+"%char title) 0) as [a|]; cbn [bind] in Hrun;
    [|discriminate].
  destruct (py_index (py_split "+"%char title) 1) as [b|]; cbn [bind] in Hrun;
    [|discriminate].
  destruct (select_group title) as [gi|]; cbn [bind] in Hrun; [|discriminate].
  destruct (py_index surface_data gi) as [kg|]; cbn [bind] in Hrun; [|discriminate].
  destruct (py_getitem (files (snd kg)) a) as [d1|]; cbn [bind] in Hrun; [|discriminate].
  destruct (py_getitem (files (snd kg)) b) as [d2|]; cbn [bind] in Hrun; [|discriminate].
  destruct (labelled_layout a b d1 d2) as [ly|]; cbn [bind] in Hrun; [|discriminate].
  unfold py_getitem in Hrun.
  destruct (figures_dict !! title) as [stored|] eqn:Hst; cbn [bind] in Hrun;
    [|discriminate].
  injection Hrun as <- <-.
  split; [exists stored, ly; split; reflexivity|].
  split; [reflexivity|].
  split; [apply lookup_insert_eq|].
  split; [intros key Hne; apply lookup_insert_ne; congruence|].
  rewrite dom_insert_L. apply subseteq_union_1_L, singleton_subseteq_l.
  apply elem_of_dom. eauto.
Qed.

Lemma select_graph_updates_one_entry_witness :
  exists fig store',
    select_graph (fun fg _ _ => fg) [("a", demo_group); ("b", demo_group)]
                 "CS_SEE_A+CS_SEE_B"
                 {[ "CS_SEE_A+CS_SEE_B" := {| fig_data := []; fig_layout := None |} ]}
    = Ok (fig, store')
    /\ store' !! "CS_SEE_A+CS_SEE_B" = Some fig.
Proof.
  eexists _, _. split; [vm_compute; reflexivity|].
  refine (proj1 (proj2 (proj2
    (select_graph_updates_one_entry (fun fg _ _ => fg)
       [("a", demo_group); ("b", demo_group)] "CS_SEE_A+CS_SEE_B"
       {[ "CS_SEE_A+CS_SEE_B" := {| fig_data := []; fig_layout := None |} ]}
       _ _ _)))).
  vm_compute. reflexivity.
Defined.

(** ** [update_graph] after [add_trace] *)

(** X22: the store written by a click is what the graph shows next:
    whenever the click returns and the store change then triggers
    [update_graph], it returns the figure with the label and the cone
    behind the old traces; when anything else triggered it, it declines to
    update, whatever the store holds. *)
Theorem add_trace_then_update_graph {plotly : TraceValidator}
    (n : Z) (x y text color : pyval) (z : Q) (fg : figure)
    (selected_graph : string) (figures_dict store' : gmap string figure)
    (first : gmap string pyval) (others : list (gmap string pyval)) (prop_id : pyval) :
  first !! "prop_id" = Some prop_id ->
  add_trace (Some n) x y (PNum z) text color fg selected_graph figures_dict
  = Ok store' ->
  (prop_id = PStr "figure-store.data" ->
   update_graph (first :: others) store' selected_graph
   = Return {| fig_data := fig_data fg
                           ++ [Scatter3d (annotation_label x y (PNum z) text);
                               Cone (annotation_cone x y (PNum (z - 1)) color)];
               fig_layout := fig_layout fg |})
  /\ (prop_id <> PStr "figure-store.data" ->
      forall store selected,
        update_graph (first :: others) store selected = PreventUpdate).
Proof.
  intros Hprop. rewrite add_trace_click.
  destruct (_ && _); [|discriminate]. intros [= <-].
  unfold update_graph. rewrite py_index_0_cons. unfold py_getitem. rewrite Hprop.
  split.
  - intros ->. cbn [py_eq_str]. rewrite String.eqb_refl, lookup_insert_eq.
    reflexivity.
  - intros Hne store selected. rewrite (py_eq_str_false _ _ Hne). reflexivity.
Qed.

(** A red marker added to an empty plot window. *)
Lemma add_trace_then_update_graph_witness :
  exists store',
    add_trace (plotly := sample_traces) (Some 1) (PNum 2) (PNum 0.5) (PNum 2.15)
              (PStr "Max working conditions") (PStr "red")
              {| fig_data := []; fig_layout := None |} "a+b" ∅ = Ok store'
    /\ update_graph [ {[ "prop_id" := PStr "figure-store.data" ]} ] store' "a+b"
       = Return {| fig_data :=
                     [Scatter3d (annotation_label (PNum 2) (PNum 0.5) (PNum 2.15)
                                   (PStr "Max working conditions"));
                      Cone (annotation_cone (PNum 2) (PNum 0.5) (PNum (2.15 - 1))
                              (PStr "red"))];
                   fig_layout := None |}.
Proof.
  eexists. split; [rewrite add_trace_click; reflexivity|].
  refine (proj1 (add_trace_then_update_graph (plotly := sample_traces)
            1 (PNum 2) (PNum 0.5) (PStr "Max working conditions") (PStr "red")
            2.15 {| fig_data := []; fig_layout := None |} "a+b" ∅ _
            {[ "prop_id" := PStr "figure-store.data" ]} []
            (PStr "figure-store.data") _ _) _).
  - vm_compute. reflexivity.
  - rewrite add_trace_click. reflexivity.
  - reflexivity.
Defined.

(** ** The start-up code: layouts, dropdown options, figure store *)

Lemma layouts_loop_group (g : group) (k a : nat)
    (st st' : list dropdown_option * list layout) :
  (a + k)%nat = length (combinations g) ->
  for_each (layouts_step g) (map Z.of_nat (seq a k)) st = Ok st' ->
  exists new_options new_layouts,
    st' = (fst st ++ new_options, snd st ++ new_layouts)
    /\ map opt_value new_options = map pair_key (drop a (combinations g))
    /\ Forall2 (fun ly names => pair_layout_is g names ly)
               new_layouts (drop a (combinations g)).
Proof.
  revert a st. induction k as [|k IH]; intros a st Hlen Hrun.
  - injection Hrun as <-. exists [], [].
    rewrite !app_nil_r, drop_ge by lia.
    split; [destruct st; reflexivity|]. split; [reflexivity|constructor].
  - destruct (combinations g !! a) as [names|] eqn:Hnames.
    2:{ apply lookup_ge_None in Hnames. lia. }
    cbn [seq map for_each] in Hrun. unfold layouts_step at 1 in Hrun.
    rewrite (py_index_nat _ _ _ Hnames) in Hrun. cbn [bind] in Hrun.
    unfold py_getitem in Hrun.
    destruct (files g !! fst names) as [s1|] eqn:Hs1; cbn [bind] in Hrun;
      [|discriminate].
    destruct (files g !! snd names) as [s2|] eqn:Hs2; cbn [bind] in Hrun;
      [|discriminate].
    destruct (labelled_layout (fst names) (snd names) s1 s2) as [ly|] eqn:Hly;
      cbn [bind] in Hrun; [|discriminate].
    destruct (IH (S a) _ ltac:(lia) Hrun) as (newo & newl & -> & Hopts & Hlays).
    cbn [fst snd].
    exists ({| opt_label := pair_key names; opt_value := pair_key names |} :: newo),
           (ly :: newl).
    rewrite (drop_S _ _ _ Hnames), <- !app_assoc. cbn [app map opt_value].
    split; [reflexivity|]. split; [rewrite Hopts; reflexivity|].
    constructor; [|exact Hlays]. exists s1, s2. auto.
Qed.

Lemma build_layouts_pairs (surface_data : list (string * group))
    (options : list dropdown_option) (layouts : list layout) :
  build_layouts surface_data = Ok (options, layouts) ->
  map opt_value options = map (fun gn => pair_key (snd gn)) (all_pairs surface_data)
  /\ Forall2 (fun ly gn => pair_layout_is (fst gn) (snd gn) ly)
             layouts (all_pairs surface_data).
Proof.
  unfold build_layouts.
  assert (Hloop : forall sd st st',
             for_each
               (fun st (kg : string * group) =>
                  for_each (layouts_step (snd kg))
                           (py_range (Z.of_nat (length (combinations (snd kg))))) st)
               sd st = Ok st' ->
             exists new_options new_layouts,
               st' = (fst st ++ new_options, snd st ++ new_layouts)
               /\ map opt_value new_options
                  = map (fun gn => pair_key (snd gn)) (all_pairs sd)
               /\ Forall2 (fun ly gn => pair_layout_is (fst gn) (snd gn) ly)
                          new_layouts (all_pairs sd)).
  { intros sd. induction sd as [|kg sd IH]; intros st st' Hrun.
    - injection Hrun as <-. exists [], []. rewrite !app_nil_r.
      split; [destruct st; reflexivity|]. split; [reflexivity|constructor].
    - cbn [for_each] in Hrun.
      destruct (for_each (layouts_step (snd kg)) _ st) as [mid|] eqn:Hmid;
        cbn [bind] in Hrun; [|discriminate].
      unfold py_range in Hmid. rewrite Nat2Z.id in Hmid.
      destruct (layouts_loop_group _ _ 0 _ _ eq_refl Hmid)
        as (o1 & l1 & -> & Ho1 & Hl1).
      rewrite drop_0 in Ho1, Hl1.
      destruct (IH _ _ Hrun) as (o2 & l2 & -> & Ho2 & Hl2).
      cbn [fst snd]. exists (o1 ++ o2), (l1 ++ l2). rewrite <- !app_assoc.
      split; [reflexivity|].
      unfold all_pairs. cbn [flat_map]. fold (all_pairs sd).
      rewrite !map_app, map_map. cbn [snd]. split.
      + rewrite Ho1, Ho2. reflexivity.
      + apply Forall2_app; [|exact Hl2].
        apply Forall2_fmap_r. cbn [fst snd].
        eapply Forall2_impl; [exact Hl1|]. intros ? ? H. exact H. }
  intros Hrun. destruct (Hloop _ _ _ Hrun) as (o & l & Heq & Ho & Hl).
  cbn [fst snd app] in Heq. injection Heq as -> ->. split; assumption.
Qed.

Lemma elem_of_py_enumerate {A : Type} (l : list A) (i : Z) (x : A) :
  (i, x) ∈ py_enumerate l <-> exists k : nat, i = Z.of_nat k /\ l !! k = Some x.
Proof.
  unfold py_enumerate. rewrite list_elem_of_lookup. split.
  - intros (k & Hk). apply lookup_zip_with_Some in Hk as (zi & y & Heq & Hzi & Hy).
    injection Heq as -> ->. exists k. split; [|exact Hy].
    rewrite list_lookup_fmap in Hzi.
    destruct (seq 0 (length l) !! k) as [j|] eqn:Hj; [|discriminate].
    apply lookup_seq in Hj as [-> _]. cbn in Hzi. congruence.
  - intros (k & -> & Hx). exists k. apply lookup_zip_with_Some.
    exists (Z.of_nat k), x. split; [reflexivity|]. split; [|exact Hx].
    rewrite list_lookup_fmap, lookup_seq_lt by (apply lookup_lt_Some in Hx; exact Hx).
    reflexivity.
Qed.

Lemma build_figures_loop (traces : list (surface * surface)) (layouts : list layout)
    (options : list dropdown_option) (items : list (Z * dropdown_option))
    (acc : gmap string figure) :
  (forall i o, (i, o) ∈ items ->
     exists k : nat, i = Z.of_nat k /\ options !! k = Some o
                     /\ (k < length traces)%nat /\ (k < length layouts)%nat) ->
  exists out,
    for_each
      (fun figures (iopt : Z * dropdown_option) =>
         pair <- py_index traces (fst iopt) ;;
         ly <- py_index layouts (fst iopt) ;;
         Ok (<[opt_value (snd iopt) := pair_figure pair ly]> figures))
      items acc = Ok out
    /\ (forall key f, out !! key = Some f ->
          acc !! key = Some f
          \/ exists (k : nat) o pair ly,
               options !! k = Some o /\ opt_value o = key
               /\ traces !! k = Some pair /\ layouts !! k = Some ly
               /\ f = pair_figure pair ly)
    /\ (forall key, is_Some (acc !! key) -> is_Some (out !! key))
    /\ (forall i o, (i, o) ∈ items -> is_Some (out !! opt_value o)).
Proof.
  revert acc. induction items as [|[i o] items IH]; intros acc Hitems.
  - exists acc. split; [reflexivity|]. split; [intros; left; assumption|].
    split; [auto|]. intros i o Hin. by apply elem_of_nil in Hin.
  - destruct (Hitems i o (list_elem_of_here _ _)) as (k & -> & Ho & Hkt & Hkl).
    destruct (lookup_lt_is_Some_2 traces k Hkt) as [pair Hpair].
    destruct (lookup_lt_is_Some_2 layouts k Hkl) as [ly Hly].
    cbn [for_each fst snd].
    rewrite (py_index_nat _ _ _ Hpair), (py_index_nat _ _ _ Hly). cbn [bind].
    destruct (IH (<[opt_value o := pair_figure pair ly]> acc)) as (out & Hrun & Hfrom & Hkeep & Hall).
    { intros i' o' Hin. apply Hitems. apply list_elem_of_further. exact Hin. }
    exists out. split; [exact Hrun|]. split; [|split].
    + intros key f Hf. destruct (Hfrom key f Hf) as [Hacc|Hnew]; [|right; exact Hnew].
      destruct (decide (opt_value o = key)) as [Heq|Hne].
      * rewrite <- Heq, lookup_insert_eq in Hacc. injection Hacc as <-.
        right. exists k, o, pair, ly. auto.
      * rewrite lookup_insert_ne in Hacc by exact Hne. left. exact Hacc.
    + intros key Hkey. apply Hkeep.
      destruct (decide (opt_value o = key)) as [<-|Hne].
      * rewrite lookup_insert_eq. eauto.
      * rewrite lookup_insert_ne by exact Hne. exact Hkey.
    + intros i' o' Hin. apply elem_of_cons in Hin as [Heq|Hin].
      * injection Heq as -> ->. apply Hkeep. rewrite lookup_insert_eq. eauto.
      * exact (Hall i' o' Hin).
Qed.

(** What the start-up code leaves behind, pair by pair. *)
Lemma startup_figures {plotly : SurfaceValidator}
    (surface_data : list (string * group))
    (figures : gmap string figure) (options : list dropdown_option) :
  startup surface_data = Ok (figures, options) ->
  map opt_value options = map (fun gn => pair_key (snd gn)) (all_pairs surface_data)
  /\ (forall key f, figures !! key = Some f ->
        exists (k : nat) g names pair ly,
          all_pairs surface_data !! k = Some (g, names) /\ key = pair_key names
          /\ pair_surfaces g names = Ok pair /\ pair_layout_is g names ly
          /\ f = pair_figure pair ly)
  /\ (forall (k : nat) g names,
        all_pairs surface_data !! k = Some (g, names) ->
        is_Some (figures !! pair_key names)).
Proof.
  unfold startup. intros Hrun.
  destruct (build_traces surface_data) as [traces|] eqn:Htraces; cbn [bind] in Hrun;
    [|discriminate].
  destruct (build_layouts surface_data) as [[opts lays]|] eqn:Hlayouts;
    cbn [bind fst snd] in Hrun; [|discriminate].
  apply build_traces_pairs in Htraces.
  apply build_layouts_pairs in Hlayouts as [Hopts Hlays].
  pose proof (Forall2_length _ _ _ Htraces) as Hlen_t.
  pose proof (Forall2_length _ _ _ Hlays) as Hlen_l.
  assert (Hlen_o : length opts = length (all_pairs surface_data)).
  { rewrite <- (length_map opt_value opts), Hopts, length_map. reflexivity. }
  destruct (build_figures_loop traces lays opts (py_enumerate opts) ∅)
    as (out & Hfig & Hfrom & _ & Hall).
  { intros i o Hin. apply elem_of_py_enumerate in Hin as (k & -> & Ho).
    exists k. pose proof (lookup_lt_Some _ _ _ Ho). repeat split; (assumption || lia). }
  unfold build_figures in Hrun. rewrite Hfig in Hrun. cbn [bind] in Hrun.
  injection Hrun as <- <-.
  assert (Hkey : forall (k : nat) o g names,
             opts !! k = Some o -> all_pairs surface_data !! k = Some (g, names) ->
             opt_value o = pair_key names).
  { intros k o g names Ho Hgn.
    assert (Hk : map opt_value opts !! k = Some (opt_value o))
      by (rewrite list_lookup_fmap, Ho; reflexivity).
    rewrite Hopts, list_lookup_fmap, Hgn in Hk. cbn in Hk. congruence. }
  split; [exact Hopts|]. split.
  - intros key f Hf. destruct (Hfrom key f Hf) as [Hempty|Hnew].
    { rewrite lookup_empty in Hempty. discriminate. }
    destruct Hnew as (k & o & pair & ly & Ho & Hvalue & Hpair & Hly & ->).
    destruct (Forall2_lookup_l _ _ _ _ _ Htraces Hpair) as ([g names] & Hgn & Hsurf).
    destruct (Forall2_lookup_l _ _ _ _ _ Hlays Hly) as (gn' & Hgn' & Hlayout).
    rewrite Hgn in Hgn'. injection Hgn' as <-. cbn [fst snd] in *.
    exists k, g, names, pair, ly.
    split; [exact Hgn|]. split; [rewrite <- Hvalue; eauto|]. auto.
  - intros k g names Hgn.
    destruct (lookup_lt_is_Some_2 opts k) as [o Ho].
    { rewrite Hlen_o. apply lookup_lt_Some in Hgn. exact Hgn. }
    rewrite <- (Hkey k o g names Ho Hgn).
    apply (Hall (Z.of_nat k) o). apply elem_of_py_enumerate. eauto.
Qed.

Lemma elem_of_all_pairs (surface_data : list (string * group))
    (g : group) (names : string * string) :
  (g, names) ∈ all_pairs surface_data
  <-> exists key, (key, g) ∈ surface_data /\ names ∈ combinations g.
Proof.
  unfold all_pairs. induction surface_data as [|[k0 g0] sd IH]; cbn [flat_map snd].
  - split; [intros H; by apply elem_of_nil in H|].
    intros (key & H & _). by apply elem_of_nil in H.
  - rewrite elem_of_app, IH, list_elem_of_fmap. split.
    + intros [(nm & [= -> ->] & Hnm)|(key & Hin & Hnm)].
      * exists k0. split; [apply list_elem_of_here|exact Hnm].
      * exists key. split; [apply list_elem_of_further; exact Hin|exact Hnm].
    + intros (key & Hin & Hnm). apply elem_of_cons in Hin as [[= -> ->]|Hin].
      * left. exists names. split; [reflexivity|exact Hnm].
      * right. exists key. split; assumption.
Qed.

Lemma pair_surfaces_showscale {plotly : SurfaceValidator}
    (g : group) (names : string * string) (s1 s2 : surface) :
  pair_surfaces g names = Ok (s1, s2) -> showscale s1 = negb (showscale s2).
Proof.
  destruct names as [name_1 name_2]. intros Hrun.
  apply pair_surfaces_Ok in Hrun
    as (d1 & d2 & m1 & m2 & cs1 & cs2 & k1 & k2 & _ & _ & _ & _
        & _ & _ & _ & _ & -> & -> & _ & _).
  cbn [surface_kwargs showscale]. destruct (Qgtb m2 m1); reflexivity.
Qed.

(** X23: when the module-level code runs through, the store has a figure
    for every pair of every group, under the key [name_1+name_2]; every
    dropdown option has its figure; and every figure of the store consists
    of exactly the two surfaces of one such pair, one of them with the
    colour bar, together with the layout built for that same pair. *)
Theorem startup_store {plotly : SurfaceValidator}
    (surface_data : list (string * group))
    (figures : gmap string figure) (options : list dropdown_option) :
  startup surface_data = Ok (figures, options) ->
  (forall key g names,
     (key, g) ∈ surface_data -> names ∈ combinations g ->
     is_Some (figures !! pair_key names))
  /\ (forall o, o ∈ options -> is_Some (figures !! opt_value o))
  /\ length options = length (all_pairs surface_data)
  /\ (forall key f, figures !! key = Some f ->
        exists group_key g names s1 s2 ly,
          (group_key, g) ∈ surface_data /\ names ∈ combinations g
          /\ key = pair_key names
          /\ pair_surfaces g names = Ok (s1, s2)
          /\ pair_layout_is g names ly
          /\ f = {| fig_data := [Surface s1; Surface s2]; fig_layout := Some ly |}
          /\ showscale s1 = negb (showscale s2)).
Proof.
  intros Hrun. destruct (startup_figures _ _ _ Hrun) as (Hopts & Hfrom & Hall).
  assert (Hlen : length options = length (all_pairs surface_data)).
  { rewrite <- (length_map opt_value options), Hopts, length_map. reflexivity. }
  split; [|split; [|split]].
  - intros key g names Hg Hnames.
    assert (Hin : (g, names) ∈ all_pairs surface_data)
      by (apply elem_of_all_pairs; eauto).
    apply list_elem_of_lookup in Hin as [k Hk]. exact (Hall k g names Hk).
  - intros o Ho. apply list_elem_of_lookup in Ho as [k Hk].
    destruct (lookup_lt_is_Some_2 (all_pairs surface_data) k) as [[g names] Hgn].
    { rewrite <- Hlen. apply lookup_lt_Some in Hk. exact Hk. }
    assert (Hvalue : map opt_value options !! k = Some (opt_value o))
      by (rewrite list_lookup_fmap, Hk; reflexivity).
    rewrite Hopts, list_lookup_fmap, Hgn in Hvalue. cbn in Hvalue.
    injection Hvalue as Hvalue. rewrite <- Hvalue. exact (Hall k g names Hgn).
  - exact Hlen.
  - intros key f Hf.
    destruct (Hfrom key f Hf) as (k & g & names & [s1 s2] & ly & Hk & -> & Hpair & Hly & ->).
    assert (Hin : (g, names) ∈ all_pairs surface_data)
      by (apply list_elem_of_lookup; eauto).
    apply elem_of_all_pairs in Hin as (group_key & Hg & Hnames).
    exists group_key, g, names, s1, s2, ly.
    repeat split; try assumption.
    exact (pair_surfaces_showscale _ _ _ _ Hpair).
Qed.

Lemma startup_store_witness :
  exists figures options,
    startup (plotly := sample_surfaces) [("k", demo_group)] = Ok (figures, options)
    /\ is_Some (figures !! pair_key ("CS_SEE_A", "CS_SEE_B")).
Proof.
  eexists _, _. split; [vm_compute; reflexivity|].
  refine (proj1 (startup_store (plotly := sample_surfaces) [("k", demo_group)] _ _ _)
            "k" demo_group
            ("CS_SEE_A", "CS_SEE_B") _ _).
  - vm_compute. reflexivity.
  - apply list_elem_of_here.
  - apply list_elem_of_here.
Defined.

Lemma py_index_nat_inv {A : Type} (l : list A) (i : nat) (x : A) :
  py_index l (Z.of_nat i) = Ok x -> l !! i = Some x.
Proof.
  unfold py_index.
  rewrite (proj2 (Z.ltb_ge (Z.of_nat i) 0)) by lia.
  destruct ((0 <=? _) && _); [|discriminate].
  rewrite Nat2Z.id. destruct (l !! i); [congruence|discriminate].
Qed.

(** X24: the dropdown's initial value is the first pair of the second
    group: computing it raises [IndexError] when there are fewer than two
    groups, and whenever it exists and the start-up code runs through, the
    store has a figure under it. *)
Theorem default_selection_in_store {plotly : SurfaceValidator}
    (surface_data : list (string * group)) :
  ((length surface_data < 2)%nat -> default_selection surface_data = Raise IndexError)
  /\ (forall key figures options,
        default_selection surface_data = Ok key ->
        startup surface_data = Ok (figures, options) ->
        is_Some (figures !! key)).
Proof.
  split.
  - intros Hlen. unfold default_selection.
    change (py_index surface_data 1) with (py_index surface_data (Z.of_nat 1)).
    rewrite (py_index_past_end surface_data 1) by lia. reflexivity.
  - intros key figures options Hkey Hrun. unfold default_selection in Hkey.
    destruct (py_index surface_data 1) as [kg|] eqn:Hkg; cbn [bind] in Hkey;
      [|discriminate].
    destruct (py_index (combinations (snd kg)) 0) as [names|] eqn:Hnames;
      cbn [bind] in Hkey; [|discriminate].
    injection Hkey as <-.
    apply (py_index_nat_inv _ 1) in Hkg. apply (py_index_nat_inv _ 0) in Hnames.
    destruct (startup_figures _ _ _ Hrun) as (_ & _ & Hall).
    assert (Hin : (snd kg, names) ∈ all_pairs surface_data).
    { apply elem_of_all_pairs. exists (fst kg). split.
      - apply (list_elem_of_lookup_2 _ 1%nat). destruct kg. exact Hkg.
      - apply (list_elem_of_lookup_2 _ 0%nat). exact Hnames. }
    apply list_elem_of_lookup in Hin as [k Hk].
    exact (Hall k _ _ Hk).
Qed.

(** ** The corner of a transposed grid *)

Lemma transpose_cons_cons (row row' : list Q) (rest : grid) :
  transpose (row :: row' :: rest) = zip_with cons row (transpose (row' :: rest)).
Proof. reflexivity. Qed.

(** Entry [(j, i)] of the transpose is entry [(i, j)] of the array. *)
Lemma transpose_lookup (a : grid) (cols : nat) :
  Forall (fun row => length row = cols) a ->
  forall i j : nat,
    (transpose a !! j) ≫= (fun col => col !! i) = (a !! i) ≫= (fun row => row !! j).
Proof.
  unfold grid in *.
  induction a as [|row rest IH]; intros Hrect i j; [reflexivity|].
  apply Forall_cons in Hrect as [Hrow Hrest].
  destruct rest as [|row' rest].
  - change (transpose [row]) with (map (fun v : Q => [v]) row).
    rewrite list_lookup_fmap.
    destruct (row !! j) as [v|] eqn:Hv; cbn.
    + destruct i as [|i]; cbn; [rewrite Hv; reflexivity|reflexivity].
    + destruct i as [|i]; cbn; [rewrite Hv; reflexivity|reflexivity].
  - rewrite transpose_cons_cons, lookup_zip_with.
    pose proof (length_transpose (row' :: rest) cols ltac:(discriminate) Hrest) as Hlen.
    specialize (IH Hrest).
    remember (transpose (row' :: rest)) as T eqn:HT. clear HT.
    remember (row' :: rest) as b eqn:Hb. clear Hb. unfold grid in *.
    destruct (row !! j) as [v|] eqn:Hv.
    + destruct (T !! j) as [col|] eqn:Hcol.
      2:{ apply lookup_ge_None in Hcol. apply lookup_lt_Some in Hv. lia. }
      destruct i as [|i]; cbn; [rewrite Hv; reflexivity|].
      specialize (IH i j). rewrite Hcol in IH. cbn in IH. exact IH.
    + destruct i as [|i]; cbn; [rewrite Hv; reflexivity|].
      apply lookup_ge_None in Hv.
      destruct (b !! i) as [r|] eqn:Hr; cbn; [|reflexivity].
      symmetry. apply lookup_ge_None.
      assert (Hin : r ∈ b) by (apply (list_elem_of_lookup_2 _ i); exact Hr).
      rewrite Forall_forall in Hrest. rewrite (Hrest r Hin). lia.
Qed.

Lemma transpose_no_columns (a : grid) :
  Forall (fun row => length row = 0%nat) a -> transpose a = [].
Proof.
  induction a as [|row rest IH]; intros Hrect; [reflexivity|].
  apply Forall_cons in Hrect as [Hrow Hrest].
  apply nil_length_inv in Hrow as ->.
  destruct rest; reflexivity.
Qed.

Lemma extracted_corner_option (arg0 : grid) :
  _extracted_from_create_layout_31 arg0
  = match last arg0 ≫= last with
    | Some v => Ok v
    | None => Raise IndexError
    end.
Proof.
  rewrite extracted_corner. destruct (last arg0) as [row|]; [|reflexivity].
  cbn. destruct (last row); reflexivity.
Qed.

(** X25: for a rectangular grid the bottom-right corner survives the
    transposition the pair loop applies to "WIP" names: reading the corner of
    the grid as filed (what the layout does) and of the grid as drawn (what
    the surface holds) gives the same value, or [IndexError] in both cases. *)
Theorem corner_of_oriented_grid (name : string) (a : grid) (cols : nat) :
  Forall (fun row => length row = cols) a ->
  _extracted_from_create_layout_31 (oriented name a)
  = _extracted_from_create_layout_31 a.
Proof.
  intros Hrect. unfold oriented.
  destruct (str_contains "WIP" name); [|reflexivity].
  destruct a as [|row0 rest0] eqn:Ha; [reflexivity|]. rewrite <- Ha in *.
  assert (Hne : a <> []) by (rewrite Ha; discriminate).
  clear Ha row0 rest0.
  destruct cols as [|c].
  { rewrite (transpose_no_columns _ Hrect).
    rewrite (extracted_empty_grid a); [reflexivity|].
    clear -Hrect. induction Hrect as [|row rest Hrow _ IH]; [reflexivity|].
    apply nil_length_inv in Hrow as ->. exact IH. }
  rewrite !extracted_corner_option.
  pose proof (length_transpose a (S c) Hne Hrect) as Hlen.
  pose proof (transpose_lookup a (S c) Hrect) as Hswap.
  remember (transpose a) as T eqn:HT. clear HT. unfold grid in *.
  set (r := length a) in *. assert (Hr : (0 < r)%nat).
  { subst r. destruct a; [congruence|cbn; lia]. }
  assert (Hfiled : last a ≫= last = a !! Nat.pred r ≫= (fun row => row !! c)).
  { rewrite (last_lookup a). fold r.
    destruct (a !! Nat.pred r) as [row|] eqn:Hrow; [|reflexivity]. cbn.
    assert (Hrow_len : length row = S c).
    { rewrite Forall_forall in Hrect. apply Hrect.
      apply (list_elem_of_lookup_2 _ (Nat.pred r)). exact Hrow. }
    rewrite (last_lookup row), Hrow_len. reflexivity. }
  assert (Hdrawn : last T ≫= last = T !! c ≫= (fun col => col !! Nat.pred r)).
  { rewrite (last_lookup T), Hlen. cbn [Nat.pred].
    destruct (T !! c) as [col|] eqn:Hcol; [|reflexivity]. cbn.
    assert (Hcol_len : length col = r).
    { pose proof (Hswap r c) as Hpast. pose proof (Hswap (Nat.pred r) c) as Hlast.
      rewrite Hcol in Hpast, Hlast. cbn in Hpast, Hlast.
      rewrite (lookup_ge_None_2 a r) in Hpast by (subst r; lia). cbn in Hpast.
      apply lookup_ge_None in Hpast.
      destruct (a !! Nat.pred r) as [row|] eqn:Hrow.
      2:{ apply lookup_ge_None in Hrow. lia. }
      cbn in Hlast.
      assert (Hrow_len : length row = S c).
      { rewrite Forall_forall in Hrect. apply Hrect.
        apply (list_elem_of_lookup_2 _ (Nat.pred r)). exact Hrow. }
      destruct (row !! c) as [v|] eqn:Hv.
      2:{ apply lookup_ge_None in Hv. lia. }
      apply lookup_lt_Some in Hlast. lia. }
    rewrite (last_lookup col), Hcol_len. reflexivity. }
  rewrite Hfiled, Hdrawn, (Hswap (Nat.pred r) c). reflexivity.
Qed.

Lemma corner_of_oriented_grid_witness :
  _extracted_from_create_layout_31 (oriented "WIP_A" [[1; 2; 3]; [4; 5; 6]]%Q)
  = _extracted_from_create_layout_31 [[1; 2; 3]; [4; 5; 6]]%Q.
Proof.
  apply (corner_of_oriented_grid "WIP_A" [[1; 2; 3]; [4; 5; 6]]%Q 3).
  repeat constructor.
Defined.
